(** * The Slack session adapter of the Matrix-Slack bridge

    A shallow embedding of package [connector] (files handleslack.go and
    handlematrix.go) together with the identifier scheme of package
    [slackid], and the properties of the adapter proved over it.

    Conventions of the embedding:
    - a Go [string] is a [string]; the identifier types of [networkid]
      ([PortalID], [UserID], [MessageID], [UserLoginID]) are defined string
      types and are strings here as well, [EmojiID] is kept as a wrapper;
    - a Go [error] value is an [option error], [None] being [nil];
    - a pointer that the code compares with [nil] is an [option];
    - a Go [map] is a stdpp [gmap];
    - the Slack API client, the RTM stream and the bridge framework are
      records of answers (what the collaborator returns to each call), and
      every call made to them is written to a trace of [Effect]s;
    - a method of the adapter runs in the monad [M]: it reads and updates
      the [SlackClient], appends to the trace, and either returns or
      panics. *)

From stdpp Require Import base option list gmap strings sorting pretty.
From Stdlib Require Import Ascii ZArith Lia.

Local Open Scope string_scope.
Local Open Scope Z_scope.

(** ** Package slackid *)

Module slackid.

(** [strings.Split(s, "-")]: the pieces of [s] between the occurrences
    of the separator; a string without separator is its only piece. *)
Definition sep : ascii := "-"%char.

Fixpoint Split (s : string) : list string :=
  match s with
  | EmptyString => [EmptyString]
  | String c rest =>
      if Ascii.eqb c sep then EmptyString :: Split rest
      else match Split rest with
           | [] => [String c EmptyString]
           | piece :: pieces => String c piece :: pieces
           end
  end.

(** [strings.ContainsRune(s, '-')]. *)
Fixpoint ContainsSep (s : string) : bool :=
  match s with
  | EmptyString => false
  | String c rest => Ascii.eqb c sep || ContainsSep rest
  end.

(** Modelled from the spec: package slackid is not among the sources,
    only its callers are. The spec (4.1) asks of every codec that it is
    pure, that team-scoped identifiers embed the team id, and that a
    decoder recognises the strings of its encoder by a required structural
    delimiter. The delimiter is the one the callers test for
    ([strings.ContainsRune(identifier, '-')] before [ParseUserID]), and the
    shapes of the results are those the callers destructure: a pair of
    strings for portals and users, both empty when the identifier is
    malformed (the callers test [channelID == ""]), and three strings with
    an [ok] flag for messages. *)
Definition MakePortalID (teamID channelID : string) : string :=
  teamID +:+ "-" +:+ channelID.

(** Modelled from the spec: see [MakePortalID]. *)
Definition ParsePortalID (id : string) : string * string :=
  match Split id with
  | [teamID; channelID] => (teamID, channelID)
  | _ => (EmptyString, EmptyString)
  end.

(** Modelled from the spec: see [MakePortalID]. The portal of the team
    itself carries no channel, hence no delimiter. *)
Definition MakeTeamPortalID (teamID : string) : string := teamID.

(** Modelled from the spec: see [MakePortalID]. *)
Definition MakeUserID (teamID userID : string) : string :=
  teamID +:+ "-" +:+ userID.

(** Modelled from the spec: see [MakePortalID]. *)
Definition ParseUserID (id : string) : string * string :=
  match Split id with
  | [teamID; userID] => (teamID, userID)
  | _ => (EmptyString, EmptyString)
  end.

(** Modelled from the spec: see [MakePortalID]. The remote timestamp is
    embedded as the string it is, so that it is recovered digit for
    digit. *)
Definition MakeMessageID (teamID channelID timestamp : string) : string :=
  teamID +:+ "-" +:+ channelID +:+ "-" +:+ timestamp.

(** Modelled from the spec: see [MakePortalID]. *)
Definition ParseMessageID (id : string) : string * string * string * bool :=
  match Split id with
  | [teamID; channelID; timestamp] => (teamID, channelID, timestamp, true)
  | _ => (EmptyString, EmptyString, EmptyString, false)
  end.

(** A component of an identifier is well formed when it does not contain
    the delimiter: Slack's team, channel and user ids are alphanumeric and
    its timestamps are decimal numbers with a point. *)
Definition WellFormed (component : string) : Prop :=
  ContainsSep component = false.

End slackid.

(** [networkid.EmojiID], a defined string type. The sources convert to it
    with [networkid.EmojiID(reaction)] (wrapReaction) and back with
    [string(emojiID)] (HandleMatrixReaction, HandleMatrixReactionRemove). *)
Record EmojiID : Type := mkEmojiID { emoji_string : string }.

(** ** Values exchanged with the collaborators

    Of the structures of slack-go, mautrix and the bridge framework only
    the fields the adapter reads or writes are kept. *)

(** Go's [error]. [err.Error()] is [Error_text]. *)
Inductive error : Type :=
  | ErrNotLoggedIn                                (* bridgev2.ErrNotLoggedIn *)
  | errors_New (text : string)                    (* errors.New(text) *)
  | Errorf_s (prefix arg : string)                (* fmt.Errorf("prefix %s", arg) *)
  | Errorf_w (prefix : string) (cause : error)    (* fmt.Errorf("prefix: %w", cause) *)
  | RemoteError (text : string).                  (* made by a collaborator *)

Fixpoint Error_text (err : error) : string :=
  match err with
  | ErrNotLoggedIn => "not logged in"
  | errors_New text => text
  | Errorf_s prefix arg => prefix +:+ " " +:+ arg
  | Errorf_w prefix cause => prefix +:+ ": " +:+ Error_text cause
  | RemoteError text => text
  end.

(** [time.Time], counted from Go's zero time. *)
Definition Time : Type := Z.
Definition zeroTime : Time := 0.

(** status.BridgeState *)
Inductive BridgeStateEvent : Type :=
  | StateConnecting | StateConnected | StateUnknownError | StateBadCredentials.

Record BridgeState : Type := mkBridgeState {
  StateEvent : BridgeStateEvent;
  BridgeState_Error : string;
  BridgeState_Message : string
}.

(** slack.Msg, slack.Channel, slack.ReactionItem, slack.MessageEvent *)
Record Msg : Type := mkMsg {
  Msg_SubType : string;
  Msg_Timestamp : string;
  Msg_Text : string
}.

Record Channel : Type := mkChannel {
  Channel_ID : string;
  IsIM : bool;
  Latest : option Msg;
  LastRead : string
}.

Record ReactionItem : Type := mkReactionItem {
  Item_Channel : string;
  Item_Timestamp : string
}.

Record MessageEvent : Type := mkMessageEvent {
  Message_Channel : string;
  Message_User : string;
  Message_Timestamp : string;
  SubType : string;
  DeletedTimestamp : string;
  Message_Text : string;
  SubMessage : option Msg;
  PreviousMessage : option Msg
}.

(** The message subtypes of slack-go that [GetType] names. *)
Definition MsgSubTypeMessageChanged : string := "message_changed".
Definition MsgSubTypeMessageDeleted : string := "message_deleted".
Definition MsgSubTypeChannelTopic : string := "channel_topic".
Definition MsgSubTypeChannelPurpose : string := "channel_purpose".
Definition MsgSubTypeChannelName : string := "channel_name".
Definition MsgSubTypeGroupTopic : string := "group_topic".
Definition MsgSubTypeGroupPurpose : string := "group_purpose".
Definition MsgSubTypeGroupName : string := "group_name".
Definition MsgSubTypeMessageReplied : string := "message_replied".
Definition MsgSubTypeGroupJoin : string := "group_join".
Definition MsgSubTypeGroupLeave : string := "group_leave".
Definition MsgSubTypeChannelJoin : string := "channel_join".
Definition MsgSubTypeChannelLeave : string := "channel_leave".

(** What the RTM stream delivers: the dynamic type of [rawEvt] in
    [HandleSlackEvent] and [wrapEvent], one constructor per case of their
    type switches, and [OtherEvent] for every type they do not name. *)
Inductive SlackEvent : Type :=
  | ConnectingEvent (Attempt ConnectionCount : Z)
  | ConnectedEvent (Info_Team_ID Info_User_ID : string)
  | HelloEvent
  | InvalidAuthEvent
  | RTMError (Code : Z) (RTMError_Msg : string)
  | MessageEvent_ (evt : MessageEvent)
  | ReactionAddedEvent (User : string) (Item : ReactionItem) (Reaction EventTimestamp : string)
  | ReactionRemovedEvent (User : string) (Item : ReactionItem) (Reaction EventTimestamp : string)
  | UserTypingEvent (User Channel_ : string)
  | ChannelMarkedEvent (Channel_ Timestamp_ : string)
  | IMMarkedEvent (Channel_ Timestamp_ : string)
  | GroupMarkedEvent (Channel_ Timestamp_ : string)
  | ChannelJoinedEvent (Channel_ : Channel)
  | ChannelLeftEvent (Channel_ Timestamp_ : string)
  | GroupJoinedEvent (Channel_ : Channel)
  | GroupLeftEvent (Channel_ Timestamp_ : string)
  | MemberJoinedChannelEvent (User Channel_ : string)
  | MemberLeftChannelEvent (User Channel_ : string)
  | ChannelUpdateEvent (Channel_ Timestamp_ : string)
  | EmojiChangedEvent
  | FileSharedEvent | FilePublicEvent | FilePrivateEvent
  | FileCreatedEvent | FileChangeEvent | FileDeletedEvent
  | DesktopNotificationEvent | ReconnectUrlEvent | LatencyReport
  | OtherEvent (type_name : string).

(** networkid.PortalKey, bridgev2.EventSender, bridgev2.Portal,
    database.UserPortal, database.Message, database.Reaction *)
Record PortalKey : Type := mkPortalKey {
  PortalKey_ID : string;
  Receiver : string
}.

Definition IsEmpty (key : PortalKey) : bool :=
  String.eqb (PortalKey_ID key) "" && String.eqb (Receiver key) "".

Record EventSender : Type := mkEventSender {
  IsFromMe : bool;
  SenderLogin : string;
  Sender_ID : string
}.

Record Portal : Type := mkPortal {
  Portal_Key : PortalKey;
  MXID : string
}.

Record UserPortal : Type := mkUserPortal { UserPortal_Portal : PortalKey }.

Record DBMessage : Type := mkDBMessage {
  DBMessage_ID : string;
  SenderID : string;
  DBMessage_Timestamp : Time
}.

Record DBReaction : Type := mkDBReaction {
  Reaction_MessageID : string;
  Reaction_EmojiID : EmojiID
}.

(** bridgev2.ChatInfo and bridgev2.ChatInfoChange *)
Record ChatInfo : Type := mkChatInfo {
  ChatInfo_Name : option string;
  ChatInfo_Topic : option string
}.

Definition MembershipJoin : string := "join".
Definition MembershipLeave : string := "leave".

Record ChatMember : Type := mkChatMember {
  Member_EventSender : EventSender;
  Membership : string;
  PrevMembership : string
}.

Record ChatInfoChange : Type := mkChatInfoChange {
  Change_ChatInfo : option ChatInfo;
  MemberChanges : option (list ChatMember)
}.

(** bridgev2.RemoteEventType; [RemoteEventUnknown] is its zero value. *)
Inductive RemoteEventType : Type :=
  | RemoteEventUnknown
  | RemoteEventMessage
  | RemoteEventEdit
  | RemoteEventReaction
  | RemoteEventReactionRemove
  | RemoteEventMessageRemove
  | RemoteEventReadReceipt
  | RemoteEventTyping
  | RemoteEventChatInfoChange.

(** [SlackEventMeta] (handleslack.go), without its [LogContext] closure. *)
Record SlackEventMeta : Type := mkSlackEventMeta {
  Type_ : RemoteEventType;
  Meta_PortalKey : PortalKey;
  Sender : EventSender;
  Timestamp : Time;
  Meta_ID : string;
  CreatePortal : bool
}.

Definition zeroMeta : SlackEventMeta :=
  mkSlackEventMeta RemoteEventUnknown (mkPortalKey "" "") (mkEventSender false "" "")
    zeroTime "" false.

Definition with_Type (t : RemoteEventType) (meta : SlackEventMeta) : SlackEventMeta :=
  mkSlackEventMeta t (Meta_PortalKey meta) (Sender meta) (Timestamp meta)
    (Meta_ID meta) (CreatePortal meta).
Definition with_PortalKey (key : PortalKey) (meta : SlackEventMeta) : SlackEventMeta :=
  mkSlackEventMeta (Type_ meta) key (Sender meta) (Timestamp meta)
    (Meta_ID meta) (CreatePortal meta).
Definition with_Sender (sender : EventSender) (meta : SlackEventMeta) : SlackEventMeta :=
  mkSlackEventMeta (Type_ meta) (Meta_PortalKey meta) sender (Timestamp meta)
    (Meta_ID meta) (CreatePortal meta).
Definition with_Timestamp (t : Time) (meta : SlackEventMeta) : SlackEventMeta :=
  mkSlackEventMeta (Type_ meta) (Meta_PortalKey meta) (Sender meta) t
    (Meta_ID meta) (CreatePortal meta).
Definition with_ID (id : string) (meta : SlackEventMeta) : SlackEventMeta :=
  mkSlackEventMeta (Type_ meta) (Meta_PortalKey meta) (Sender meta) (Timestamp meta)
    id (CreatePortal meta).
Definition with_CreatePortal (b : bool) (meta : SlackEventMeta) : SlackEventMeta :=
  mkSlackEventMeta (Type_ meta) (Meta_PortalKey meta) (Sender meta) (Timestamp meta)
    (Meta_ID meta) b.

(** The extra content of a reaction: the two keys [wrapReaction] fills,
    ["com.beeper.reaction.shortcode"] and ["fi.mau.slack.reaction"]. *)
Record ReactionExtra : Type := mkReactionExtra {
  reaction_shortcode : string;
  slack_reaction : gmap string string
}.

(** The normalized events: the structures of handleslack.go that implement
    [bridgev2.RemoteEvent]. Each embeds (a pointer to) its [SlackEventMeta]. *)
Inductive RemoteEvent : Type :=
  | SlackMessage (meta : SlackEventMeta) (Data : MessageEvent)
  | SlackReaction (meta : SlackEventMeta) (TargetID : string) (emojiID : EmojiID)
      (Emoji : string) (Meta : ReactionExtra)
  | SlackTyping (meta : SlackEventMeta)
  | SlackReadReceipt (meta : SlackEventMeta)
  | SlackChatInfoChange (meta : SlackEventMeta) (Change : ChatInfoChange).

(** Outbound payloads: msgconv.ConvertedSlackMessage and what it points
    to. The three request types of slack-go are opaque to the adapter. *)
Record MsgOption : Type := mkMsgOption { MsgOption_body : string }.
Record UploadFileV2Parameters : Type := mkUpload { Upload_Filename : string }.
Record ShareFileParams : Type := mkShare { Share_File : string }.

Record ConvertedSlackMessage : Type := mkConverted {
  SendReq : option MsgOption;
  FileUpload : option UploadFileV2Parameters;
  FileShare : option ShareFileParams
}.

(** slack.ShareFileInfo, slack.File with its [Shares], and the answer of
    [ShareFile]. *)
Record ShareFileInfo : Type := mkShareFileInfo { Ts : string }.

Record File : Type := mkFile {
  File_ID : string;
  Shares_Private : gmap string (list ShareFileInfo);
  Shares_Public : gmap string (list ShareFileInfo)
}.

Record ShareFileResponse : Type := mkShareFileResponse { FileMsgTS : string }.

(** The requests of the Matrix side (bridgev2.MatrixMessage and the like)
    and the response to a message. The content and the event of a request
    are folded into one string, they only travel to the converter. *)
Record MatrixMessage : Type := mkMatrixMessage {
  Message_Portal : Portal;
  Message_Content : string;
  ThreadRoot : option DBMessage;
  Message_OrigSender : option string
}.

Record MatrixEdit : Type := mkMatrixEdit {
  Edit_Portal : Portal;
  Edit_Content : string;
  EditTarget : DBMessage;
  Edit_OrigSender : option string
}.

Record MatrixMessageRemove : Type := mkMatrixMessageRemove {
  Remove_TargetMessage : DBMessage
}.

Record MatrixReaction : Type := mkMatrixReaction {
  Reaction_TargetMessage : DBMessage;
  PreHandleResp_EmojiID : EmojiID
}.

Record MatrixReactionRemove : Type := mkMatrixReactionRemove {
  TargetReaction : DBReaction
}.

Record MatrixReadReceipt : Type := mkMatrixReadReceipt {
  Receipt_Portal : Portal;
  ExactMessage : option DBMessage;
  ReadUpTo : Time
}.

Record MatrixTyping : Type := mkMatrixTyping { Typing_Portal : Portal }.

Record MatrixRoomName : Type := mkMatrixRoomName {
  RoomName_Portal : Portal;
  Content_Name : string
}.

Record MatrixRoomTopic : Type := mkMatrixRoomTopic {
  RoomTopic_Portal : Portal;
  Content_Topic : string
}.

Record MatrixMessageResponse : Type := mkMatrixMessageResponse {
  DB : option DBMessage;
  Pending : bool
}.

(** ** The collaborators

    [*slack.Client]: what the remote service answers to each request. The
    field [Client] of the session holds such a handle or [nil]. *)
Record SlackAPI : Type := mkSlackAPI {
  api_PostMessage : string → MsgOption → string * string * option error;
  api_UploadFileV2 : UploadFileV2Parameters → File * option error;
  api_ShareFile : ShareFileParams → ShareFileResponse * option error;
  api_DeleteMessage : string → string → string * string * option error;
  api_AddReaction : string → string → string → option error;
  api_RemoveReaction : string → string → string → option error;
  api_MarkConversation : string → string → option error;
  api_RenameConversation : string → string → option Channel * option error;
  api_SetTopicOfConversation : string → string → option Channel * option error;
  api_GetConversationsForUser : Z → string → list Channel * string * option error
}.

(** [*slack.RTM] *)
Record SlackRTM : Type := mkSlackRTM { rtm_Disconnect : option error }.

(** The bridge framework behind [s.UserLogin]: the portal directory, the
    message store and the account record. *)
Record Bridge : Type := mkBridge {
  br_FindPortalReceiver : string → string → PortalKey * option error;
  br_GetAllForLogin : list UserPortal * option error;
  br_GetExistingPortalByID : PortalKey → option Portal * option error;
  br_GetPortalByID : PortalKey → Portal * option error;
  br_CreateMatrixRoom : Portal → option error;
  br_GetLastPartAtOrBeforeTime : PortalKey → Time → option DBMessage * option error;
  br_Save : option error
}.

(** A value of [login.Metadata.Extra], a [map[string]any]. *)
Inductive any : Type :=
  | AnyString (s : string)
  | AnyOther.

(** [v, _ := extra[key].(string)] *)
Definition string_at (extra : gmap string any) (key : string) : string :=
  match extra !! key with
  | Some (AnyString v) => v
  | _ => ""
  end.

Record UserLogin : Type := mkUserLogin {
  UserLogin_ID : string;
  Metadata_Extra : gmap string any;
  UserLogin_Bridge : Bridge
}.

(** [s.Main.Config] *)
Record Config : Type := mkConfig {
  CustomEmojiReactions : bool;
  Backfill_ConversationCount : Z
}.

(** [SlackClient], the session of one bridged account. [BootResp] and
    [TeamPortal] are left out, no function below reads them; [IsRealUser] is
    read by handlematrix.go. *)
Record SlackClient : Type := mkSlackClient {
  Main_Config : Config;
  Login : UserLogin;
  Client : option SlackAPI;
  RTM : option SlackRTM;
  UserID : string;
  TeamID : string;
  IsRealUser : bool
}.

Definition with_Client (c : option SlackAPI) (s : SlackClient) : SlackClient :=
  mkSlackClient (Main_Config s) (Login s) c (RTM s) (UserID s) (TeamID s) (IsRealUser s).
Definition with_RTM (r : option SlackRTM) (s : SlackClient) : SlackClient :=
  mkSlackClient (Main_Config s) (Login s) (Client s) r (UserID s) (TeamID s) (IsRealUser s).
Definition with_Extra (key : string) (v : any) (s : SlackClient) : SlackClient :=
  mkSlackClient (Main_Config s)
    (mkUserLogin (UserLogin_ID (Login s)) (<[key := v]> (Metadata_Extra (Login s)))
       (UserLogin_Bridge (Login s)))
    (Client s) (RTM s) (UserID s) (TeamID s) (IsRealUser s).

(** ** Effects

    Everything a method of the session does to the world outside of the
    session record, in the order it does it. *)
Inductive LogLevel : Type := TraceLevel | DebugLevel | WarnLevel | ErrorLevel.

Inductive Effect : Type :=
  (* requests to the remote service, through [s.Client] and [s.RTM] *)
  | PostMessage (channelID : string) (req : MsgOption)
  | UploadFileV2 (params : UploadFileV2Parameters)
  | ShareFile (params : ShareFileParams)
  | DeleteMessage (channelID messageID : string)
  | AddReaction (name channelID timestamp : string)
  | RemoveReaction (name channelID timestamp : string)
  | MarkConversation (channelID timestamp : string)
  | RenameConversation (channelID name : string)
  | SetTopicOfConversation (channelID topic : string)
  | GetConversationsForUser (limit : Z) (cursor : string)
  | SendTypingMessage (channelID : string)
  | RTMDisconnect
  (* methods of the session defined outside of the two files, which ask the
     remote service for the metadata of a channel *)
  | FetchChatInfo (channelID : string)
  | GetChatInfo (portal : Portal)
  (* the bridge framework *)
  | BridgeStateSend (state : BridgeState)
  | QueueRemoteEvent (evt : option RemoteEvent)
  | Save (extra : gmap string any)
  | FindPortalReceiver (portalID loginID : string)
  | GetAllForLogin
  | GetExistingPortalByID (key : PortalKey)
  | GetPortalByID (key : PortalKey)
  | CreateMatrixRoom (portal : Portal)
  | UpdateInfo (portal : Portal) (info : ChatInfo)
  | GetLastPartAtOrBeforeTime (key : PortalKey) (readUpTo : Time)
  | AddPendingToSave (txnID : string)
  (* zerolog *)
  | Log (level : LogLevel) (message : string).

(** A request that leaves for the remote service. *)
Definition is_remote_call (e : Effect) : bool :=
  match e with
  | PostMessage _ _ | UploadFileV2 _ | ShareFile _ | DeleteMessage _ _
  | AddReaction _ _ _ | RemoveReaction _ _ _ | MarkConversation _ _
  | RenameConversation _ _ | SetTopicOfConversation _ _
  | GetConversationsForUser _ _ | SendTypingMessage _ | RTMDisconnect
  | FetchChatInfo _ | GetChatInfo _ => true
  | _ => false
  end.

Definition remote_calls (trace : list Effect) : list Effect :=
  omap (λ e, if is_remote_call e then Some e else None) trace.

Definition states_sent (trace : list Effect) : list BridgeState :=
  omap (λ e, match e with BridgeStateSend st => Some st | _ => None end) trace.

Definition events_queued (trace : list Effect) : list (option RemoteEvent) :=
  omap (λ e, match e with QueueRemoteEvent evt => Some evt | _ => None end) trace.

(** ** The monad of the session's methods *)
Inductive Outcome (A : Type) : Type :=
  | Returned (a : A)
  | Panicked (reason : string).
Arguments Returned {A} a.
Arguments Panicked {A} reason.

Record Run (A : Type) : Type := mkRun {
  final : SlackClient;
  trace : list Effect;
  outcome : Outcome A
}.
Arguments mkRun {A} final trace outcome.
Arguments final {A} r.
Arguments trace {A} r.
Arguments outcome {A} r.

Definition M (A : Type) : Type := SlackClient → Run A.

Definition ret {A} (a : A) : M A := λ s, mkRun s [] (Returned a).

Definition bind {A B} (m : M A) (k : A → M B) : M B := λ s,
  match m s with
  | mkRun s' tr (Returned a) =>
      match k a s' with
      | mkRun s'' tr' o => mkRun s'' (tr ++ tr') o
      end
  | mkRun s' tr (Panicked reason) => mkRun s' tr (Panicked reason)
  end.

Global Instance M_ret : MRet M := @ret.
Global Instance M_bind : MBind M := λ A B k m, bind m k.

Definition get : M SlackClient := λ s, mkRun s [] (Returned s).
Definition modify (f : SlackClient → SlackClient) : M unit :=
  λ s, mkRun (f s) [] (Returned tt).
Definition emit (e : Effect) : M unit := λ s, mkRun s [e] (Returned tt).
Definition panic {A} (reason : string) : M A := λ s, mkRun s [] (Panicked reason).
Definition log (level : LogLevel) (message : string) : M unit :=
  emit (Log level message).

(** The run [r] after the effects [tr]. *)
Definition prefixed {A} (tr : list Effect) (r : Run A) : Run A :=
  mkRun (final r) (tr ++ trace r) (outcome r).

(** A method call on a pointer that may be [nil]: the methods of
    [*slack.Client] and [*slack.RTM] read the fields of their receiver. *)
Definition nil_dereference : string :=
  "invalid memory address or nil pointer dereference".

Definition on_Client {A} (request : Effect) (answer : SlackAPI → A) : M A :=
  s ← get;
  match Client s with
  | Some api => emit request;; ret (answer api)
  | None => panic nil_dereference
  end.

Definition on_RTM {A} (request : Effect) (answer : SlackRTM → A) : M A :=
  s ← get;
  match RTM s with
  | Some rtm => emit request;; ret (answer rtm)
  | None => panic nil_dereference
  end.

Definition on_Bridge {A} (request : Effect) (answer : Bridge → A) : M A :=
  s ← get;
  emit request;; ret (answer (UserLogin_Bridge (Login s))).

(** bridgev2.ConvertedEdit, which [ConvertEdit] is to produce. *)
Record ConvertedEdit : Type := mkConvertedEdit {
  ModifiedParts : list string;
  DeletedParts : list DBMessage
}.

(** ** Values of the methods that answer the bridge directly

    The row of the emoji table of package slackdb, of which the emoji id is
    read, and the options of [slack.New]. *)
Record slackdb_Emoji : Type := mkEmoji { Emoji_EmojiID : string }.

Inductive ClientOption : Type :=
  | OptionLog (component : string)
  | OptionDebug (debug : bool)
  | OptionCookie (name value : string).

(** bridgev2.MatrixReactionPreResponse; [MaxReactions] is never set. *)
Record MatrixReactionPreResponse : Type := mkMatrixReactionPreResponse {
  Pre_SenderID : string;
  Pre_EmojiID : EmojiID
}.

(** slack.User, of which the id is read; bridgev2.Ghost and
    bridgev2.UserInfo, which are passed on as they are answered. *)
Record User : Type := mkUser { User_ID : string }.
Record Ghost : Type := mkGhost { Ghost_ID : string }.
Record UserInfo : Type := mkUserInfo { UserInfo_Name : option string }.

Record CreateChatResponse : Type := mkCreateChatResponse {
  Chat_PortalKey : PortalKey;
  PortalInfo : option ChatInfo
}.

Record ResolveIdentifierResponse : Type := mkResolveIdentifierResponse {
  Resp_Ghost : option Ghost;
  Resp_UserID : string;
  Resp_UserInfo : option UserInfo;
  Chat : option CreateChatResponse
}.

(** The calls [ResolveIdentifier] and [SearchUsers] make, in the order
    they make them. *)
Inductive Lookup : Type :=
  | GetUserInfo (user : string)
  | LookupGhost (userID : string)
  | OpenConversation (users : list string) (returnIM : bool)
  | WrapChatInfo (channel : Channel)
  | SearchUsersCache (teamID query : string).

(** ** A concrete world

    Stand-ins for the collaborators and for the functions that are
    parameters of the development, and a session over them. They are used to
    run the embedding on concrete inputs. *)

Module example.

Definition makePortalKey (s : SlackClient) (ch : Channel) : PortalKey :=
  mkPortalKey (slackid.MakePortalID (TeamID s) (Channel_ID ch))
    (if IsIM ch then UserLogin_ID (Login s) else "").

Definition makeEventSender (s : SlackClient) (senderID : string) : EventSender :=
  mkEventSender (String.eqb senderID (UserID s)) ""
    (slackid.MakeUserID (TeamID s) senderID).

Definition GetEmoji (s : SlackClient) (reaction : string) : string * bool :=
  if String.eqb reaction "partyparrot" then ("mxc://example.org/parrot", true)
  else (reaction, false).

Definition fetchChatInfo (s : SlackClient) (channelID : string) (fetchMembers : bool)
    : option ChatInfo * option error :=
  (Some (mkChatInfo (Some channelID) None), None).

Definition getChatInfo (s : SlackClient) (portal : Portal) : ChatInfo * option error :=
  (mkChatInfo (Some (MXID portal)) None, None).

Definition ParseSlackTimestamp (timestamp : string) : Time :=
  Z.of_nat (String.length timestamp).

(** The converter stand-in posts a text as it is, uploads what starts
    with ["file:"], shares what starts with ["share:"], and converts
    the empty content to nothing. *)
Definition ToSlack (s : SlackClient) (portal : Portal) (content : string)
    (threadRoot editTarget : option DBMessage) (origSender : option string)
    (isRealUser : bool) : ConvertedSlackMessage * option error :=
  if String.eqb content "" then (mkConverted None None None, None)
  else if String.prefix "file:" content
  then (mkConverted None (Some (mkUpload content)) None, None)
  else if String.prefix "share:" content
  then (mkConverted None None (Some (mkShare content)), None)
  else (mkConverted (Some (mkMsgOption content)) None None, None).

Definition general : Channel := mkChannel "C061EG9SL" false None "1355517523.000005".
Definition random : Channel := mkChannel "C061EG9T2" false None "1355517400.000001".
Definition announcements : Channel := mkChannel "C0620AAAA" false None "1355517600.000009".
Definition closedDM : Channel := mkChannel "D024BFF1M" true None "1355517000.000000".
Definition openDM : Channel :=
  mkChannel "D024BE91L" true (Some (mkMsg "bot_message" "1355517390.000002" "hi"))
    "1355517390.000002".

(** The remote service: posts are stamped, an upload named
    ["file:pending"] is not shared yet, conversations come in two pages. *)
Definition api : SlackAPI := {|
  api_PostMessage channelID req := (channelID, "1355517523.000005", None);
  api_UploadFileV2 params :=
    if String.eqb (Upload_Filename params) "file:pending"
    then (mkFile "F0PENDING" ∅ ∅, None)
    else (mkFile "F0SHARED" ∅
            {[ "C061EG9SL" := [mkShareFileInfo "1355517530.000007"] ]}, None);
  api_ShareFile params := (mkShareFileResponse "1355517540.000008", None);
  api_DeleteMessage channelID messageID := (channelID, messageID, None);
  api_AddReaction name channelID timestamp := None;
  api_RemoveReaction name channelID timestamp := None;
  api_MarkConversation channelID timestamp := None;
  api_RenameConversation channelID name := (Some general, None);
  api_SetTopicOfConversation channelID topic := (Some general, None);
  api_GetConversationsForUser limit cursor :=
    if String.eqb cursor "" then ([general; closedDM; random], "page2", None)
    else ([announcements; openDM], "", None)
|}.

Definition teamPortal : PortalKey := mkPortalKey "T024BE7LD" "".
Definition generalPortal : PortalKey := mkPortalKey "T024BE7LD-C061EG9SL" "".

(** The bridge: the room of [general] exists, other channels are
    unknown. *)
Definition bridge : Bridge := {|
  br_FindPortalReceiver portalID loginID :=
    if String.eqb portalID "T024BE7LD-C061EG9SL" then (generalPortal, None)
    else (mkPortalKey "" "", None);
  br_GetAllForLogin := ([mkUserPortal teamPortal; mkUserPortal generalPortal], None);
  br_GetExistingPortalByID key :=
    (Some (mkPortal key (if String.eqb (PortalKey_ID key) "T024BE7LD-C061EG9SL"
                         then "!general:example.org" else "")), None);
  br_GetPortalByID key := (mkPortal key "", None);
  br_CreateMatrixRoom portal := None;
  br_GetLastPartAtOrBeforeTime key readUpTo := (None, None);
  br_Save := None
|}.

Definition login (token : string) : UserLogin :=
  mkUserLogin "T024BE7LD-U2147483697"
    (<["token" := AnyString token]> (<["cookie_token" := AnyString "d-cookie"]> ∅))
    bridge.

(** A connected session of a real account, the same account through a
    session that is not a real user, and the account logged out. *)
Definition session : SlackClient :=
  mkSlackClient (mkConfig false 250) (login "xoxc-1234") (Some api)
    (Some (mkSlackRTM None)) "U2147483697" "T024BE7LD" true.

Definition puppet : SlackClient :=
  mkSlackClient (mkConfig false 250) (login "xoxb-1234") (Some api)
    (Some (mkSlackRTM None)) "U2147483697" "T024BE7LD" false.

Definition loggedOut : SlackClient :=
  mkSlackClient (mkConfig false 250) (login "") None None
    "U2147483697" "T024BE7LD" true.

Definition legacySession : SlackClient :=
  mkSlackClient (mkConfig false 250) (login "xoxs-1234") (Some api)
    (Some (mkSlackRTM None)) "U2147483697" "T024BE7LD" true.

Definition generalRoom : Portal := mkPortal generalPortal "!general:example.org".

(** Requests and events the development is run on. *)
Definition pendingUpload : MatrixMessage :=
  mkMatrixMessage generalRoom "file:pending" None None.

Definition roomNameRequest : MatrixRoomName := mkMatrixRoomName generalRoom "general".

Definition changedMessage : MessageEvent :=
  mkMessageEvent "C061EG9SL" "U1" "1355517536.000001" "message_changed" "" ""
    (Some (mkMsg "" "1355517523.000005" "hello, world"))
    (Some (mkMsg "" "1355517523.000005" "hello")).

(** Stand-ins for what the pre-handler of reactions, [LoadUserLogin],
    [ResolveIdentifier] and [SearchUsers] call. *)
Definition GetByMXC (s : SlackClient) (key : string) : option slackdb_Emoji * option error :=
  if String.eqb key "mxc://example.org/partyparrot"
  then (Some (mkEmoji "partyparrot"), None)
  else (None, None).

Definition GetShortcode (key : string) : string :=
  if String.eqb key "<3" then "heart" else "".

Definition strconv_Quote (s : string) : string :=
  String (ascii_of_nat 34) (s +:+ String (ascii_of_nat 34) EmptyString).

Definition ParseUserLoginID (id : string) : string * string := slackid.ParseUserID id.

Definition slack_New (token : string) (options : list ClientOption) : SlackAPI := api.

Definition NewRTM (client : SlackAPI) : SlackRTM := mkSlackRTM None.

Definition UnlockedGetPortalByID (key : PortalKey) : option Portal * option error :=
  (Some (mkPortal key "!team:example.org"), None).

(** A reaction on the message of the first example, and its removal. *)
Definition sentMessage : DBMessage :=
  mkDBMessage "T024BE7LD-C061EG9SL-1355517523.000005" "T024BE7LD-U2147483697" 17.

Definition reactionRemoval : MatrixReactionRemove :=
  mkMatrixReactionRemove
    (mkDBReaction "T024BE7LD-C061EG9SL-1355517523.000005" (mkEmojiID "heart")).

End example.

(** ** Package connector *)

Section connector.

Set Default Proof Using "Type".

(** Code of the repository that the two files call and that is not among
    the sources: methods of [SlackClient] defined in other files of the
    package, the timestamp parser of package slackid and the converter of
    package msgconv. They are parameters of the development.
    [getChatInfo] is the method [GetChatInfo]; the name with the capital is
    the one of the request it makes, in [Effect]. *)
Variable makePortalKey : SlackClient → Channel → PortalKey.
Variable makeEventSender : SlackClient → string → EventSender.
Variable GetEmoji : SlackClient → string → string * bool.
Variable fetchChatInfo : SlackClient → string → bool → option ChatInfo * option error.
Variable getChatInfo : SlackClient → Portal → ChatInfo * option error.
Variable ParseSlackTimestamp : string → Time.
Variable ToSlack :
  SlackClient → Portal → string → option DBMessage → option DBMessage →
  option string → bool → ConvertedSlackMessage * option error.

(** *** handleslack.go: from the remote service to the bridge *)

Definition makeEventMeta (channelID : string) (channel : option Channel)
    (senderID timestamp : string) : M (SlackEventMeta * option error) :=
  s ← get;
  resolved ←
    match channel with
    | Some ch => ret (with_PortalKey (makePortalKey s ch) zeroMeta, None)
    | None =>
        '(key, err) ← on_Bridge
          (FindPortalReceiver (slackid.MakePortalID (TeamID s) channelID)
             (UserLogin_ID (Login s)))
          (λ br, br_FindPortalReceiver br
             (slackid.MakePortalID (TeamID s) channelID) (UserLogin_ID (Login s)));
        match err with
        | Some e =>
            ret (with_PortalKey key zeroMeta,
                 Some (Errorf_w "failed to find portal receiver" e))
        | None =>
            if IsEmpty key
            then ret (with_PortalKey key zeroMeta,
                      Some (Errorf_s "unknown channel" channelID))
            else ret (with_PortalKey key zeroMeta, None)
        end
    end;
  match resolved with
  | (meta, Some err) => ret (meta, Some err)
  | (meta, None) =>
      let meta :=
        if negb (String.eqb senderID "")
        then with_Sender (makeEventSender s senderID) meta else meta in
      let meta :=
        if negb (String.eqb timestamp "")
        then with_Timestamp (ParseSlackTimestamp timestamp)
               (with_ID (slackid.MakeMessageID (TeamID s) channelID timestamp) meta)
        else meta in
      ret (meta, None)
  end.

Definition wrapReaction (meta : SlackEventMeta) (reaction : string) (add : bool)
    (target : ReactionItem) : M (RemoteEvent * option error) :=
  s ← get;
  let meta :=
    with_Type (if add then RemoteEventReaction else RemoteEventReactionRemove) meta in
  let shortcode := ":" +:+ reaction +:+ ":" in
  let slackReactionInfo : gmap string string := {[ "name" := reaction ]} in
  let '(emoji, isImage) := GetEmoji s reaction in
  let slackReactionInfo :=
    if isImage then <["mxc" := emoji]> slackReactionInfo else slackReactionInfo in
  let emoji :=
    if isImage && negb (CustomEmojiReactions (Main_Config s)) then shortcode else emoji in
  ret (SlackReaction meta
         (slackid.MakeMessageID (TeamID s) (Item_Channel target) (Item_Timestamp target))
         (mkEmojiID reaction) emoji (mkReactionExtra shortcode slackReactionInfo),
       None).

Definition wrapTyping (meta : SlackEventMeta) : RemoteEvent :=
  SlackTyping (with_Type RemoteEventTyping meta).

Definition wrapReadReceipt (meta : SlackEventMeta) : RemoteEvent :=
  SlackReadReceipt (with_Type RemoteEventReadReceipt meta).

Definition wrapMemberChange (meta : SlackEventMeta) (sender : EventSender)
    (newMembership prevMembership : string) : RemoteEvent :=
  SlackChatInfoChange (with_Type RemoteEventChatInfoChange meta)
    (mkChatInfoChange None (Some [mkChatMember sender newMembership prevMembership])).

Definition wrapEvent (rawEvt : SlackEvent) : M (option RemoteEvent * option error) :=
  s ← get;
  match rawEvt with
  | MessageEvent_ evt =>
      '(meta, metaErr) ← makeEventMeta (Message_Channel evt) None
                           (Message_User evt) (Message_Timestamp evt);
      let meta := with_CreatePortal true (with_Type RemoteEventMessage meta) in
      ret (Some (SlackMessage meta evt), metaErr)
  | ReactionAddedEvent user item reaction eventTimestamp =>
      '(meta, metaErr) ← makeEventMeta (Item_Channel item) None user eventTimestamp;
      '(wrapped, err) ← wrapReaction meta reaction true item;
      match err with
      | Some e => ret (None, Some (Errorf_w "failed to get reaction info" e))
      | None => ret (Some wrapped, metaErr)
      end
  | ReactionRemovedEvent user item reaction eventTimestamp =>
      '(meta, metaErr) ← makeEventMeta (Item_Channel item) None user eventTimestamp;
      '(wrapped, _) ← wrapReaction meta reaction false item;
      ret (Some wrapped, metaErr)
  | UserTypingEvent user channel =>
      '(meta, metaErr) ← makeEventMeta channel None user "";
      ret (Some (wrapTyping meta), metaErr)
  | ChannelMarkedEvent channel timestamp
  | IMMarkedEvent channel timestamp
  | GroupMarkedEvent channel timestamp =>
      '(meta, metaErr) ← makeEventMeta channel None (UserID s) timestamp;
      ret (Some (wrapReadReceipt meta), metaErr)
  | ChannelJoinedEvent channel
  | GroupJoinedEvent channel =>
      '(meta, metaErr) ← makeEventMeta (Channel_ID channel) (Some channel) (UserID s) "";
      let meta := with_CreatePortal true meta in
      ret (Some (wrapMemberChange meta (Sender meta) MembershipJoin ""), metaErr)
  | ChannelLeftEvent channel timestamp
  | GroupLeftEvent channel timestamp =>
      '(meta, metaErr) ← makeEventMeta channel None (UserID s) timestamp;
      ret (Some (wrapMemberChange meta (Sender meta) MembershipLeave MembershipJoin),
           metaErr)
  | MemberJoinedChannelEvent user channel =>
      '(meta, metaErr) ← makeEventMeta channel None user "";
      ret (Some (wrapMemberChange meta (Sender meta) MembershipJoin ""), metaErr)
  | MemberLeftChannelEvent user channel =>
      '(meta, metaErr) ← makeEventMeta channel None user "";
      ret (Some (wrapMemberChange meta (Sender meta) MembershipLeave MembershipJoin),
           metaErr)
  | ChannelUpdateEvent channel timestamp =>
      '(meta, metaErr) ← makeEventMeta channel None "" timestamp;
      let meta := with_CreatePortal true (with_Type RemoteEventChatInfoChange meta) in
      emit (FetchChatInfo channel);;
      match fetchChatInfo s channel false with
      | (_, Some e) => ret (None, Some (Errorf_w "failed to get chat info" e))
      | (fullChatInfo, None) =>
          ret (Some (SlackChatInfoChange meta (mkChatInfoChange fullChatInfo None)),
               metaErr)
      end
  | _ => ret (None, None)
  end.

(** [SlackMessage.GetType]; the other events answer the type in their
    meta ([SlackEventMeta.GetType]). *)
Definition GetType (evt : RemoteEvent) : RemoteEventType :=
  match evt with
  | SlackMessage _ data =>
      if bool_decide (SubType data = MsgSubTypeMessageChanged) then RemoteEventEdit
      else if bool_decide (SubType data = MsgSubTypeMessageDeleted)
      then RemoteEventMessageRemove
      else if bool_decide (SubType data ∈
                [MsgSubTypeChannelTopic; MsgSubTypeChannelPurpose; MsgSubTypeChannelName;
                 MsgSubTypeGroupTopic; MsgSubTypeGroupPurpose; MsgSubTypeGroupName])
      then RemoteEventChatInfoChange
      else if bool_decide (SubType data ∈
                [MsgSubTypeMessageReplied; MsgSubTypeGroupJoin; MsgSubTypeGroupLeave;
                 MsgSubTypeChannelJoin; MsgSubTypeChannelLeave])
      then RemoteEventUnknown
      else RemoteEventMessage
  | SlackReaction meta _ _ _ _ | SlackTyping meta | SlackReadReceipt meta
  | SlackChatInfoChange meta _ => Type_ meta
  end.

(** [SlackMessage.ConvertEdit] *)
Definition ConvertEdit (meta : SlackEventMeta) (Data : MessageEvent) (portal : Portal)
    (existing : list DBMessage) : M (option ConvertedEdit * option error) :=
  panic "implement me".

Definition Disconnect : M unit :=
  s ← get;
  match RTM s with
  | Some rtm =>
      err ← on_RTM RTMDisconnect rtm_Disconnect;
      match err with
      | Some _ => log ErrorLevel "Failed to disconnect RTM"
      | None => ret tt
      end;;
      modify (with_RTM None)
  | None => ret tt
  end;;
  modify (with_Client None).

Definition invalidateSession (state : BridgeState) : M unit :=
  modify (with_Extra "token" (AnyString ""));;
  modify (with_Extra "cookie_token" (AnyString ""));;
  s ← get;
  err ← on_Bridge (Save (Metadata_Extra (Login s))) br_Save;
  match err with
  | Some _ => log ErrorLevel "Failed to save user login after invalidating session"
  | None => ret tt
  end;;
  Disconnect;;
  emit (BridgeStateSend state).

Definition HandleSlackEvent (rawEvt : SlackEvent) : M unit :=
  s ← get;
  match rawEvt with
  | ConnectingEvent _ _ =>
      log DebugLevel "Connecting to Slack";;
      emit (BridgeStateSend (mkBridgeState StateConnecting "" ""))
  | ConnectedEvent teamID userID =>
      if negb (String.eqb teamID (TeamID s)) || negb (String.eqb userID (UserID s))
      then
        log ErrorLevel "User login ID mismatch in Connected event";;
        invalidateSession (mkBridgeState StateUnknownError "slack-id-mismatch" "")
      else emit (BridgeStateSend (mkBridgeState StateConnected "" ""))
  | HelloEvent => ret tt
  | InvalidAuthEvent =>
      invalidateSession (mkBridgeState StateBadCredentials "slack-invalid-auth" "")
  | RTMError code msg =>
      log ErrorLevel "Got RTM error";;
      emit (BridgeStateSend
              (mkBridgeState StateUnknownError
                 ("slack-rtm-error-" +:+ pretty code)
                 (pretty code +:+ ": " +:+ msg)))
  | MessageEvent_ _ | ReactionAddedEvent _ _ _ _ | ReactionRemovedEvent _ _ _ _
  | UserTypingEvent _ _ | ChannelMarkedEvent _ _ | IMMarkedEvent _ _
  | GroupMarkedEvent _ _ | ChannelJoinedEvent _ | ChannelLeftEvent _ _
  | GroupJoinedEvent _ | GroupLeftEvent _ _ | MemberJoinedChannelEvent _ _
  | MemberLeftChannelEvent _ _ | ChannelUpdateEvent _ _ =>
      '(wrapped, err) ← wrapEvent rawEvt;
      match err with
      | Some _ => log ErrorLevel "Failed to wrap Slack event"
      | None => emit (QueueRemoteEvent wrapped)
      end
  | EmojiChangedEvent => ret tt
  | FileSharedEvent | FilePublicEvent | FilePrivateEvent | FileCreatedEvent
  | FileChangeEvent | FileDeletedEvent | DesktopNotificationEvent
  | ReconnectUrlEvent | LatencyReport => ret tt
  | OtherEvent _ => log WarnLevel "Unrecognized Slack event type"
  end.

(** *** handleslack.go: channel reconciliation *)

(** [cmp.Compare] on strings and the order [slices.SortFunc] sorts by. *)
Definition cmp_Compare (x y : string) : Z :=
  match String.compare x y with
  | Lt => -1
  | Eq => 0
  | Gt => 1
  end.

Definition byLastRead (a b : Channel) : Prop :=
  cmp_Compare (LastRead a) (LastRead b) ≤ 0.

Global Instance byLastRead_dec : RelDecision byLastRead.
Proof. intros a b. unfold byLastRead. apply _. Defined.

(** The guard of the loop over a chunk: a direct-message conversation is
    skipped when it has no latest message or one without subtype. *)
Definition notOpenDM (channel : Channel) : bool :=
  IsIM channel &&
  match Latest channel with
  | None => true
  | Some latest => String.eqb (Msg_SubType latest) ""
  end.

(** [for _, channel := range channelsChunk]; every iteration has a
    channel variable of its own (Go 1.22), so that [&channel] is the
    channel of that iteration. *)
Definition addChunk (serverInfo : gmap string Channel) (channelsChunk : list Channel)
    : gmap string Channel :=
  foldl (λ info channel,
           if notOpenDM channel then info
           else <[Channel_ID channel := channel]> info)
        serverInfo channelsChunk.

Definition out_of_fuel : string := "fetchConversations: out of fuel".

(** [for totalLimit > 0 { ... }]. The loop either leaves or lowers
    [totalLimit] by the length of a chunk that is not empty, so that
    [totalLimit] iterations suffice ([fetchConversations_fuel]). The answer
    is [None] when the function is left by [return]. *)
Fixpoint fetchConversations (fuel : nat) (totalLimit : Z) (cursor : string)
    (serverInfo : gmap string Channel) : M (option (gmap string Channel)) :=
  if bool_decide (totalLimit > 0) then
    match fuel with
    | O => panic out_of_fuel
    | S fuel =>
        let reqLimit := if bool_decide (totalLimit > 200) then 100 else totalLimit in
        '(channelsChunk, nextCursor, err) ←
          on_Client (GetConversationsForUser reqLimit cursor)
            (λ api, api_GetConversationsForUser api reqLimit cursor);
        match err with
        | Some _ =>
            log ErrorLevel "Failed to fetch conversations for sync";;
            ret None
        | None =>
            log DebugLevel "Fetched chunk of conversations";;
            let serverInfo := addChunk serverInfo channelsChunk in
            if String.eqb nextCursor "" || bool_decide (length channelsChunk = 0%nat)
            then ret (Some serverInfo)
            else fetchConversations fuel (totalLimit - Z.of_nat (length channelsChunk))
                   nextCursor serverInfo
        end
    end
  else ret (Some serverInfo).

Fixpoint foldlM {A B} (f : A → B → M A) (a : A) (l : list B) : M A :=
  match l with
  | [] => ret a
  | b :: l => a' ← f a b; foldlM f a' l
  end.

Fixpoint forM_ {B} (f : B → M unit) (l : list B) : M unit :=
  match l with
  | [] => ret tt
  | b :: l => f b;; forM_ f l
  end.

(** The body of [for _, userPortal := range userPortals]. *)
Definition refreshExisting (serverInfo : gmap string Channel) (userPortal : UserPortal)
    : M (gmap string Channel) :=
  let '(_, channelID) :=
    slackid.ParsePortalID (PortalKey_ID (UserPortal_Portal userPortal)) in
  if String.eqb channelID "" then ret serverInfo
  else
    '(portal, err) ← on_Bridge (GetExistingPortalByID (UserPortal_Portal userPortal))
                       (λ br, br_GetExistingPortalByID br (UserPortal_Portal userPortal));
    match err, portal with
    | Some _, _ =>
        log ErrorLevel "Failed to get existing portal for sync";;
        ret serverInfo
    | None, None => panic nil_dereference
    | None, Some portal =>
        if negb (String.eqb (MXID portal) "") then
          s ← get;
          emit (GetChatInfo portal);;
          match getChatInfo s portal with
          | (_, Some _) =>
              log ErrorLevel "Failed to fetch chat info for existing portal"
          | (info, None) => emit (UpdateInfo portal info)
          end;;
          ret (delete channelID serverInfo)
        else ret serverInfo
    end.

(** The body of [for _, ch := range remainingChannels]. *)
Definition createRoom (ch : Channel) : M unit :=
  s ← get;
  '(portal, err) ← on_Bridge (GetPortalByID (makePortalKey s ch))
                     (λ br, br_GetPortalByID br (makePortalKey s ch));
  match err with
  | Some _ => log ErrorLevel "Failed to get portal for channel"
  | None =>
      err ← on_Bridge (CreateMatrixRoom portal) (λ br, br_CreateMatrixRoom br portal);
      match err with
      | Some _ => log ErrorLevel "Failed to create Matrix room for channel"
      | None => ret tt
      end
  end.

(** The channels left in [serverInfo], as [slices.SortFunc] leaves them.
    Go ranges over a map in no fixed order and the sort is not stable: the
    order among channels of equal [LastRead] is not determined by the
    program, here it is the one of [map_to_list] and of the merge sort. *)
Definition remainingChannels (serverInfo : gmap string Channel) : list Channel :=
  merge_sort byLastRead (map_to_list serverInfo).*2.

(** [SyncChannels], in the three parts it is made of: the conversations
    the remote service lists (none for a token that starts with "xoxs"),
    the pass over the portals of the login, and the creation of the rooms
    that are left. *)
Definition fetchServerInfo : M (option (gmap string Channel)) :=
  s ← get;
  let token := string_at (Metadata_Extra (Login s)) "token" in
  if negb (String.prefix "xoxs" token) then
    let totalLimit := Backfill_ConversationCount (Main_Config s) in
    log DebugLevel "Fetching conversation list for sync";;
    fetchConversations (Z.to_nat totalLimit) totalLimit "" ∅
  else ret (Some ∅).

Definition syncPortals (serverInfo : gmap string Channel) : M unit :=
  '(userPortals, err) ← on_Bridge GetAllForLogin br_GetAllForLogin;
  match err with
  | Some _ => log ErrorLevel "Failed to fetch existing portals for sync"
  | None =>
      serverInfo ← foldlM refreshExisting serverInfo userPortals;
      forM_ createRoom (remainingChannels serverInfo)
  end.

Definition SyncChannels : M unit :=
  fetched ← fetchServerInfo;
  match fetched with
  | None => ret tt
  | Some serverInfo => syncPortals serverInfo
  end.

(** *** handlematrix.go: from the bridge to the remote service *)

Definition channelOf (portal : Portal) : string :=
  (slackid.ParsePortalID (PortalKey_ID (Portal_Key portal))).2.

Definition sendToSlack (channelID : string) (conv : ConvertedSlackMessage)
    (msg : option MatrixMessage) : M (string * option error) :=
  match SendReq conv, FileUpload conv, FileShare conv with
  | Some sendReq, _, _ =>
      log DebugLevel "Sending message to Slack";;
      '(_, timestamp, err) ← on_Client (PostMessage channelID sendReq)
                               (λ api, api_PostMessage api channelID sendReq);
      ret (timestamp, err)
  | None, Some fileUpload, _ =>
      log DebugLevel "Uploading attachment to Slack";;
      '(file, err) ← on_Client (UploadFileV2 fileUpload)
                       (λ api, api_UploadFileV2 api fileUpload);
      match err with
      | Some e =>
          log ErrorLevel "Failed to upload attachment to Slack";;
          ret ("", Some e)
      | None =>
          let shareInfo :=
            match Shares_Private file !! channelID with
            | Some (info0 :: _) => info0
            | _ =>
                match Shares_Public file !! channelID with
                | Some (info0 :: _) => info0
                | _ => mkShareFileInfo ""
                end
            end in
          if negb (String.eqb (Ts shareInfo) "") then ret (Ts shareInfo, None)
          else
            s ← get;
            match msg with
            | Some _ => emit (AddPendingToSave (UserID s +:+ ":" +:+ File_ID file))
            | None => ret tt
            end;;
            ret ("", None)
      end
  | None, None, Some fileShare =>
      log DebugLevel "Sharing already uploaded attachment to Slack";;
      '(resp, err) ← on_Client (ShareFile fileShare) (λ api, api_ShareFile api fileShare);
      match err with
      | Some e =>
          log ErrorLevel "Failed to share attachment to Slack";;
          ret ("", Some e)
      | None => ret (FileMsgTS resp, None)
      end
  | None, None, None => ret ("", Some (errors_New "no message or attachment to send"))
  end.

Definition HandleMatrixMessage (msg : MatrixMessage)
    : M (option MatrixMessageResponse * option error) :=
  s ← get;
  if bool_decide (Client s = None :> option SlackAPI) then ret (None, Some ErrNotLoggedIn)
  else
    let channelID := channelOf (Message_Portal msg) in
    if String.eqb channelID "" then ret (None, Some (errors_New "invalid channel ID"))
    else
      match ToSlack s (Message_Portal msg) (Message_Content msg) (ThreadRoot msg) None
              (Message_OrigSender msg) (IsRealUser s) with
      | (_, Some err) => ret (None, Some err)
      | (conv, None) =>
          '(timestamp, err) ← sendToSlack channelID conv (Some msg);
          match err with
          | Some e => ret (None, Some e)
          | None =>
              if String.eqb timestamp ""
              then ret (Some (mkMatrixMessageResponse None true), None)
              else
                ret (Some (mkMatrixMessageResponse
                             (Some (mkDBMessage
                                      (slackid.MakeMessageID (TeamID s) channelID timestamp)
                                      (slackid.MakeUserID (TeamID s) (UserID s))
                                      (ParseSlackTimestamp timestamp)))
                             false),
                     None)
          end
      end.

Definition HandleMatrixEdit (msg : MatrixEdit) : M (option error) :=
  s ← get;
  if bool_decide (Client s = None :> option SlackAPI) then ret (Some ErrNotLoggedIn)
  else
    let channelID := channelOf (Edit_Portal msg) in
    if String.eqb channelID "" then ret (Some (errors_New "invalid channel ID"))
    else
      match ToSlack s (Edit_Portal msg) (Edit_Content msg) None (Some (EditTarget msg))
              (Edit_OrigSender msg) (IsRealUser s) with
      | (_, Some err) => ret (Some err)
      | (conv, None) =>
          '(_, err) ← sendToSlack channelID conv None;
          ret err
      end.

Definition HandleMatrixMessageRemove (msg : MatrixMessageRemove) : M (option error) :=
  s ← get;
  if bool_decide (Client s = None :> option SlackAPI) then ret (Some ErrNotLoggedIn)
  else
    let '(_, channelID, messageID, ok) :=
      slackid.ParseMessageID (DBMessage_ID (Remove_TargetMessage msg)) in
    if negb ok then ret (Some (errors_New "invalid message ID"))
    else
      '(_, _, err) ← on_Client (DeleteMessage channelID messageID)
                       (λ api, api_DeleteMessage api channelID messageID);
      ret err.

Definition HandleMatrixReaction (msg : MatrixReaction) : M (option DBReaction * option error) :=
  s ← get;
  if bool_decide (Client s = None :> option SlackAPI) then ret (None, Some ErrNotLoggedIn)
  else
    let '(_, channelID, messageID, ok) :=
      slackid.ParseMessageID (DBMessage_ID (Reaction_TargetMessage msg)) in
    if negb ok then ret (None, Some (errors_New "invalid message ID"))
    else
      let name := emoji_string (PreHandleResp_EmojiID msg) in
      err ← on_Client (AddReaction name channelID messageID)
              (λ api, api_AddReaction api name channelID messageID);
      ret (None, err).

Definition HandleMatrixReactionRemove (msg : MatrixReactionRemove) : M (option error) :=
  s ← get;
  if bool_decide (Client s = None :> option SlackAPI) then ret (Some ErrNotLoggedIn)
  else
    let '(_, channelID, messageID, ok) :=
      slackid.ParseMessageID (Reaction_MessageID (TargetReaction msg)) in
    if negb ok then ret (Some (errors_New "invalid message ID"))
    else
      let name := emoji_string (Reaction_EmojiID (TargetReaction msg)) in
      err ← on_Client (RemoveReaction name channelID messageID)
              (λ api, api_RemoveReaction api name channelID messageID);
      match err with
      | Some e => if negb (String.eqb (Error_text e) "reaction") then ret (Some e) else ret None
      | None => ret None
      end.

(** [return s.Client.MarkConversationContext(ctx, channelID, messageTS)],
    after the message id has been taken apart. *)
Definition markConversation (messageID : string) : M (option error) :=
  let '(_, channelID, messageTS, ok) := slackid.ParseMessageID messageID in
  if negb ok then ret (Some (errors_New "invalid message ID"))
  else on_Client (MarkConversation channelID messageTS)
         (λ api, api_MarkConversation api channelID messageTS).

Definition HandleMatrixReadReceipt (msg : MatrixReadReceipt) : M (option error) :=
  s ← get;
  if bool_decide (Client s = None :> option SlackAPI) then ret (Some ErrNotLoggedIn)
  else if negb (IsRealUser s) then ret None
  else
    match ExactMessage msg with
    | Some exact => markConversation (DBMessage_ID exact)
    | None =>
        '(lastMessage, err) ←
          on_Bridge (GetLastPartAtOrBeforeTime (Portal_Key (Receipt_Portal msg)) (ReadUpTo msg))
            (λ br, br_GetLastPartAtOrBeforeTime br (Portal_Key (Receipt_Portal msg))
                     (ReadUpTo msg));
        match err, lastMessage with
        | Some e, _ => ret (Some e)
        | None, Some last => markConversation (DBMessage_ID last)
        | None, None => ret None
        end
    end.

Definition HandleMatrixTyping (msg : MatrixTyping) : M (option error) :=
  s ← get;
  if bool_decide (Client s = None :> option SlackAPI) then ret (Some ErrNotLoggedIn)
  else if negb (IsRealUser s) then ret None
  else
    let channelID := channelOf (Typing_Portal msg) in
    if String.eqb channelID "" then ret None
    else
      on_RTM (SendTypingMessage channelID) (λ _, tt);;
      ret None.

Definition HandleMatrixRoomName (msg : MatrixRoomName) : M (bool * option error) :=
  let channelID := channelOf (RoomName_Portal msg) in
  if String.eqb channelID "" then ret (false, Some (errors_New "invalid channel ID"))
  else
    '(resp, err) ← on_Client (RenameConversation channelID (Content_Name msg))
                     (λ api, api_RenameConversation api channelID (Content_Name msg));
    log TraceLevel "Renamed conversation";;
    ret (bool_decide (err = None), err).

Definition HandleMatrixRoomTopic (msg : MatrixRoomTopic) : M (bool * option error) :=
  let channelID := channelOf (RoomTopic_Portal msg) in
  if String.eqb channelID "" then ret (false, Some (errors_New "invalid channel ID"))
  else
    '(resp, err) ← on_Client (SetTopicOfConversation channelID (Content_Topic msg))
                     (λ api, api_SetTopicOfConversation api channelID (Content_Topic msg));
    log TraceLevel "Changed conversation topic";;
    ret (bool_decide (err = None), err).

(** *** handleslack.go: what the normalized events answer *)

(** The meta a normalized event embeds; the methods of [*SlackEventMeta]
    are promoted to the event through it. *)
Definition metaOf (evt : RemoteEvent) : SlackEventMeta :=
  match evt with
  | SlackMessage meta _ | SlackReaction meta _ _ _ _ | SlackTyping meta
  | SlackReadReceipt meta | SlackChatInfoChange meta _ => meta
  end.

(** [SlackEventMeta.GetPortalKey], [GetSender], [ShouldCreatePortal],
    [GetID] *)
Definition GetPortalKey (evt : RemoteEvent) : PortalKey := Meta_PortalKey (metaOf evt).
Definition GetSender (evt : RemoteEvent) : EventSender := Sender (metaOf evt).
Definition ShouldCreatePortal (evt : RemoteEvent) : bool := CreatePortal (metaOf evt).
Definition GetID (evt : RemoteEvent) : string := Meta_ID (metaOf evt).

(** [SlackReadReceipt.GetLastReceiptTarget], [GetReceiptTargets],
    [GetReadUpTo] *)
Definition GetLastReceiptTarget (meta : SlackEventMeta) : string := Meta_ID meta.
Definition GetReceiptTargets (meta : SlackEventMeta) : list string := [].
Definition GetReadUpTo (meta : SlackEventMeta) : Time := Timestamp meta.

(** [SlackMessage.GetTimestamp]; [s.Data.SubMessage] is a pointer. *)
Definition SlackMessage_GetTimestamp (meta : SlackEventMeta) (Data : MessageEvent)
    : Outcome Time :=
  if bool_decide (SubType Data = MsgSubTypeMessageChanged) then
    match SubMessage Data with
    | Some sub => Returned (ParseSlackTimestamp (Msg_Timestamp sub))
    | None => Panicked nil_dereference
    end
  else if bool_decide (SubType Data = MsgSubTypeMessageDeleted)
  then Returned (ParseSlackTimestamp (DeletedTimestamp Data))
  else Returned (Timestamp meta).

(** [SlackMessage.GetTargetMessage] *)
Definition GetTargetMessage (meta : SlackEventMeta) : string := Meta_ID meta.

(** [SlackClient.IsLoggedIn] *)
Definition IsLoggedIn (s : SlackClient) : bool :=
  match Client s with
  | Some _ => true
  | None => false
  end.

(** The events [HandleSlackEvent] hands to [wrapEvent]: the types of the
    case of its switch that queues a remote event. *)
Definition wrappable (rawEvt : SlackEvent) : bool :=
  match rawEvt with
  | MessageEvent_ _ | ReactionAddedEvent _ _ _ _ | ReactionRemovedEvent _ _ _ _
  | UserTypingEvent _ _ | ChannelMarkedEvent _ _ | IMMarkedEvent _ _
  | GroupMarkedEvent _ _ | ChannelJoinedEvent _ | ChannelLeftEvent _ _
  | GroupJoinedEvent _ | GroupLeftEvent _ _ | MemberJoinedChannelEvent _ _
  | MemberLeftChannelEvent _ _ | ChannelUpdateEvent _ _ => true
  | _ => false
  end.

(** The membership events, with the new and the previous membership they
    report and whether they may create the portal. *)
Definition membershipOf (rawEvt : SlackEvent) : option (string * string * bool) :=
  match rawEvt with
  | ChannelJoinedEvent _ | GroupJoinedEvent _ => Some (MembershipJoin, "", true)
  | MemberJoinedChannelEvent _ _ => Some (MembershipJoin, "", false)
  | ChannelLeftEvent _ _ | GroupLeftEvent _ _ | MemberLeftChannelEvent _ _ =>
      Some (MembershipLeave, MembershipJoin, false)
  | _ => None
  end.

(** *** Readings of a trace *)

(** What triggers the invalidation of the session in [HandleSlackEvent]:
    a "connected" acknowledgement for another team or user, or the
    invalid-auth signal; and the status that is expected then. *)
Definition identity_failure (s : SlackClient) (rawEvt : SlackEvent) : Prop :=
  match rawEvt with
  | ConnectedEvent teamID userID => teamID ≠ TeamID s ∨ userID ≠ UserID s
  | InvalidAuthEvent => True
  | _ => False
  end.

Definition failure_state (rawEvt : SlackEvent) : BridgeState :=
  match rawEvt with
  | InvalidAuthEvent => mkBridgeState StateBadCredentials "slack-invalid-auth" ""
  | _ => mkBridgeState StateUnknownError "slack-id-mismatch" ""
  end.

(** The requests for a page of conversations, the portals asked for and
    the rooms created in the last loop of [SyncChannels], and the portals
    whose metadata is fetched again. *)
Definition conversations_requested (trace : list Effect) : list (Z * string) :=
  omap (λ e, match e with
             | GetConversationsForUser limit cursor => Some (limit, cursor)
             | _ => None
             end) trace.

Definition portals_requested (trace : list Effect) : list PortalKey :=
  omap (λ e, match e with GetPortalByID key => Some key | _ => None end) trace.

Definition rooms_created (trace : list Effect) : list Portal :=
  omap (λ e, match e with CreateMatrixRoom portal => Some portal | _ => None end) trace.

Definition refreshed (trace : list Effect) : list Portal :=
  omap (λ e, match e with GetChatInfo portal => Some portal | _ => None end) trace.

(** The conversations the remote service listed in answer to the
    requests of a trace, page after page. *)
Definition fetched (s : SlackClient) (trace : list Effect) : list Channel :=
  match Client s with
  | Some api =>
      mjoin ((λ '(limit, cursor), (api_GetConversationsForUser api limit cursor).1.1)
               <$> conversations_requested trace)
  | None => []
  end.

(** A room that is already materialized: the portal of a channel (its id
    has a channel part) that the directory knows and that has a Matrix room
    id. The answer is the channel id and the portal. *)
Definition existingRoom (br : Bridge) (userPortal : UserPortal) : option (string * Portal) :=
  let channelID := (slackid.ParsePortalID (PortalKey_ID (UserPortal_Portal userPortal))).2 in
  if String.eqb channelID "" then None
  else match br_GetExistingPortalByID br (UserPortal_Portal userPortal) with
       | (Some portal, None) =>
           if String.eqb (MXID portal) "" then None else Some (channelID, portal)
       | _ => None
       end.

(** What the loop over the local portals does to the candidates. *)
Definition removeExisting (br : Bridge) (serverInfo : gmap string Channel)
    (userPortal : UserPortal) : gmap string Channel :=
  match existingRoom br userPortal with
  | Some (channelID, _) => delete channelID serverInfo
  | None => serverInfo
  end.

(** [SyncChannels] got to its last loop: it listed the local portals
    without error and was not stopped before. *)
Definition reconciled (s : SlackClient) (r : Run unit) : Prop :=
  outcome r = Returned tt
  ∧ GetAllForLogin ∈ trace r
  ∧ (br_GetAllForLogin (UserLogin_Bridge (Login s))).2 = None.

(** [consumeEvents]: the events of the stream are handled one after the
    other. [incoming] is what [s.RTM.IncomingEvents] delivers until it is
    closed; the channel is read from the RTM client once, when the loop is
    entered. *)
Definition consumeEvents (incoming : list SlackEvent) : M unit :=
  s ← get;
  match RTM s with
  | Some _ => forM_ HandleSlackEvent incoming
  | None => panic nil_dereference
  end.

Global Instance identity_failure_dec (s : SlackClient) (rawEvt : SlackEvent) :
  Decision (identity_failure s rawEvt).
Proof. destruct rawEvt; simpl; apply _. Defined.

(** How often a trace closes the RTM connection. *)
Definition disconnections (trace : list Effect) : nat :=
  length (omap (λ e, match e with RTMDisconnect => Some e | _ => None end) trace).

(** The session after [invalidateSession]. *)
Definition invalidated (s : SlackClient) : SlackClient :=
  with_Client None
    (with_RTM None
       (with_Extra "cookie_token" (AnyString "") (with_Extra "token" (AnyString "") s))).

(** The message a read receipt is about: the exact message of the
    request, or else the last message of the portal at or before the time
    read up to, when the message store answers one without error. *)
Definition receiptTarget (s : SlackClient) (msg : MatrixReadReceipt) : option DBMessage :=
  match ExactMessage msg with
  | Some exact => Some exact
  | None =>
      match br_GetLastPartAtOrBeforeTime (UserLogin_Bridge (Login s))
              (Portal_Key (Receipt_Portal msg)) (ReadUpTo msg) with
      | (Some last, None) => Some last
      | _ => None
      end
  end.

(** What handling the events of a stream one after the other does, from
    the session [s] on: each event is handled in the session that the
    events before it have left. *)
Fixpoint handled (s : SlackClient) (incoming : list SlackEvent) : list Effect :=
  match incoming with
  | [] => []
  | rawEvt :: incoming =>
      (trace (HandleSlackEvent rawEvt s)
       ++ handled (final (HandleSlackEvent rawEvt s)) incoming)%list
  end.

(** A session that has been invalidated: no client, no RTM client, and
    the two tokens blanked. *)
Definition logged_out (s : SlackClient) : Prop :=
  Client s = None
  ∧ RTM s = None
  ∧ Metadata_Extra (Login s) !! "token" = Some (AnyString "")
  ∧ Metadata_Extra (Login s) !! "cookie_token" = Some (AnyString "").

(** The cursors of a list of page requests follow each other: the first
    is [cursor], and each later one is the cursor the remote service
    answered to the request before. *)
Fixpoint chained (api : SlackAPI) (cursor : string) (requests : list (Z * string)) : Prop :=
  match requests with
  | [] => True
  | (limit, c) :: requests =>
      c = cursor ∧ chained api (api_GetConversationsForUser api limit c).1.2 requests
  end.

(** *** handlematrix.go: the emoji of a reaction *)

(** Code the pre-handler calls that is not among the sources: the emoji
    table of package slackdb ([s.Main.DB.Emoji.GetByMXC], which answers a
    pointer to a row and an error), [emoji.GetShortcode], and [strconv.Quote],
    which is what the verb [%q] prints of a string. *)
Variable GetByMXC : SlackClient → string → option slackdb_Emoji * option error.
Variable GetShortcode : string → string.
Variable strconv_Quote : string → string.

(** [strings.ContainsRune(s, r)] for a rune below 0x80, which is a search
    for the byte. *)
Fixpoint ContainsRune (s : string) (r : ascii) : bool :=
  match s with
  | EmptyString => false
  | String c rest => Ascii.eqb c r || ContainsRune rest r
  end.

(** [PreHandleMatrixReaction], on the key [msg.Content.RelatesTo.Key]. The
    results are named: [return] with an error answers the response as it was
    declared, which is the zero value. [dbEmoji.EmojiID] is read before the
    error is looked at. *)
Definition PreHandleMatrixReaction (key : string) (s : SlackClient)
    : Outcome (MatrixReactionPreResponse * option error) :=
  let resolved : Outcome (string * option error) :=
    if ContainsRune key ":" then
      let '(dbEmoji, err) := GetByMXC s key in
      let err :=
        match err with
        | Some e => Some (Errorf_w "failed to get emoji from db" e)
        | None => None
        end in
      match dbEmoji with
      | Some row => Returned (Emoji_EmojiID row, err)
      | None => Panicked nil_dereference
      end
    else
      let emojiID := GetShortcode key in
      Returned (emojiID,
                if String.eqb emojiID ""
                then Some (Errorf_s "unknown emoji" (strconv_Quote key))
                else None) in
  match resolved with
  | Panicked reason => Panicked reason
  | Returned (_, Some err) =>
      Returned (mkMatrixReactionPreResponse "" (mkEmojiID ""), Some err)
  | Returned (emojiID, None) =>
      Returned (mkMatrixReactionPreResponse
                  (slackid.MakeUserID (TeamID s) (UserID s)) (mkEmojiID emojiID),
                None)
  end.

(** *** client.go: logging in *)

(** The messages [init] registers for the error codes of a status. *)
Definition BridgeStateHumanErrors : gmap string string :=
  {[ "slack-invalid-auth" := "Invalid credentials, please log in again";
     "slack-user-removed-from-team" := "You were removed from the Slack workspace";
     "slack-id-mismatch" := "Unexpected internal error: got different user ID" ]}.

(** [strings.ReplaceAll(s, old, new)] for [old] and [new] of one byte. *)
Fixpoint ReplaceAll (s : string) (old new : ascii) : string :=
  match s with
  | EmptyString => EmptyString
  | String c rest => String (if Ascii.eqb c old then new else c) (ReplaceAll rest old new)
  end.

(** [Connect], from the answer of [s.Client.ClientBootContext] on: the
    branch [if err != nil], for the error [err] the request answered. The
    other branch, [connect], starts the goroutines of the session. *)
Definition Connect_failed (err : error) : M (option error) :=
  (if String.eqb (Error_text err) "user_removed_from_team"
      || String.eqb (Error_text err) "invalid_auth"
   then
     invalidateSession
       (mkBridgeState StateBadCredentials
          ("slack-" +:+ ReplaceAll (Error_text err) "_" "-") "")
   else
     emit (BridgeStateSend
             (mkBridgeState StateUnknownError "slack-unknown-fetch-error"
                ("Unknown error from Slack: " +:+ Error_text err))));;
  ret (Some err).

(** What [LoadUserLogin] calls and is not among the sources: the parser of
    login ids of package slackid, [slack.New] with its options and
    [client.NewRTM] of slack-go, and [s.br.UnlockedGetPortalByID]. *)
Variable ParseUserLoginID : string → string * string.
Variable slack_New : string → list ClientOption → SlackAPI.
Variable NewRTM : SlackAPI → SlackRTM.
Variable UnlockedGetPortalByID : PortalKey → option Portal * option error.

(** [makeSlackClient]; [traceLevel] is [log.GetLevel() == zerolog.TraceLevel]. *)
Definition makeSlackClient (traceLevel : bool) (token cookieToken : string) : SlackAPI :=
  let options := [OptionLog "slackgo"; OptionDebug traceLevel] in
  let options :=
    if negb (String.eqb cookieToken "")
    then (options ++ [OptionCookie "d" cookieToken])%list
    else options in
  slack_New token options.

(** [LoadUserLogin]. The answer is the session that is stored in
    [login.Client], if one is, with its team portal, and the error. The
    literals of the session do not name [IsRealUser], which is left at its
    zero value. *)
Definition LoadUserLogin (main : Config) (traceLevel : bool) (login : UserLogin)
    : option (SlackClient * option Portal) * option error :=
  let '(teamID, userID) := ParseUserLoginID (UserLogin_ID login) in
  let sc :=
    match Metadata_Extra login !! "token" with
    | Some (AnyString token) =>
        let cookieToken := string_at (Metadata_Extra login) "cookie_token" in
        let client := makeSlackClient traceLevel token cookieToken in
        mkSlackClient main login (Some client) (Some (NewRTM client)) userID teamID false
    | _ => mkSlackClient main login None None userID teamID false
    end in
  let teamPortalKey := mkPortalKey (slackid.MakeTeamPortalID teamID) "" in
  match UnlockedGetPortalByID teamPortalKey with
  | (_, Some err) => (None, Some (Errorf_w "failed to get team portal" err))
  | (teamPortal, None) => (Some (sc, teamPortal), None)
  end.

(** *** Resolving identifiers and searching users *)

(** What the two methods call and is not among the sources:
    [strings.ToUpper], three requests of the client of the remote service,
    the ghost directory [s.Main.br.GetGhostByID], and the methods
    [wrapChatInfo] and [wrapUserInfo] of the session. *)
Variable strings_ToUpper : string → string.
Variable api_GetUserInfo : SlackAPI → string → option User * option error.
Variable api_OpenConversation : SlackAPI → list string → bool → Channel * option error.
Variable api_SearchUsersCache : SlackAPI → string → string → list User * option error.
Variable GetGhostByID : SlackClient → string → option Ghost * option error.
Variable wrapChatInfo : SlackClient → Channel → bool → option ChatInfo * option error.
Variable wrapUserInfo : SlackClient → string → User → option UserInfo.

(** [fmt.Errorf("not logged in")]: an error of this text that is not
    [bridgev2.ErrNotLoggedIn]. *)
Definition not_logged_in : error := errors_New "not logged in".

(** [ResolveIdentifier] *)
Definition ResolveIdentifier (identifier : string) (createChat : bool) (s : SlackClient)
    : list Lookup * Outcome (option ResolveIdentifierResponse * option error) :=
  match Client s with
  | None => ([], Returned (None, Some not_logged_in))
  | Some api =>
      let resolved :=
        if ContainsRune identifier "-" then
          let '(teamID, userID) := slackid.ParseUserID identifier in
          if negb (String.eqb teamID (TeamID s)) then None else Some userID
        else Some (strings_ToUpper identifier) in
      match resolved with
      | None => ([], Returned (None, Some (errors_New "identifier does not match team")))
      | Some identifier =>
          match api_GetUserInfo api identifier with
          | (_, Some err) =>
              ([GetUserInfo identifier],
               Returned (None, Some (Errorf_w "failed to get user info" err)))
          | (None, None) => ([GetUserInfo identifier], Panicked nil_dereference)
          | (Some userInfo, None) =>
              let userID := slackid.MakeUserID (TeamID s) (User_ID userInfo) in
              match GetGhostByID s userID with
              | (_, Some err) =>
                  ([GetUserInfo identifier; LookupGhost userID],
                   Returned (None, Some (Errorf_w "failed to get ghost" err)))
              | (ghost, None) =>
                  if createChat then
                    match api_OpenConversation api [User_ID userInfo] true with
                    | (_, Some err) =>
                        ([GetUserInfo identifier; LookupGhost userID;
                          OpenConversation [User_ID userInfo] true],
                         Returned (None, Some (Errorf_w "failed to open conversation" err)))
                    | (resp, None) =>
                        match wrapChatInfo s resp true with
                        | (_, Some err) =>
                            ([GetUserInfo identifier; LookupGhost userID;
                              OpenConversation [User_ID userInfo] true; WrapChatInfo resp],
                             Returned (None, Some (Errorf_w "failed to wrap chat info" err)))
                        | (chatInfo, None) =>
                            ([GetUserInfo identifier; LookupGhost userID;
                              OpenConversation [User_ID userInfo] true; WrapChatInfo resp],
                             Returned
                               (Some (mkResolveIdentifierResponse ghost userID None
                                        (Some (mkCreateChatResponse (makePortalKey s resp)
                                                 chatInfo))),
                                None))
                        end
                    end
                  else
                    ([GetUserInfo identifier; LookupGhost userID],
                     Returned (Some (mkResolveIdentifierResponse ghost userID None None), None))
              end
          end
      end
  end.

(** [for i, user := range resp.Results], which is left by [return] at the
    first ghost that cannot be fetched. *)
Fixpoint searchResults (s : SlackClient) (users : list User)
    : list Lookup * (list ResolveIdentifierResponse + error) :=
  match users with
  | [] => ([], inl [])
  | user :: users =>
      let userID := slackid.MakeUserID (TeamID s) (User_ID user) in
      match GetGhostByID s userID with
      | (_, Some err) => ([LookupGhost userID], inr (Errorf_w "failed to get ghost" err))
      | (ghost, None) =>
          let result :=
            mkResolveIdentifierResponse ghost userID (wrapUserInfo s (User_ID user) user)
              None in
          let '(lookups, rest) := searchResults s users in
          (LookupGhost userID :: lookups,
           match rest with
           | inl results => inl (result :: results)
           | inr err => inr err
           end)
      end
  end.

(** [SearchUsers]; the answer is the slice, [nil] with an error. *)
Definition SearchUsers (query : string) (s : SlackClient)
    : list Lookup * (option (list ResolveIdentifierResponse) * option error) :=
  match Client s with
  | None => ([], (None, Some not_logged_in))
  | Some api =>
      match api_SearchUsersCache api (TeamID s) query with
      | (_, Some err) => ([SearchUsersCache (TeamID s) query], (None, Some err))
      | (users, None) =>
          let '(lookups, results) := searchResults s users in
          (SearchUsersCache (TeamID s) query :: lookups,
           match results with
           | inl results => (Some results, None)
           | inr err => (None, Some err)
           end)
      end
  end.

(** What [wrapEvent] hands to [makeEventMeta] for an event: the channel
    id, the descriptor of the channel, the sender id and the timestamp; and
    the type it gives the meta and whether the portal may be created. *)
Definition channelOfEvent (rawEvt : SlackEvent) : string :=
  match rawEvt with
  | MessageEvent_ evt => Message_Channel evt
  | ReactionAddedEvent _ item _ _ | ReactionRemovedEvent _ item _ _ => Item_Channel item
  | UserTypingEvent _ channel | MemberJoinedChannelEvent _ channel
  | MemberLeftChannelEvent _ channel => channel
  | ChannelMarkedEvent channel _ | IMMarkedEvent channel _ | GroupMarkedEvent channel _
  | ChannelLeftEvent channel _ | GroupLeftEvent channel _
  | ChannelUpdateEvent channel _ => channel
  | ChannelJoinedEvent channel | GroupJoinedEvent channel => Channel_ID channel
  | _ => ""
  end.

Definition descriptorOf (rawEvt : SlackEvent) : option Channel :=
  match rawEvt with
  | ChannelJoinedEvent channel | GroupJoinedEvent channel => Some channel
  | _ => None
  end.

Definition senderOfEvent (s : SlackClient) (rawEvt : SlackEvent) : string :=
  match rawEvt with
  | MessageEvent_ evt => Message_User evt
  | ReactionAddedEvent user _ _ _ | ReactionRemovedEvent user _ _ _
  | UserTypingEvent user _ | MemberJoinedChannelEvent user _
  | MemberLeftChannelEvent user _ => user
  | ChannelMarkedEvent _ _ | IMMarkedEvent _ _ | GroupMarkedEvent _ _
  | ChannelJoinedEvent _ | GroupJoinedEvent _
  | ChannelLeftEvent _ _ | GroupLeftEvent _ _ => UserID s
  | _ => ""
  end.

Definition timestampOfEvent (rawEvt : SlackEvent) : string :=
  match rawEvt with
  | MessageEvent_ evt => Message_Timestamp evt
  | ReactionAddedEvent _ _ _ timestamp | ReactionRemovedEvent _ _ _ timestamp
  | ChannelMarkedEvent _ timestamp | IMMarkedEvent _ timestamp
  | GroupMarkedEvent _ timestamp | ChannelLeftEvent _ timestamp
  | GroupLeftEvent _ timestamp | ChannelUpdateEvent _ timestamp => timestamp
  | _ => ""
  end.

Definition typeOfEvent (rawEvt : SlackEvent) : RemoteEventType :=
  match rawEvt with
  | MessageEvent_ _ => RemoteEventMessage
  | ReactionAddedEvent _ _ _ _ => RemoteEventReaction
  | ReactionRemovedEvent _ _ _ _ => RemoteEventReactionRemove
  | UserTypingEvent _ _ => RemoteEventTyping
  | ChannelMarkedEvent _ _ | IMMarkedEvent _ _ | GroupMarkedEvent _ _ =>
      RemoteEventReadReceipt
  | ChannelJoinedEvent _ | GroupJoinedEvent _ | ChannelLeftEvent _ _ | GroupLeftEvent _ _
  | MemberJoinedChannelEvent _ _ | MemberLeftChannelEvent _ _
  | ChannelUpdateEvent _ _ => RemoteEventChatInfoChange
  | _ => RemoteEventUnknown
  end.

Definition createsPortal (rawEvt : SlackEvent) : bool :=
  match rawEvt with
  | MessageEvent_ _ | ChannelJoinedEvent _ | GroupJoinedEvent _
  | ChannelUpdateEvent _ _ => true
  | _ => false
  end.

(** The page requests that the loop of [SyncChannels] makes of a remote
    service that answers as [api] does, from [totalLimit] and [cursor] on:
    a request is made while conversations are wanted, the service has not
    failed and has named a next page that is not empty. *)
Fixpoint pageRequests (api : SlackAPI) (fuel : nat) (totalLimit : Z) (cursor : string)
    : list (Z * string) :=
  if bool_decide (totalLimit > 0) then
    match fuel with
    | O => []
    | S fuel =>
        let reqLimit := if bool_decide (totalLimit > 200) then 100 else totalLimit in
        match api_GetConversationsForUser api reqLimit cursor with
        | (_, _, Some _) => [(reqLimit, cursor)]
        | (channelsChunk, nextCursor, None) =>
            (reqLimit, cursor)
            :: (if String.eqb nextCursor "" || bool_decide (length channelsChunk = 0%nat)
                then []
                else pageRequests api fuel (totalLimit - Z.of_nat (length channelsChunk))
                       nextCursor)
        end
    end
  else [].

(** The page requests of a session, which are none for a legacy token and
    without client, and the conversations the remote service lists in answer
    to them. *)
Definition listing (s : SlackClient) : list (Z * string) :=
  if String.prefix "xoxs" (string_at (Metadata_Extra (Login s)) "token") then []
  else
    match Client s with
    | Some api =>
        let totalLimit := Backfill_ConversationCount (Main_Config s) in
        pageRequests api (Z.to_nat totalLimit) totalLimit ""
    | None => []
    end.

Definition listed (s : SlackClient) : list Channel :=
  match Client s with
  | Some api =>
      mjoin ((λ '(limit, cursor), (api_GetConversationsForUser api limit cursor).1.1)
               <$> listing s)
  | None => []
  end.

(** The metadata that is written to a room, the write that follows the
    fetch of the metadata of a portal, and the creation that follows the
    request for the portal of a channel. *)
Definition infos_updated (trace : list Effect) : list (Portal * ChatInfo) :=
  omap (λ e, match e with UpdateInfo portal info => Some (portal, info) | _ => None end)
       trace.

Definition updated (s : SlackClient) (portal : Portal) : option (Portal * ChatInfo) :=
  match getChatInfo s portal with
  | (info, None) => Some (portal, info)
  | (_, Some _) => None
  end.

Definition created (s : SlackClient) (ch : Channel) : option Portal :=
  match br_GetPortalByID (UserLogin_Bridge (Login s)) (makePortalKey s ch) with
  | (portal, None) => Some portal
  | (_, Some _) => None
  end.

(** The collaborators answer what [SyncChannels] asks of them: no page
    request is answered with an error (and a session without client has a
    legacy token or wants no conversation), the portals of the login are
    listed without error, and the directory answers no [nil] portal without
    error for a portal of a channel. *)
Definition answered (s : SlackClient) : Prop :=
  let br := UserLogin_Bridge (Login s) in
  match Client s with
  | Some api =>
      Forall (λ request, (api_GetConversationsForUser api request.1 request.2).2 = None)
             (listing s)
  | None =>
      String.prefix "xoxs" (string_at (Metadata_Extra (Login s)) "token") = true
      ∨ Backfill_ConversationCount (Main_Config s) ≤ 0
  end
  ∧ (br_GetAllForLogin br).2 = None
  ∧ Forall (λ userPortal,
              (slackid.ParsePortalID (PortalKey_ID (UserPortal_Portal userPortal))).2 ≠ "" →
              br_GetExistingPortalByID br (UserPortal_Portal userPortal) ≠ (None, None))
           (br_GetAllForLogin br).1.

(** ** Properties *)

(** *** Laws of the monad, as equations between runs *)

Lemma bind_ret {A B} (a : A) (k : A → M B) (s : SlackClient) :
  bind (ret a) k s = k a s.
Proof. unfold bind, ret. by destruct (k a s). Qed.

Lemma bind_get {B} (k : SlackClient → M B) (s : SlackClient) :
  bind get k s = k s s.
Proof. unfold bind, get. by destruct (k s s). Qed.

Lemma bind_modify {B} (f : SlackClient → SlackClient) (k : unit → M B) (s : SlackClient) :
  bind (modify f) k s = k tt (f s).
Proof. unfold bind, modify. by destruct (k tt (f s)). Qed.

Lemma bind_emit {B} (e : Effect) (k : unit → M B) (s : SlackClient) :
  bind (emit e) k s = prefixed [e] (k tt s).
Proof. unfold bind, emit, prefixed. by destruct (k tt s). Qed.

Lemma bind_panic {A B} (reason : string) (k : A → M B) (s : SlackClient) :
  bind (panic reason) k s = mkRun s [] (Panicked reason).
Proof. done. Qed.

Lemma bind_assoc {A B C} (m : M A) (k1 : A → M B) (k2 : B → M C) (s : SlackClient) :
  bind (bind m k1) k2 s = bind m (λ a, bind (k1 a) k2) s.
Proof.
  unfold bind. destruct (m s) as [s1 tr1 [a|reason]]; [|done].
  destruct (k1 a s1) as [s2 tr2 [b|reason]]; [|done].
  destruct (k2 b s2) as [s3 tr3 o]. by rewrite app_assoc.
Qed.

(** A bind after a run that is known only by its three components. *)
Lemma bind_run {A B} (m : M A) (k : A → M B) (s : SlackClient) :
  bind m k s
  = match outcome (m s) with
    | Returned a => prefixed (trace (m s)) (k a (final (m s)))
    | Panicked reason => mkRun (final (m s)) (trace (m s)) (Panicked reason)
    end.
Proof.
  unfold bind, prefixed. destruct (m s) as [s1 tr1 [a|reason]]; simpl; [|done].
  by destruct (k a s1).
Qed.

Lemma emit_run (e : Effect) (s : SlackClient) : emit e s = mkRun s [e] (Returned tt).
Proof. done. Qed.

Lemma ret_run {A} (a : A) (s : SlackClient) : ret a s = mkRun s [] (Returned a).
Proof. done. Qed.

Lemma panic_run {A} (reason : string) (s : SlackClient) :
  panic reason s = mkRun s [] (@Panicked A reason).
Proof. done. Qed.

Lemma final_prefixed {A} (tr : list Effect) (r : Run A) : final (prefixed tr r) = final r.
Proof. done. Qed.

Lemma trace_prefixed {A} (tr : list Effect) (r : Run A) :
  trace (prefixed tr r) = (tr ++ trace r)%list.
Proof. done. Qed.

Lemma outcome_prefixed {A} (tr : list Effect) (r : Run A) :
  outcome (prefixed tr r) = outcome r.
Proof. done. Qed.

(** Evaluation of a method: the binds are resolved from the left with
    the laws above, until a collaborator's answer has to be destructed. *)
Ltac run_step :=
  first
    [ rewrite bind_assoc
    | rewrite bind_ret
    | rewrite bind_get
    | rewrite bind_modify
    | rewrite bind_emit
    | rewrite bind_panic
    | rewrite emit_run
    | rewrite ret_run
    | rewrite panic_run
    | rewrite final_prefixed
    | rewrite trace_prefixed
    | rewrite outcome_prefixed
    | progress simpl ].

Ltac run :=
  unfold log, on_Client, on_RTM, on_Bridge, mbind, M_bind, mret, M_ret;
  repeat run_step.

(** Membership of an effect in a trace that is known up to the trace of
    a call. *)
Ltac not_in_trace :=
  let Hin := fresh "Hin" in
  intros Hin;
  repeat (apply elem_of_cons in Hin as [Hin|Hin]; [discriminate Hin|]);
  first [by apply elem_of_nil in Hin|done].

Ltac in_trace :=
  repeat first [by apply elem_of_cons; left|apply elem_of_cons; right].

(** *** The session is invalidated *)

Lemma invalidateSession_run (s : SlackClient) (state : BridgeState) :
  let r := invalidateSession state s in
  outcome r = Returned tt
  ∧ Metadata_Extra (Login (final r)) !! "token" = Some (AnyString "")
  ∧ Metadata_Extra (Login (final r)) !! "cookie_token" = Some (AnyString "")
  ∧ Save (Metadata_Extra (Login (final r))) ∈ trace r
  ∧ Client (final r) = None
  ∧ RTM (final r) = None
  ∧ (is_Some (RTM s) → RTMDisconnect ∈ trace r)
  ∧ states_sent (trace r) = [state]
  ∧ events_queued (trace r) = [].
Proof.
  unfold invalidateSession, Disconnect. run.
  destruct (br_Save (UserLogin_Bridge (Login s))) as [saveErr|]; run;
    destruct (RTM s) as [[[rtmErr|]]|] eqn:Hrtm; run; rewrite ?Hrtm; run;
    (split_and!;
     [ done
     | by rewrite lookup_insert_ne, lookup_insert_eq
     | by rewrite lookup_insert_eq
     | in_trace
     | done
     | done
     | first [by intros [? [=]]|intros _; in_trace]
     | done
     | done ]).
Qed.

(** C2. When a "connected" acknowledgement reports another team or
    user than the session's own, or the stream delivers the invalid-auth
    signal, [HandleSlackEvent] invalidates the session: the token and the
    cookie token are overwritten by the empty string and the login is
    saved so, the client and the stream handles are dropped (the stream is
    disconnected first when there is one), exactly one status is sent
    (unknown error "slack-id-mismatch" for a mismatch, bad credentials
    "slack-invalid-auth" for invalid auth), and no remote event is
    queued. *)
Theorem session_invalidated (s : SlackClient) (rawEvt : SlackEvent) :
  identity_failure s rawEvt →
  let r := HandleSlackEvent rawEvt s in
  outcome r = Returned tt
  ∧ Metadata_Extra (Login (final r)) !! "token" = Some (AnyString "")
  ∧ Metadata_Extra (Login (final r)) !! "cookie_token" = Some (AnyString "")
  ∧ Save (Metadata_Extra (Login (final r))) ∈ trace r
  ∧ Client (final r) = None
  ∧ RTM (final r) = None
  ∧ (is_Some (RTM s) → RTMDisconnect ∈ trace r)
  ∧ states_sent (trace r) = [failure_state rawEvt]
  ∧ events_queued (trace r) = [].
Proof.
  intros Hfail.
  destruct rawEvt as [| teamID userID | | | | | | | | | | | | | | | | | | | | | | | | | | | |];
    simpl in Hfail; try done.
  - assert (negb (String.eqb teamID (TeamID s)) || negb (String.eqb userID (UserID s))
            = true) as Hmismatch.
    { destruct (String.eqb_spec teamID (TeamID s)), (String.eqb_spec userID (UserID s));
        simpl; try done. destruct Hfail as [?|?]; congruence. }
    unfold HandleSlackEvent. run. rewrite Hmismatch. run.
    destruct (invalidateSession_run s (failure_state (ConnectedEvent teamID userID)))
      as (Ho & Ht & Hc & Hs & Hcl & Hr & Hd & Hst & Hq).
    simpl in *. split_and!; try done; [by apply elem_of_cons; right|].
    intros Hsome. apply elem_of_cons. right. by apply Hd.
  - unfold HandleSlackEvent. run.
    apply (invalidateSession_run s (failure_state InvalidAuthEvent)).
Qed.

(** *** The outbound dispatcher *)

(** C3. On a session with a client, [sendToSlack] issues exactly one
    request to the remote service, chosen in a fixed order of priority:
    the post request when the payload has one, otherwise the file upload,
    otherwise the share of an uploaded file. A payload with none of the
    three fails with the error "no message or attachment to send" and
    nothing at all is done. *)
Theorem outbound_dispatch (s : SlackClient) (api : SlackAPI) (channelID : string)
    (conv : ConvertedSlackMessage) (msg : option MatrixMessage) :
  Client s = Some api →
  let r := sendToSlack channelID conv msg s in
  match SendReq conv, FileUpload conv, FileShare conv with
  | Some sendReq, _, _ => remote_calls (trace r) = [PostMessage channelID sendReq]
  | None, Some fileUpload, _ => remote_calls (trace r) = [UploadFileV2 fileUpload]
  | None, None, Some fileShare => remote_calls (trace r) = [ShareFile fileShare]
  | None, None, None =>
      outcome r = Returned ("", Some (errors_New "no message or attachment to send"))
      ∧ trace r = []
  end.
Proof.
  intros Hclient. unfold sendToSlack.
  destruct (SendReq conv) as [sendReq|], (FileUpload conv) as [fileUpload|],
    (FileShare conv) as [fileShare|]; run; rewrite ?Hclient; run; try done.
  1-4: by destruct (api_PostMessage api channelID sendReq) as [[? ?] ?].
  1-2: destruct (api_UploadFileV2 api fileUpload) as [file [e|]]; run; [done|];
       destruct (negb _); run; [done|]; by destruct msg.
  by destruct (api_ShareFile api fileShare) as [resp [e|]].
Qed.

(** *** The event meta *)

Lemma makeEventMeta_returns (s : SlackClient) (channelID : string)
    (channel : option Channel) (senderID timestamp : string) :
  ∃ meta err,
    outcome (makeEventMeta channelID channel senderID timestamp s) = Returned (meta, err)
    ∧ final (makeEventMeta channelID channel senderID timestamp s) = s.
Proof.
  unfold makeEventMeta. run. destruct channel as [ch|]; run.
  - by eexists _, _.
  - destruct (br_FindPortalReceiver _ _ _) as [key [e|]]; run; [by eexists _, _|].
    destruct (IsEmpty key); run; by eexists _, _.
Qed.

(** C5. Without a channel descriptor [makeEventMeta] asks the portal
    directory once, for (the portal id of this team and channel, this
    login), and it fails with "unknown channel" exactly when the directory
    answers without error and with the empty key. Whatever the outcome, the
    room key of the meta is the key the directory answered, and it is not
    empty when no error is returned: an identifier is never made up from
    the channel id. With a descriptor the key is [makePortalKey] of the
    descriptor and the directory is not asked. *)
Theorem event_meta_resolution (s : SlackClient) (channelID senderID timestamp : string) :
  let answer :=
    br_FindPortalReceiver (UserLogin_Bridge (Login s))
      (slackid.MakePortalID (TeamID s) channelID) (UserLogin_ID (Login s)) in
  let r := makeEventMeta channelID None senderID timestamp s in
  trace r = [FindPortalReceiver (slackid.MakePortalID (TeamID s) channelID)
               (UserLogin_ID (Login s))]
  ∧ (∃ meta err, outcome r = Returned (meta, err) ∧ Meta_PortalKey meta = answer.1)
  ∧ ((∃ meta, outcome r = Returned (meta, Some (Errorf_s "unknown channel" channelID)))
     ↔ answer.2 = None ∧ IsEmpty answer.1 = true)
  ∧ (∀ meta, outcome r = Returned (meta, None) →
       answer.2 = None ∧ IsEmpty (Meta_PortalKey meta) = false)
  ∧ (∀ channel,
       let r' := makeEventMeta channelID (Some channel) senderID timestamp s in
       trace r' = []
       ∧ ∃ meta, outcome r' = Returned (meta, None)
                 ∧ Meta_PortalKey meta = makePortalKey s channel).
Proof.
  assert (∀ channel,
            let r' := makeEventMeta channelID (Some channel) senderID timestamp s in
            trace r' = []
            ∧ ∃ meta, outcome r' = Returned (meta, None)
                      ∧ Meta_PortalKey meta = makePortalKey s channel) as Hdescriptor.
  { intros channel. unfold makeEventMeta. run. split; [done|].
    eexists. split; [done|].
    by destruct (negb (String.eqb senderID "")), (negb (String.eqb timestamp "")). }
  unfold makeEventMeta. run.
  destruct (br_FindPortalReceiver _ _ _) as [key [e|]]; run.
  - split_and!; [done|by eexists _, _| |done|done].
    split; [by intros [? [=]]|by intros [[=] _]].
  - destruct (IsEmpty key) eqn:Hempty; run.
    + split_and!; [done|by eexists _, _| |done|done].
      split; [done|]. intros _. by eexists.
    + split_and!; [done| | | |done].
      * eexists _, _. split; [done|].
        by destruct (negb (String.eqb senderID "")), (negb (String.eqb timestamp "")).
      * split; [by intros [? [=]]|by intros [_ [=]]].
      * intros meta [= <-]. split; [done|].
        by destruct (negb (String.eqb senderID "")), (negb (String.eqb timestamp "")).
Qed.

(** C9. A message event of subtype "message_changed" is wrapped, like
    every message event, into a [SlackMessage] that carries the raw event;
    its type is answered as an edit, and [ConvertEdit], which is to build
    the payload of the edit, is a stub: on every portal and every list of
    existing parts it panics with "implement me", without an effect and
    without a result. *)
Theorem message_changed_is_stub_edit (s : SlackClient) (evt : MessageEvent) :
  SubType evt = MsgSubTypeMessageChanged →
  ∃ meta metaErr,
    outcome (wrapEvent (MessageEvent_ evt) s) = Returned (Some (SlackMessage meta evt), metaErr)
    ∧ GetType (SlackMessage meta evt) = RemoteEventEdit
    ∧ ∀ portal existing s',
        outcome (ConvertEdit meta evt portal existing s') = Panicked "implement me"
        ∧ trace (ConvertEdit meta evt portal existing s') = []
        ∧ final (ConvertEdit meta evt portal existing s') = s'.
Proof.
  intros Hsub. unfold wrapEvent.
  destruct (makeEventMeta_returns s (Message_Channel evt) None (Message_User evt)
              (Message_Timestamp evt)) as (meta & err & Hmeta & Hfinal).
  run. rewrite bind_run, Hmeta. run.
  eexists _, _. split; [done|]. split; [|done].
  simpl. by rewrite Hsub.
Qed.

(** *** Uploads *)

(** C6. When the payload is a file upload that the remote service
    accepts, the timestamp of the message is the one of the first record
    of the upload's private shares for the channel, or, when there is no
    such record, of the first record of its public shares. When there is
    neither, [sendToSlack] returns the empty timestamp and no error, the
    upload is noted as pending under the transaction id "user:file", and
    [HandleMatrixMessage] answers a response that is pending. *)
Theorem upload_timestamp (s : SlackClient) (api : SlackAPI) (channelID : string)
    (fileUpload : UploadFileV2Parameters) (fileShare : option ShareFileParams)
    (msg : MatrixMessage) (file : File) :
  Client s = Some api →
  api_UploadFileV2 api fileUpload = (file, None) →
  let conv := mkConverted None (Some fileUpload) fileShare in
  let private := default [] (Shares_Private file !! channelID) in
  let public := default [] (Shares_Public file !! channelID) in
  let r := sendToSlack channelID conv (Some msg) s in
  (∀ info rest, private = info :: rest → Ts info ≠ "" →
     outcome r = Returned (Ts info, None))
  ∧ (∀ info rest, private = [] → public = info :: rest → Ts info ≠ "" →
       outcome r = Returned (Ts info, None))
  ∧ (private = [] → public = [] →
       outcome r = Returned ("", None)
       ∧ AddPendingToSave (UserID s +:+ ":" +:+ File_ID file) ∈ trace r
       ∧ (channelOf (Message_Portal msg) = channelID → channelID ≠ "" →
          ToSlack s (Message_Portal msg) (Message_Content msg) (ThreadRoot msg) None
            (Message_OrigSender msg) (IsRealUser s) = (conv, None) →
          outcome (HandleMatrixMessage msg s)
          = Returned (Some (mkMatrixMessageResponse None true), None))).
Proof.
  intros Hclient Hupload conv private public r.
  assert (∀ ts, ts ≠ "" → negb (String.eqb ts "") = true) as Hne.
  { intros ts Hts. by destruct (String.eqb_spec ts ""). }
  assert (sendToSlack channelID conv (Some msg) s
          = prefixed [Log DebugLevel "Uploading attachment to Slack"; UploadFileV2 fileUpload]
              match private, public with
              | info :: _, _ | [], info :: _ =>
                  if negb (String.eqb (Ts info) "")
                  then mkRun s [] (Returned (Ts info, None))
                  else mkRun s [AddPendingToSave (UserID s +:+ ":" +:+ File_ID file)]
                         (Returned ("", None))
              | [], [] =>
                  mkRun s [AddPendingToSave (UserID s +:+ ":" +:+ File_ID file)]
                    (Returned ("", None))
              end) as Hsend.
  { unfold sendToSlack. subst private public. simpl. run. rewrite Hclient. run.
    rewrite Hupload. run.
    destruct (Shares_Private file !! channelID) as [[|priv0 privs]|];
      destruct (Shares_Public file !! channelID) as [[|pub0 pubs]|]; simpl;
      try destruct (negb (String.eqb (Ts priv0) ""));
      try destruct (negb (String.eqb (Ts pub0) "")); by run. }
  subst r. split_and!.
  - intros info rest Hpriv Hts. rewrite Hsend, Hpriv. simpl. by rewrite (Hne _ Hts).
  - intros info rest Hpriv Hpub Hts. rewrite Hsend, Hpriv, Hpub. simpl.
    by rewrite (Hne _ Hts).
  - intros Hpriv Hpub. rewrite Hsend, Hpriv, Hpub. simpl.
    split_and!; [done|in_trace|].
    intros Hch Hvalid Hconv. unfold HandleMatrixMessage. run.
    rewrite Hclient. simpl. rewrite Hch.
    destruct (String.eqb_spec channelID ""); [done|].
    rewrite Hconv. run. rewrite bind_run. fold conv. rewrite Hsend, Hpriv, Hpub. by run.
Qed.

(** *** The gates of the outbound handlers *)

(** C7, as the code has it. On a session with a client: read receipts
    and typing notifications are gated by [IsRealUser], a session that is
    not a real user returns success and does nothing. A real user issues
    exactly one request for a read receipt when the receipt has a target
    (the exact message, or else the message the store answers) whose id can
    be taken apart, and none otherwise; and exactly one request for a typing
    notification when the portal has a channel and the session has an RTM
    client, none when the portal has no channel, and with a channel but
    without RTM client the handler panics before any request. Changes of the
    room name and of the room topic are not gated: with a portal of a
    channel they issue their one request whatever [IsRealUser] is. *)
Theorem presence_gated_by_real_user (s : SlackClient) (api : SlackAPI) :
  Client s = Some api →
  (IsRealUser s = false →
     (∀ msg, outcome (HandleMatrixReadReceipt msg s) = Returned None
             ∧ trace (HandleMatrixReadReceipt msg s) = [])
     ∧ (∀ msg, outcome (HandleMatrixTyping msg s) = Returned None
               ∧ trace (HandleMatrixTyping msg s) = []))
  ∧ (IsRealUser s = true →
       (∀ msg, (length (remote_calls (trace (HandleMatrixReadReceipt msg s))) ≤ 1)%nat)
       ∧ (∀ msg exact teamID channelID messageTS,
            ExactMessage msg = Some exact →
            slackid.ParseMessageID (DBMessage_ID exact) = (teamID, channelID, messageTS, true) →
            remote_calls (trace (HandleMatrixReadReceipt msg s))
            = [MarkConversation channelID messageTS])
       ∧ (∀ msg, (length (remote_calls (trace (HandleMatrixTyping msg s))) ≤ 1)%nat)
       ∧ (∀ msg, channelOf (Typing_Portal msg) ≠ "" → is_Some (RTM s) →
            remote_calls (trace (HandleMatrixTyping msg s))
            = [SendTypingMessage (channelOf (Typing_Portal msg))])
       ∧ (∀ msg,
            remote_calls (trace (HandleMatrixReadReceipt msg s))
            = match receiptTarget s msg with
              | Some target =>
                  let '(_, channelID, messageTS, ok) :=
                    slackid.ParseMessageID (DBMessage_ID target) in
                  if ok then [MarkConversation channelID messageTS] else []
              | None => []
              end)
       ∧ (∀ msg,
            remote_calls (trace (HandleMatrixTyping msg s))
            = if String.eqb (channelOf (Typing_Portal msg)) "" then []
              else match RTM s with
                   | Some _ => [SendTypingMessage (channelOf (Typing_Portal msg))]
                   | None => []
                   end)
       ∧ (∀ msg, channelOf (Typing_Portal msg) ≠ "" → RTM s = None →
            outcome (HandleMatrixTyping msg s) = Panicked nil_dereference))
  ∧ (∀ msg, channelOf (RoomName_Portal msg) ≠ "" →
       remote_calls (trace (HandleMatrixRoomName msg s))
       = [RenameConversation (channelOf (RoomName_Portal msg)) (Content_Name msg)])
  ∧ (∀ msg, channelOf (RoomTopic_Portal msg) ≠ "" →
       remote_calls (trace (HandleMatrixRoomTopic msg s))
       = [SetTopicOfConversation (channelOf (RoomTopic_Portal msg)) (Content_Topic msg)]).
Proof.
  intros Hclient.
  assert (∀ messageID,
            (length (remote_calls (trace (markConversation messageID s))) ≤ 1)%nat) as Hmark.
  { intros messageID. unfold markConversation.
    destruct (slackid.ParseMessageID messageID) as [[[? channelID] messageTS] [|]];
      run; rewrite ?Hclient; run; lia. }
  split_and!.
  - intros Hreal. split; intros msg.
    + unfold HandleMatrixReadReceipt. run. rewrite Hclient, Hreal. by run.
    + unfold HandleMatrixTyping. run. rewrite Hclient, Hreal. by run.
  - intros Hreal. split_and!.
    + intros msg. unfold HandleMatrixReadReceipt. run. rewrite Hclient, Hreal. run.
      destruct (ExactMessage msg) as [exact|]; [apply Hmark|]. run.
      destruct (br_GetLastPartAtOrBeforeTime _ _ _) as [[last|] [e|]]; run;
        [lia|by apply (Hmark (DBMessage_ID last))|lia|lia].
    + intros msg exact teamID channelID messageTS Hexact Hparse.
      unfold HandleMatrixReadReceipt. run. rewrite Hclient, Hreal. run.
      rewrite Hexact. unfold markConversation. rewrite Hparse. run.
      rewrite Hclient. by run.
    + intros msg. unfold HandleMatrixTyping. run. rewrite Hclient, Hreal. run.
      destruct (String.eqb _ ""); run; [lia|].
      destruct (RTM s); run; lia.
    + intros msg Hch [rtm Hrtm]. unfold HandleMatrixTyping. run.
      rewrite Hclient, Hreal. run.
      destruct (String.eqb_spec (channelOf (Typing_Portal msg)) ""); [done|].
      run. rewrite Hrtm. by run.
    + assert (∀ target,
                remote_calls (trace (markConversation (DBMessage_ID target) s))
                = (let '(_, channelID, messageTS, ok) :=
                     slackid.ParseMessageID (DBMessage_ID target) in
                   if ok then [MarkConversation channelID messageTS] else [])) as Hmarked.
      { intros target. unfold markConversation.
        destruct (slackid.ParseMessageID _) as [[[? channelID] messageTS] [|]];
          run; rewrite ?Hclient; by run. }
      intros msg. unfold HandleMatrixReadReceipt, receiptTarget. run.
      rewrite Hclient, Hreal. run.
      destruct (ExactMessage msg) as [exact|]; [apply Hmarked|]. run.
      destruct (br_GetLastPartAtOrBeforeTime _ _ _) as [[last|] [e|]]; run; try done.
    + intros msg. unfold HandleMatrixTyping. run. rewrite Hclient, Hreal. run.
      destruct (String.eqb (channelOf (Typing_Portal msg)) ""); run; [done|].
      destruct (RTM s); by run.
    + intros msg Hch Hrtm. unfold HandleMatrixTyping. run. rewrite Hclient, Hreal. run.
      destruct (String.eqb_spec (channelOf (Typing_Portal msg)) ""); [done|].
      run. rewrite Hrtm. by run.
  - intros msg Hch. unfold HandleMatrixRoomName. run.
    destruct (String.eqb_spec (channelOf (RoomName_Portal msg)) ""); [done|].
    run. rewrite Hclient. run. by destruct (api_RenameConversation _ _ _).
  - intros msg Hch. unfold HandleMatrixRoomTopic. run.
    destruct (String.eqb_spec (channelOf (RoomTopic_Portal msg)) ""); [done|].
    run. rewrite Hclient. run. by destruct (api_SetTopicOfConversation _ _ _).
Qed.

(** The seven handlers of handlematrix.go that test [s.Client == nil]
    answer [ErrNotLoggedIn] on a session without client, and do nothing
    else. *)
Lemma not_logged_in_checked_first (s : SlackClient) :
  Client s = None →
  (∀ msg, outcome (HandleMatrixMessage msg s) = Returned (None, Some ErrNotLoggedIn)
          ∧ trace (HandleMatrixMessage msg s) = [])
  ∧ (∀ msg, outcome (HandleMatrixEdit msg s) = Returned (Some ErrNotLoggedIn)
            ∧ trace (HandleMatrixEdit msg s) = [])
  ∧ (∀ msg, outcome (HandleMatrixMessageRemove msg s) = Returned (Some ErrNotLoggedIn)
            ∧ trace (HandleMatrixMessageRemove msg s) = [])
  ∧ (∀ msg, outcome (HandleMatrixReaction msg s) = Returned (None, Some ErrNotLoggedIn)
            ∧ trace (HandleMatrixReaction msg s) = [])
  ∧ (∀ msg, outcome (HandleMatrixReactionRemove msg s) = Returned (Some ErrNotLoggedIn)
            ∧ trace (HandleMatrixReactionRemove msg s) = [])
  ∧ (∀ msg, outcome (HandleMatrixReadReceipt msg s) = Returned (Some ErrNotLoggedIn)
            ∧ trace (HandleMatrixReadReceipt msg s) = [])
  ∧ (∀ msg, outcome (HandleMatrixTyping msg s) = Returned (Some ErrNotLoggedIn)
            ∧ trace (HandleMatrixTyping msg s) = []).
Proof.
  intros Hclient.
  unfold HandleMatrixMessage, HandleMatrixEdit, HandleMatrixMessageRemove,
    HandleMatrixReaction, HandleMatrixReactionRemove, HandleMatrixReadReceipt,
    HandleMatrixTyping.
  split_and!; intros msg; run; rewrite Hclient; by run.
Qed.

(** The two handlers that do not: with a portal of a channel,
    [HandleMatrixRoomName] and [HandleMatrixRoomTopic] go on to the request
    on the [nil] client and panic. *)
Lemma room_handlers_without_client (s : SlackClient) :
  Client s = None →
  (∀ msg, channelOf (RoomName_Portal msg) ≠ "" →
     outcome (HandleMatrixRoomName msg s) = Panicked nil_dereference)
  ∧ (∀ msg, channelOf (RoomTopic_Portal msg) ≠ "" →
       outcome (HandleMatrixRoomTopic msg s) = Panicked nil_dereference).
Proof.
  intros Hclient. split; intros msg Hch.
  - unfold HandleMatrixRoomName. run.
    destruct (String.eqb_spec (channelOf (RoomName_Portal msg)) ""); [done|].
    run. rewrite Hclient. by run.
  - unfold HandleMatrixRoomTopic. run.
    destruct (String.eqb_spec (channelOf (RoomTopic_Portal msg)) ""); [done|].
    run. rewrite Hclient. by run.
Qed.

(** *** Channel reconciliation, loop by loop *)

Lemma addChunk_app (m : gmap string Channel) (chunk1 chunk2 : list Channel) :
  addChunk m (chunk1 ++ chunk2) = addChunk (addChunk m chunk1) chunk2.
Proof. unfold addChunk. apply foldl_app. Qed.

Lemma fetched_nil (s : SlackClient) : fetched s [] = [].
Proof. unfold fetched. by destruct (Client s). Qed.

Lemma fetched_cons_request (s : SlackClient) (api : SlackAPI) (limit : Z)
    (cursor : string) (trace : list Effect) :
  Client s = Some api →
  fetched s (GetConversationsForUser limit cursor :: trace)
  = (((api_GetConversationsForUser api limit cursor).1.1) ++ fetched s trace)%list.
Proof. intros Hclient. unfold fetched. by rewrite Hclient. Qed.

Lemma fetched_cons_log (s : SlackClient) (level : LogLevel) (message : string)
    (trace : list Effect) :
  fetched s (Log level message :: trace) = fetched s trace.
Proof. done. Qed.

Lemma fetchConversations_run (fuel : nat) :
  ∀ (totalLimit : Z) (cursor : string) (m : gmap string Channel) (s : SlackClient),
    let r := fetchConversations fuel totalLimit cursor m s in
    final r = s
    ∧ portals_requested (trace r) = []
    ∧ rooms_created (trace r) = []
    ∧ refreshed (trace r) = []
    ∧ (GetAllForLogin ∉ trace r)
    ∧ (∀ m', outcome r = Returned (Some m') → m' = addChunk m (fetched s (trace r))).
Proof.
  induction fuel as [|fuel IH]; intros totalLimit cursor m s; simpl.
  - case_bool_decide; run.
    + split_and!; try done. not_in_trace.
    + split_and!; try done; [not_in_trace|].
      intros m' [= <-]. by rewrite fetched_nil.
  - case_bool_decide; run.
    2: { split_and!; try done; [not_in_trace|].
         intros m' [= <-]. by rewrite fetched_nil. }
    destruct (Client s) as [api|] eqn:Hclient; run.
    2: { split_and!; try done. not_in_trace. }
    set (reqLimit := if bool_decide (totalLimit > 200) then 100 else totalLimit).
    destruct (api_GetConversationsForUser api reqLimit cursor)
      as [[chunk nextCursor] [e|]] eqn:Hanswer; run.
    { split_and!; try done. not_in_trace. }
    destruct (String.eqb nextCursor "" || bool_decide (length chunk = 0%nat)); run.
    + split_and!; try done; [not_in_trace|].
      intros m' [= <-]. rewrite (fetched_cons_request s api) by done.
      rewrite Hanswer, fetched_cons_log, fetched_nil. simpl. by rewrite app_nil_r.
    + destruct (IH (totalLimit - Z.of_nat (length chunk)) nextCursor (addChunk m chunk) s)
        as (Hfinal & Hportals & Hrooms & Hrefreshed & Hlist & Hmap).
      split_and!; try done; [not_in_trace|].
      intros m' Hm'. rewrite (fetched_cons_request s api) by done.
      rewrite Hanswer, fetched_cons_log. simpl.
      rewrite addChunk_app. by apply Hmap.
Qed.

(** The loop over the pages terminates within its fuel. *)
Lemma fetchConversations_fuel (fuel : nat) :
  ∀ (totalLimit : Z) (cursor : string) (m : gmap string Channel) (s : SlackClient),
    (Z.to_nat totalLimit ≤ fuel)%nat →
    outcome (fetchConversations fuel totalLimit cursor m s) ≠ Panicked out_of_fuel.
Proof.
  induction fuel as [|fuel IH]; intros totalLimit cursor m s Hfuel; simpl.
  - case_bool_decide; run; [lia|done].
  - case_bool_decide; run; [|done].
    destruct (Client s) as [api|]; run; [|done].
    set (reqLimit := if bool_decide (totalLimit > 200) then 100 else totalLimit).
    destruct (api_GetConversationsForUser api reqLimit cursor)
      as [[chunk nextCursor] [e|]]; run; [done|].
    destruct (String.eqb nextCursor ""); run; [done|].
    case_bool_decide as Hlen; run; [done|].
    apply IH. lia.
Qed.

Lemma dereference_is_not_fuel {A} : @Panicked A nil_dereference ≠ Panicked out_of_fuel.
Proof. done. Qed.

Lemma refreshExisting_run (m : gmap string Channel) (userPortal : UserPortal)
    (s : SlackClient) :
  let r := refreshExisting m userPortal s in
  let br := UserLogin_Bridge (Login s) in
  final r = s
  ∧ outcome r ≠ Panicked out_of_fuel
  ∧ conversations_requested (trace r) = []
  ∧ portals_requested (trace r) = []
  ∧ rooms_created (trace r) = []
  ∧ (GetAllForLogin ∉ trace r)
  ∧ (∀ e, e ∈ remote_calls (trace r) → ∃ portal, e = GetChatInfo portal)
  ∧ (∀ portal, portal ∈ refreshed (trace r) →
       ∃ channelID, existingRoom br userPortal = Some (channelID, portal))
  ∧ (∀ m', outcome r = Returned m' →
       m' = removeExisting br m userPortal
       ∧ ∀ channelID portal, existingRoom br userPortal = Some (channelID, portal) →
           GetChatInfo portal ∈ trace r).
Proof.
  assert (∀ (A : Type) (x : A), x ∈ @nil A → False) as Hnil
    by (intros A x Hx; by apply elem_of_nil in Hx).
  unfold refreshExisting, removeExisting, existingRoom.
  destruct (slackid.ParsePortalID (PortalKey_ID (UserPortal_Portal userPortal)))
    as [teamID channelID]; simpl.
  destruct (String.eqb channelID ""); run.
  { split_and!; try done; try not_in_trace; try (by intros ? ?%Hnil).
    intros m' [= <-]. done. }
  destruct (br_GetExistingPortalByID _ _) as [[portal|] [e|]]; run.
  1,3,4: split_and!; try done; try not_in_trace; try (by intros ? ?%Hnil);
    try (by intros m' [= <-]); try apply dereference_is_not_fuel.
  destruct (String.eqb (MXID portal) ""); run.
  { split_and!; try done; try not_in_trace; try (by intros ? ?%Hnil).
    by intros m' [= <-]. }
  destruct (getChatInfo s portal) as [info [e|]]; run.
  - split_and!; try done; [not_in_trace| | |].
    + intros e' ->%list_elem_of_singleton. by eexists.
    + intros p ->%list_elem_of_singleton. by eexists.
    + intros m' [= <-]. split; [done|]. intros ? ? [= <- <-]. in_trace.
  - split_and!; try done; [not_in_trace| | |].
    + intros e' ->%list_elem_of_singleton. by eexists.
    + intros p ->%list_elem_of_singleton. by eexists.
    + intros m' [= <-]. split; [done|]. intros ? ? [= <- <-]. in_trace.
Qed.

Lemma refreshAll_run (userPortals : list UserPortal) :
  ∀ (m : gmap string Channel) (s : SlackClient),
    let r := foldlM refreshExisting m userPortals s in
    let br := UserLogin_Bridge (Login s) in
    final r = s
    ∧ outcome r ≠ Panicked out_of_fuel
    ∧ conversations_requested (trace r) = []
    ∧ portals_requested (trace r) = []
    ∧ rooms_created (trace r) = []
    ∧ (GetAllForLogin ∉ trace r)
    ∧ (∀ e, e ∈ remote_calls (trace r) → ∃ portal, e = GetChatInfo portal)
    ∧ (∀ portal, portal ∈ refreshed (trace r) →
         ∃ userPortal channelID,
           userPortal ∈ userPortals
           ∧ existingRoom br userPortal = Some (channelID, portal))
    ∧ (∀ m', outcome r = Returned m' →
         m' = foldl (removeExisting br) m userPortals
         ∧ ∀ userPortal channelID portal,
             userPortal ∈ userPortals →
             existingRoom br userPortal = Some (channelID, portal) →
             GetChatInfo portal ∈ trace r).
Proof.
  induction userPortals as [|userPortal userPortals IH]; intros m s; simpl.
  - run.
    split_and!;
      [done|done|done|done|done|by intros ?%elem_of_nil|by intros ? ?%elem_of_nil
      |by intros ? ?%elem_of_nil|].
    intros m' [= <-]. split; [done|]. by intros ? ? ? ?%elem_of_nil.
  - destruct (refreshExisting_run m userPortal s)
      as (Hfinal & Hfuel & Hconv & Hportals & Hrooms & Hlist & Hremote & Hrefreshed & Hmap).
    run. rewrite bind_run.
    destruct (outcome (refreshExisting m userPortal s)) as [m1|reason] eqn:Hout; run.
    2: { split_and!; try done.
         - intros portal Hportal. destruct (Hrefreshed portal Hportal) as [channelID ?].
           exists userPortal, channelID. split; [by apply elem_of_cons; left|done]. }
    rewrite Hfinal.
    destruct (IH m1 s)
      as (Hfinal' & Hfuel' & Hconv' & Hportals' & Hrooms' & Hlist' & Hremote' & Hrefreshed'
          & Hmap').
    destruct (Hmap m1 eq_refl) as [-> Hinfo].
    unfold conversations_requested, portals_requested, rooms_created, refreshed,
      remote_calls in *.
    rewrite !omap_app.
    split_and!; try done.
    + by rewrite Hconv, Hconv'.
    + by rewrite Hportals, Hportals'.
    + by rewrite Hrooms, Hrooms'.
    + by intros [?|?]%elem_of_app.
    + intros e [He|He]%elem_of_app; auto.
    + intros portal [Hportal|Hportal]%elem_of_app.
      * destruct (Hrefreshed portal Hportal) as [channelID ?].
        exists userPortal, channelID. split; [by apply elem_of_cons; left|done].
      * destruct (Hrefreshed' portal Hportal) as (up & channelID & ? & ?).
        exists up, channelID. split; [by apply elem_of_cons; right|done].
    + intros m' Hm'. destruct (Hmap' m' Hm') as [-> Hinfo'].
      split; [done|].
      intros up channelID portal [->|Hup]%elem_of_cons Hexisting.
      * apply elem_of_app. left. by eapply Hinfo.
      * apply elem_of_app. right. by eapply Hinfo'.
Qed.

Lemma createRoom_run (ch : Channel) (s : SlackClient) :
  let r := createRoom ch s in
  let br := UserLogin_Bridge (Login s) in
  final r = s
  ∧ outcome r = Returned tt
  ∧ conversations_requested (trace r) = []
  ∧ portals_requested (trace r) = [makePortalKey s ch]
  ∧ refreshed (trace r) = []
  ∧ remote_calls (trace r) = []
  ∧ (GetAllForLogin ∉ trace r)
  ∧ (∀ portal, portal ∈ rooms_created (trace r) →
       br_GetPortalByID br (makePortalKey s ch) = (portal, None)).
Proof.
  unfold createRoom. run.
  destruct (br_GetPortalByID _ _) as [portal [e|]] eqn:Hportal; run;
    [|destruct (br_CreateMatrixRoom _ portal) as [e|]; run];
    (split_and!; [done..|not_in_trace|]); intros p Hp.
  - by apply elem_of_nil in Hp.
  - by apply list_elem_of_singleton in Hp as ->.
  - by apply list_elem_of_singleton in Hp as ->.
Qed.

Lemma createRooms_run (channels : list Channel) :
  ∀ s : SlackClient,
    let r := forM_ createRoom channels s in
    let br := UserLogin_Bridge (Login s) in
    final r = s
    ∧ outcome r = Returned tt
    ∧ conversations_requested (trace r) = []
    ∧ portals_requested (trace r) = makePortalKey s <$> channels
    ∧ refreshed (trace r) = []
    ∧ remote_calls (trace r) = []
    ∧ (GetAllForLogin ∉ trace r)
    ∧ (∀ portal, portal ∈ rooms_created (trace r) →
         ∃ ch, ch ∈ channels ∧ br_GetPortalByID br (makePortalKey s ch) = (portal, None)).
Proof.
  induction channels as [|ch channels IH]; intros s; simpl.
  - run. split_and!; [done..|by intros ?%elem_of_nil|by intros ? ?%elem_of_nil].
  - destruct (createRoom_run ch s)
      as (Hfinal & Hout & Hconv & Hportals & Hrefreshed & Hremote & Hlist & Hrooms).
    destruct (IH s)
      as (Hfinal' & Hout' & Hconv' & Hportals' & Hrefreshed' & Hremote' & Hlist' & Hrooms').
    run. rewrite bind_run, Hout, Hfinal. run.
    unfold conversations_requested, portals_requested, rooms_created, refreshed,
      remote_calls in *.
    rewrite !omap_app.
    split_and!; try done.
    + by rewrite Hconv, Hconv'.
    + by rewrite Hportals, Hportals'.
    + by rewrite Hrefreshed, Hrefreshed'.
    + by rewrite Hremote, Hremote'.
    + by intros [?|?]%elem_of_app.
    + intros portal [Hportal|Hportal]%elem_of_app.
      * exists ch. split; [by apply elem_of_cons; left|by apply Hrooms].
      * destruct (Hrooms' portal Hportal) as (ch' & Hch' & Hp'). exists ch'.
        split; [by apply elem_of_cons; right|done].
Qed.

(** *** The candidates and their order *)

Lemma byLastRead_le (a b : Channel) :
  byLastRead a b ↔ String.le (LastRead a) (LastRead b).
Proof.
  unfold byLastRead, cmp_Compare, String.le, String.leb.
  destruct (String.compare (LastRead a) (LastRead b)); simpl; split; try done; lia.
Qed.

Global Instance byLastRead_trans : Transitive byLastRead.
Proof.
  intros a b c ?%byLastRead_le ?%byLastRead_le. apply byLastRead_le. by etrans.
Qed.

Global Instance byLastRead_total : Total byLastRead.
Proof.
  intros a b. destruct (total String.le (LastRead a) (LastRead b));
    [left|right]; by apply byLastRead_le.
Qed.

Lemma addChunk_lookup (chunk : list Channel) :
  ∀ (m : gmap string Channel) (id : string) (ch : Channel),
    addChunk m chunk !! id = Some ch →
    m !! id = Some ch ∨ (ch ∈ chunk ∧ notOpenDM ch = false ∧ Channel_ID ch = id).
Proof.
  unfold addChunk.
  induction chunk as [|c chunk IH]; intros m id ch; simpl; [by left|].
  intros [Hm|(Hin & Hopen & Hid)]%IH.
  - destruct (notOpenDM c) eqn:Hc; [by left|].
    destruct (decide (Channel_ID c = id)) as [<-|Hne].
    + rewrite lookup_insert_eq in Hm. injection Hm as <-.
      right. split; [by apply elem_of_cons; left|done].
    + rewrite lookup_insert_ne in Hm by done. by left.
  - right. split; [by apply elem_of_cons; right|done].
Qed.

Lemma addChunk_covers (chunk : list Channel) :
  ∀ (m : gmap string Channel) (id : string),
    is_Some (m !! id) ∨ (∃ ch, ch ∈ chunk ∧ notOpenDM ch = false ∧ Channel_ID ch = id) →
    is_Some (addChunk m chunk !! id).
Proof.
  unfold addChunk.
  induction chunk as [|c chunk IH]; intros m id; simpl.
  - intros [Hm|(ch & Hin & _)]; [done|by apply elem_of_nil in Hin].
  - intros Hcases. apply IH.
    destruct (notOpenDM c) eqn:Hc.
    + destruct Hcases as [Hm|(ch & [->|Hin]%elem_of_cons & Hopen & Hid)];
        [by left|congruence|right; by exists ch].
    + destruct (decide (Channel_ID c = id)) as [<-|Hne].
      * left. rewrite lookup_insert_eq. by eexists.
      * destruct Hcases as [Hm|(ch & [->|Hin]%elem_of_cons & Hopen & Hid)];
          [left; by rewrite lookup_insert_ne|done|right; by exists ch].
Qed.

Lemma removeExisting_lookup (br : Bridge) (userPortals : list UserPortal) :
  ∀ (m : gmap string Channel) (id : string) (ch : Channel),
    foldl (removeExisting br) m userPortals !! id = Some ch
    ↔ m !! id = Some ch
      ∧ ∀ userPortal portal,
          userPortal ∈ userPortals → existingRoom br userPortal ≠ Some (id, portal).
Proof.
  induction userPortals as [|up userPortals IH]; intros m id ch; simpl.
  - split; [|by intros [? _]]. intros Hm. split; [done|]. by intros ? ? ?%elem_of_nil.
  - rewrite IH. unfold removeExisting.
    destruct (existingRoom br up) as [[channelID portal]|] eqn:Hup.
    + split.
      * intros [[Hne Hm]%lookup_delete_Some Hrest]. split; [done|].
        intros up' portal' [->|Hin]%elem_of_cons; [|by apply Hrest].
        rewrite Hup. congruence.
      * intros [Hm Hnone]. split.
        -- apply lookup_delete_Some. split; [|done].
           intros ->. by apply (Hnone up portal); [apply elem_of_cons; left|].
        -- intros up' portal' Hin. apply Hnone. by apply elem_of_cons; right.
    + split.
      * intros [Hm Hrest]. split; [done|].
        intros up' portal' [->|Hin]%elem_of_cons; [by rewrite Hup|by apply Hrest].
      * intros [Hm Hnone]. split; [done|].
        intros up' portal' Hin. apply Hnone. by apply elem_of_cons; right.
Qed.

Lemma remainingChannels_elem (m : gmap string Channel) (ch : Channel) :
  ch ∈ remainingChannels m ↔ ∃ id, m !! id = Some ch.
Proof.
  unfold remainingChannels. rewrite merge_sort_Permutation, list_elem_of_fmap.
  split.
  - intros ([id ch'] & -> & Hin%elem_of_map_to_list). by exists id.
  - intros [id Hm]. exists (id, ch). split; [done|]. by apply elem_of_map_to_list.
Qed.

Lemma remainingChannels_sorted (m : gmap string Channel) :
  StronglySorted byLastRead (remainingChannels m).
Proof. apply StronglySorted_merge_sort; apply _. Qed.

Lemma remainingChannels_NoDup (m : gmap string Channel) :
  (∀ id ch, m !! id = Some ch → Channel_ID ch = id) →
  NoDup (Channel_ID <$> remainingChannels m).
Proof.
  intros Hkeys. unfold remainingChannels. rewrite merge_sort_Permutation.
  assert (Channel_ID <$> (map_to_list m).*2 = (map_to_list m).*1) as ->.
  { rewrite <-list_fmap_compose. apply list_fmap_ext.
    intros i [id ch] Hi. simpl. apply Hkeys, elem_of_map_to_list.
    by eapply list_elem_of_lookup_2. }
  apply NoDup_fst_map_to_list.
Qed.

(** *** Channel reconciliation, part by part *)

Lemma fetchServerInfo_run (s : SlackClient) :
  let r := fetchServerInfo s in
  final r = s
  ∧ portals_requested (trace r) = []
  ∧ rooms_created (trace r) = []
  ∧ refreshed (trace r) = []
  ∧ (GetAllForLogin ∉ trace r)
  ∧ outcome r ≠ Panicked out_of_fuel
  ∧ (∀ m', outcome r = Returned (Some m') → m' = addChunk ∅ (fetched s (trace r)))
  ∧ (String.prefix "xoxs" (string_at (Metadata_Extra (Login s)) "token") = true →
     r = mkRun s [] (Returned (Some ∅))).
Proof.
  unfold fetchServerInfo. run.
  destruct (String.prefix "xoxs" _); run.
  - split_and!; [done..|by intros ?%elem_of_nil|done| |done].
    intros m' [= <-]. by rewrite fetched_nil.
  - set (totalLimit := Backfill_ConversationCount (Main_Config s)).
    destruct (fetchConversations_run (Z.to_nat totalLimit) totalLimit "" ∅ s)
      as (Hfinal & Hportals & Hrooms & Hrefreshed & Hlist & Hmap).
    split_and!; [done..|not_in_trace| | |done].
    + by apply fetchConversations_fuel.
    + intros m' Hm'. rewrite fetched_cons_log. by apply Hmap.
Qed.

Lemma refreshed_elem (portal : Portal) (tr : list Effect) :
  GetChatInfo portal ∈ tr → portal ∈ refreshed tr.
Proof.
  intros Hin. unfold refreshed. apply list_elem_of_omap.
  by exists (GetChatInfo portal).
Qed.

Lemma syncPortals_run (m : gmap string Channel) (s : SlackClient) :
  let r := syncPortals m s in
  let br := UserLogin_Bridge (Login s) in
  let userPortals := (br_GetAllForLogin br).1 in
  final r = s
  ∧ outcome r ≠ Panicked out_of_fuel
  ∧ conversations_requested (trace r) = []
  ∧ (∀ e, e ∈ remote_calls (trace r) → ∃ portal, e = GetChatInfo portal)
  ∧ (∀ portal, portal ∈ refreshed (trace r) →
       ∃ userPortal channelID,
         userPortal ∈ userPortals ∧ existingRoom br userPortal = Some (channelID, portal))
  ∧ ∃ remaining,
      (remaining = [] ∨ remaining = remainingChannels (foldl (removeExisting br) m userPortals))
      ∧ portals_requested (trace r) = makePortalKey s <$> remaining
      ∧ (∀ portal, portal ∈ rooms_created (trace r) →
           ∃ ch, ch ∈ remaining ∧ br_GetPortalByID br (makePortalKey s ch) = (portal, None))
      ∧ (outcome r = Returned tt → (br_GetAllForLogin br).2 = None →
         remaining = remainingChannels (foldl (removeExisting br) m userPortals)
         ∧ ∀ userPortal channelID portal,
             userPortal ∈ userPortals →
             existingRoom br userPortal = Some (channelID, portal) →
             portal ∈ refreshed (trace r)).
Proof.
  unfold syncPortals. run.
  destruct (br_GetAllForLogin (UserLogin_Bridge (Login s))) as [userPortals [e|]]; run.
  { split_and!; [done|done|done|by intros ? ?%elem_of_nil|by intros ? ?%elem_of_nil|].
    exists []. split_and!; [by left|done|by intros ? ?%elem_of_nil|done]. }
  destruct (refreshAll_run userPortals m s)
    as (Hfinal & Hfuel & Hconv & Hportals & Hrooms & Hlist & Hremote & Hrefreshed & Hmap).
  rewrite bind_run.
  destruct (outcome (foldlM refreshExisting m userPortals s)) as [m1|reason] eqn:Hout; run.
  2: { split_and!; [done|by intros [= ->]|done|done|done|].
       exists []. split_and!; [by left|done| |done].
       rewrite Hrooms. by intros ? ?%elem_of_nil. }
  destruct (Hmap m1 eq_refl) as [-> Hinfo].
  rewrite Hfinal.
  set (final_map := foldl (removeExisting (UserLogin_Bridge (Login s))) m userPortals).
  destruct (createRooms_run (remainingChannels final_map) s)
    as (Hfinal' & Hout' & Hconv' & Hportals' & Hrefreshed' & Hremote' & Hlist' & Hrooms').
  unfold conversations_requested, portals_requested, rooms_created, refreshed,
    remote_calls in *.
  rewrite !omap_app.
  split_and!; [done|by rewrite Hout'|by rewrite Hconv, Hconv'| | |].
  - rewrite Hremote'. intros e He. rewrite app_nil_r in He. by apply Hremote.
  - rewrite Hrefreshed'. intros portal Hportal. rewrite app_nil_r in Hportal.
    by apply Hrefreshed.
  - exists (remainingChannels final_map).
    split_and!; [by right|by rewrite Hportals, Hportals'| |].
    + rewrite Hrooms. by apply Hrooms'.
    + intros _ _. split; [done|].
      intros up channelID portal Hup Hexisting.
      apply elem_of_app. left. apply refreshed_elem. by eapply Hinfo.
Qed.

(** *** Channel reconciliation *)

(** C10. With a stored token that starts with "xoxs", [SyncChannels]
    never asks the remote service for the list of conversations: whatever
    the remote service would list, no portal is asked for and no room is
    created, and the only requests that leave for the remote service are
    those that fetch the metadata of rooms that exist. *)
Theorem legacy_token_creates_no_room (s : SlackClient) :
  String.prefix "xoxs" (string_at (Metadata_Extra (Login s)) "token") = true →
  let r := SyncChannels s in
  conversations_requested (trace r) = []
  ∧ portals_requested (trace r) = []
  ∧ rooms_created (trace r) = []
  ∧ (∀ e, e ∈ remote_calls (trace r) → ∃ portal, e = GetChatInfo portal).
Proof.
  intros Hlegacy.
  destruct (fetchServerInfo_run s) as (_ & _ & _ & _ & _ & _ & _ & Hfetch).
  destruct (syncPortals_run ∅ s)
    as (Hfinal & _ & Hconv & Hremote & Hrefreshed & remaining & Hremaining & Hportals
        & Hrooms & _).
  assert (remaining = []) as ->.
  { destruct Hremaining as [->| ->]; [done|].
    apply elem_of_nil_inv. intros ch [id Hid]%remainingChannels_elem.
    by apply removeExisting_lookup in Hid as [Hid _]. }
  unfold SyncChannels. run. rewrite bind_run, (Hfetch Hlegacy). run.
  split_and!; [done|done| |done].
  apply elem_of_nil_inv. intros portal Hportal.
  destruct (Hrooms portal Hportal) as (ch & Hch & _). by apply elem_of_nil in Hch.
Qed.

(** The bounds of the reconciliation, whatever the collaborators answer.
    [SyncChannels] asks for the portals of the channels of [remaining], one
    after the other. They are in ascending order of [LastRead], each channel
    id once, and a room is created only on a portal answered for one of
    them. Every one of them was listed by the remote service in this run, is
    not a direct-message conversation without a visible latest message, and
    is not the channel of a room that is already materialized. The rooms
    whose metadata is fetched again are materialized rooms of the login; and
    when the run gets through, [remaining] is all that is left of the listed
    channels, the metadata of every materialized room is fetched again, and
    every listed channel that is neither skipped nor materialized is
    visited. The loop over the pages always ends within its bound. *)
Lemma SyncChannels_bounds (s : SlackClient) :
  let r := SyncChannels s in
  let br := UserLogin_Bridge (Login s) in
  let userPortals := (br_GetAllForLogin br).1 in
  outcome r ≠ Panicked out_of_fuel
  ∧ ∃ remaining : list Channel,
      portals_requested (trace r) = makePortalKey s <$> remaining
      ∧ StronglySorted byLastRead remaining
      ∧ NoDup (Channel_ID <$> remaining)
      ∧ (∀ portal, portal ∈ rooms_created (trace r) →
           ∃ ch, ch ∈ remaining ∧ br_GetPortalByID br (makePortalKey s ch) = (portal, None))
      ∧ (∀ ch, ch ∈ remaining →
           ch ∈ fetched s (trace r)
           ∧ notOpenDM ch = false
           ∧ ∀ userPortal portal,
               userPortal ∈ userPortals →
               existingRoom br userPortal ≠ Some (Channel_ID ch, portal))
      ∧ (∀ portal, portal ∈ refreshed (trace r) →
           ∃ userPortal channelID,
             userPortal ∈ userPortals
             ∧ existingRoom br userPortal = Some (channelID, portal))
      ∧ (reconciled s r →
         remaining
         = remainingChannels
             (foldl (removeExisting br) (addChunk ∅ (fetched s (trace r))) userPortals)
         ∧ (∀ userPortal channelID portal,
              userPortal ∈ userPortals →
              existingRoom br userPortal = Some (channelID, portal) →
              portal ∈ refreshed (trace r))
         ∧ (∀ ch, ch ∈ fetched s (trace r) → notOpenDM ch = false →
              (∀ userPortal portal,
                 userPortal ∈ userPortals →
                 existingRoom br userPortal ≠ Some (Channel_ID ch, portal)) →
              ∃ ch', ch' ∈ remaining ∧ Channel_ID ch' = Channel_ID ch)).
Proof.
  assert (∀ (A : Type) (x : A), x ∈ @nil A → False) as Hnil
    by (intros A x Hx; by apply elem_of_nil in Hx).
  destruct (fetchServerInfo_run s)
    as (Hfinal & Hportals & Hrooms & Hrefreshed & Hlist & Hfuel & Hmap & _).
  unfold SyncChannels. run. rewrite bind_run.
  destruct (outcome (fetchServerInfo s)) as [[m1|]|reason] eqn:Hout; run.
  2,3: split; [first [done|by intros [= ->]]|]; exists [];
    rewrite ?app_nil_r, ?Hportals, ?Hrooms, ?Hrefreshed;
    (split_and!;
     [done|apply SSorted_nil|apply NoDup_nil_2|by intros ? ?%Hnil|by intros ? ?%Hnil
     |by intros ? ?%Hnil|]);
    intros (_ & Hlisted & _); simpl in Hlisted; rewrite ?app_nil_r in Hlisted;
    by apply Hlist in Hlisted.
  rewrite Hfinal. rewrite (Hmap m1 eq_refl). clear Hmap Hout Hfuel m1.
  set (candidates := addChunk ∅ (fetched s (trace (fetchServerInfo s)))).
  destruct (syncPortals_run candidates s)
    as (Hfinal' & Hfuel' & Hconv' & Hremote' & Hrefreshed' & remaining & Hremaining
        & Hportals' & Hrooms' & Hdone).
  assert (fetched s (trace (fetchServerInfo s) ++ trace (syncPortals candidates s))
          = fetched s (trace (fetchServerInfo s))) as Hfetched.
  { unfold fetched, conversations_requested in *.
    by rewrite omap_app, Hconv', app_nil_r. }
  assert (∀ id ch, candidates !! id = Some ch →
            ch ∈ fetched s (trace (fetchServerInfo s))
            ∧ notOpenDM ch = false ∧ Channel_ID ch = id) as Hcandidates.
  { intros id ch [Hempty|?]%addChunk_lookup; [|done]. by rewrite lookup_empty in Hempty. }
  set (final_map := foldl (removeExisting (UserLogin_Bridge (Login s))) candidates
                      (br_GetAllForLogin (UserLogin_Bridge (Login s))).1) in *.
  assert (∀ ch, ch ∈ remaining →
            final_map !! Channel_ID ch = Some ch) as Hleft.
  { intros ch Hch. destruct Hremaining as [->| ->]; [by apply Hnil in Hch|].
    apply remainingChannels_elem in Hch as [id Hid].
    pose proof Hid as [Hcand _]%removeExisting_lookup.
    by destruct (Hcandidates id ch Hcand) as (_ & _ & ->). }
  split; [done|].
  exists remaining.
  unfold portals_requested, rooms_created, refreshed in *.
  rewrite Hfetched, !omap_app, Hportals, Hrooms, Hrefreshed. simpl.
  split_and!.
  - done.
  - destruct Hremaining as [->| ->]; [apply SSorted_nil|apply remainingChannels_sorted].
  - destruct Hremaining as [->| ->]; [apply NoDup_nil_2|].
    apply remainingChannels_NoDup. intros id ch [Hcand _]%removeExisting_lookup.
    by destruct (Hcandidates id ch Hcand) as (_ & _ & ->).
  - done.
  - intros ch Hch. pose proof (Hleft ch Hch) as [Hcand Hnone]%removeExisting_lookup.
    destruct (Hcandidates _ ch Hcand) as (Hin & Hopen & _). done.
  - done.
  - intros (Hreturned & Hlisted & Hnoerr). simpl in Hreturned.
    destruct (Hdone Hreturned Hnoerr) as [-> Hinfo]. split; [done|]. split; [done|].
    intros ch Hin Hopen Hnone.
    destruct (addChunk_covers (fetched s (trace (fetchServerInfo s))) ∅ (Channel_ID ch))
      as [ch' Hch']; [right; by exists ch|].
    exists ch'. split.
    + apply remainingChannels_elem. exists (Channel_ID ch).
      apply removeExisting_lookup. done.
    + by destruct (Hcandidates _ ch' Hch') as (_ & _ & ?).
Qed.

(** *** The events of the stream *)

(** Evaluation down to the record of the run. *)
Ltac run_all := run; unfold prefixed; simpl.

(** The run of [makeEventMeta], in full: the session is left as it is,
    the directory is asked once when there is no descriptor, and the meta
    has the type and the flag of the zero value. *)
Lemma makeEventMeta_full (s : SlackClient) (channelID : string)
    (channel : option Channel) (senderID timestamp : string) :
  ∃ meta err,
    makeEventMeta channelID channel senderID timestamp s
    = mkRun s
        match channel with
        | Some _ => []
        | None => [FindPortalReceiver (slackid.MakePortalID (TeamID s) channelID)
                     (UserLogin_ID (Login s))]
        end
        (Returned (meta, err))
    ∧ Type_ meta = RemoteEventUnknown
    ∧ CreatePortal meta = false
    ∧ (∀ ch, channel = Some ch → err = None ∧ Meta_PortalKey meta = makePortalKey s ch)
    ∧ (channel = None →
       IsEmpty (br_FindPortalReceiver (UserLogin_Bridge (Login s))
                  (slackid.MakePortalID (TeamID s) channelID) (UserLogin_ID (Login s))).1
       = true →
       is_Some err)
    ∧ (err = None →
       Sender meta = (if String.eqb senderID "" then mkEventSender false "" ""
                      else makeEventSender s senderID)
       ∧ Meta_ID meta = (if String.eqb timestamp "" then ""
                         else slackid.MakeMessageID (TeamID s) channelID timestamp)
       ∧ Timestamp meta = (if String.eqb timestamp "" then zeroTime
                           else ParseSlackTimestamp timestamp)).
Proof.
  unfold makeEventMeta. run. destruct channel as [ch|]; run.
  - eexists _, _. split; [done|].
    destruct (String.eqb senderID ""), (String.eqb timestamp ""); simpl;
      split_and!; try done; by intros ? [= <-].
  - destruct (br_FindPortalReceiver _ _ _) as [key [e|]]; run.
    { eexists _, _. split; [done|]. split_and!; try done; by intros _ _; eexists. }
    destruct (IsEmpty key) eqn:Hempty; run.
    { eexists _, _. split; [done|]. split_and!; try done; by intros _ _; eexists. }
    eexists _, _. split; [done|].
    destruct (String.eqb senderID ""), (String.eqb timestamp ""); simpl;
      split_and!; done.
Qed.

(** The run of [wrapReaction]: no effect, no error, and a reaction event
    over the given meta. *)
Lemma wrapReaction_full (s : SlackClient) (meta : SlackEventMeta) (reaction : string)
    (add : bool) (target : ReactionItem) :
  ∃ emoji extra,
    wrapReaction meta reaction add target s
    = mkRun s []
        (Returned
           (SlackReaction
              (with_Type (if add then RemoteEventReaction else RemoteEventReactionRemove) meta)
              (slackid.MakeMessageID (TeamID s) (Item_Channel target) (Item_Timestamp target))
              (mkEmojiID reaction) emoji extra,
            None))
    ∧ reaction_shortcode extra = ":" +:+ reaction +:+ ":"
    ∧ slack_reaction extra !! "name" = Some reaction
    ∧ ((GetEmoji s reaction).2 = true →
       slack_reaction extra !! "mxc" = Some (GetEmoji s reaction).1
       ∧ emoji = if CustomEmojiReactions (Main_Config s) then (GetEmoji s reaction).1
                 else ":" +:+ reaction +:+ ":")
    ∧ ((GetEmoji s reaction).2 = false →
       slack_reaction extra !! "mxc" = None ∧ emoji = (GetEmoji s reaction).1).
Proof.
  unfold wrapReaction. run.
  destruct (GetEmoji s reaction) as [emoji [|]]; run.
  - eexists _, _. split; [done|]. simpl.
    split_and!; [done|by rewrite lookup_insert_ne, lookup_singleton_eq| |done].
    intros _. split; [by rewrite lookup_insert_eq|].
    by destruct (CustomEmojiReactions (Main_Config s)).
  - eexists _, _. split; [done|]. simpl.
    split_and!; [done|by rewrite lookup_singleton_eq|done|].
    intros _. split; [|done]. by rewrite lookup_singleton_ne.
Qed.

Local Arguments makeEventMeta : simpl never.

(** What [wrapEvent] does, whatever the event: it returns, leaves the
    session as it is, sends no status and queues nothing itself, and the
    only request it may make of the remote service is the one for the
    metadata of a channel. An event of a kind it knows that is wrapped
    without error is wrapped into an event, not into [nil]. *)
Lemma wrapEvent_run (s : SlackClient) (rawEvt : SlackEvent) :
  ∃ wrapped err tr,
    wrapEvent rawEvt s = mkRun s tr (Returned (wrapped, err))
    ∧ states_sent tr = []
    ∧ events_queued tr = []
    ∧ (∀ e, e ∈ remote_calls tr → ∃ channelID, e = FetchChatInfo channelID)
    ∧ (wrappable rawEvt = true → err = None → is_Some wrapped).
Proof.
  assert (∀ e : Effect, e ∈ @nil Effect → ∃ channelID, e = FetchChatInfo channelID) as Hnil
    by (intros e He; by apply elem_of_nil in He).
  unfold wrapEvent.
  destruct rawEvt as
    [ | | | | | evt | user item reaction ts | user item reaction ts | user channel
    | channel ts | channel ts | channel ts | channel | channel ts | channel | channel ts
    | user channel | user channel | channel ts | | | | | | | | | | | ];
    run;
    try (eexists _, _, _; split; [done|]; split_and!; done).
  all: rewrite bind_run.
  all: match goal with
       | |- context [makeEventMeta ?c ?d ?u ?t ?s0] =>
           destruct (makeEventMeta_full s0 c d u t) as (meta & err & -> & _)
       end.
  all: run.
  all: try match goal with
           | |- context [bind (wrapReaction ?m ?r ?a ?t) _ ?s0] =>
               rewrite bind_run;
               destruct (wrapReaction_full s0 m r a t) as (emoji & extra & -> & _); run
           end.
  all: try match goal with
           | |- context [fetchChatInfo ?a ?b ?c] =>
               destruct (fetchChatInfo a b c) as [info [e|]]; run
           end.
  all: unfold prefixed; simpl.
  all: eexists _, _, _; (split; [done|]).
  all: split_and!; try done; try (by eexists).
  all: intros e' ->%list_elem_of_singleton; by eexists.
Qed.
(** X1. The events of the connection itself, the events that are ignored
    and the events of a type that is not known are no chat events: unless
    the event is an identity failure, [HandleSlackEvent] returns, leaves the
    session as it is, queues nothing and asks nothing of the remote service.
    A status is sent for a connecting, a connected and an RTM error event
    only, one each; the one of an RTM error carries its code and message. *)
Theorem lifecycle_events_are_no_chat_events (s : SlackClient) (rawEvt : SlackEvent) :
  wrappable rawEvt = false →
  ¬ identity_failure s rawEvt →
  let r := HandleSlackEvent rawEvt s in
  outcome r = Returned tt
  ∧ final r = s
  ∧ events_queued (trace r) = []
  ∧ remote_calls (trace r) = []
  ∧ states_sent (trace r)
    = match rawEvt with
      | ConnectingEvent _ _ => [mkBridgeState StateConnecting "" ""]
      | ConnectedEvent _ _ => [mkBridgeState StateConnected "" ""]
      | RTMError code msg =>
          [mkBridgeState StateUnknownError ("slack-rtm-error-" +:+ pretty code)
             (pretty code +:+ ": " +:+ msg)]
      | _ => []
      end.
Proof.
  intros Hkind Hfail. unfold HandleSlackEvent.
  destruct rawEvt as [| teamID userID | | | | | | | | | | | | | | | | | | | | | | | | | | | |];
    try discriminate Hkind; try (by destruct Hfail); run; try done.
  simpl in Hfail.
  destruct (String.eqb_spec teamID (TeamID s)), (String.eqb_spec userID (UserID s));
    run; try done; exfalso; apply Hfail; auto.
Qed.

(** X2. An event of one of the fourteen kinds that are wrapped is queued
    exactly when [wrapEvent] returns no error for it: then the wrapped event,
    which is not [nil], is queued once; on an error the failure is logged and
    nothing is queued. Either way the session is left as it is and no status
    is sent. *)
Theorem wrapped_event_is_queued_once (s : SlackClient) (rawEvt : SlackEvent) :
  wrappable rawEvt = true →
  let r := HandleSlackEvent rawEvt s in
  ∃ wrapped err,
    outcome (wrapEvent rawEvt s) = Returned (wrapped, err)
    ∧ outcome r = Returned tt
    ∧ final r = s
    ∧ states_sent (trace r) = []
    ∧ events_queued (trace r) = (if err is None then [wrapped] else [])
    ∧ (err = None → is_Some wrapped)
    ∧ (is_Some err → Log ErrorLevel "Failed to wrap Slack event" ∈ trace r).
Proof.
  intros Hkind.
  destruct (wrapEvent_run s rawEvt) as (wrapped & err & tr & Heq & Hstates & Hqueued & _ & Hsome).
  exists wrapped, err.
  assert (HandleSlackEvent rawEvt s
          = bind (wrapEvent rawEvt)
              (λ '(wrapped, err),
                 match err with
                 | Some _ => log ErrorLevel "Failed to wrap Slack event"
                 | None => emit (QueueRemoteEvent wrapped)
                 end) s) as ->.
  { unfold HandleSlackEvent. destruct rawEvt; try discriminate Hkind; by run. }
  simpl. rewrite bind_run, Heq. simpl.
  unfold states_sent, events_queued in *.
  destruct err as [e|]; run; rewrite !omap_app, Hstates, Hqueued; simpl;
    (split_and!; [done|done|done|done|done|by auto|]).
  - intros _. apply elem_of_app. right. by apply list_elem_of_singleton.
  - by intros [? [=]].
Qed.

(** X3. A reaction event, added or removed, is wrapped into a reaction
    whose target is the message id made of the session's team and of the
    channel and timestamp of the item reacted to, and whose emoji id is the
    name of the reaction. Its extra content always carries the shortcode
    ":name:" and the name. For an emoji that has an image the extra content
    also carries the image, and the emoji shown is the image when
    [CustomEmojiReactions] is set and the shortcode when it is not; for an
    emoji without image the emoji shown is what the lookup answered. *)
Theorem reaction_event_translation (s : SlackClient) (user : string) (item : ReactionItem)
    (reaction eventTimestamp : string) :
  ∃ meta err emoji extra,
    outcome (wrapEvent (ReactionAddedEvent user item reaction eventTimestamp) s)
    = Returned
        (Some (SlackReaction (with_Type RemoteEventReaction meta)
                 (slackid.MakeMessageID (TeamID s) (Item_Channel item) (Item_Timestamp item))
                 (mkEmojiID reaction) emoji extra),
         err)
    ∧ outcome (wrapEvent (ReactionRemovedEvent user item reaction eventTimestamp) s)
      = Returned
          (Some (SlackReaction (with_Type RemoteEventReactionRemove meta)
                   (slackid.MakeMessageID (TeamID s) (Item_Channel item) (Item_Timestamp item))
                   (mkEmojiID reaction) emoji extra),
           err)
    ∧ reaction_shortcode extra = ":" +:+ reaction +:+ ":"
    ∧ slack_reaction extra !! "name" = Some reaction
    ∧ ((GetEmoji s reaction).2 = true →
       slack_reaction extra !! "mxc" = Some (GetEmoji s reaction).1
       ∧ emoji = if CustomEmojiReactions (Main_Config s) then (GetEmoji s reaction).1
                 else ":" +:+ reaction +:+ ":")
    ∧ ((GetEmoji s reaction).2 = false →
       slack_reaction extra !! "mxc" = None ∧ emoji = (GetEmoji s reaction).1).
Proof.
  destruct (makeEventMeta_full s (Item_Channel item) None user eventTimestamp)
    as (meta & err & Hmeta & _).
  destruct (wrapReaction_full s meta reaction true item)
    as (emoji & extra & Hadd & Hshort & Hname & Himage & Hplain).
  assert (wrapReaction meta reaction false item s
          = mkRun s []
              (Returned
                 (SlackReaction (with_Type RemoteEventReactionRemove meta)
                    (slackid.MakeMessageID (TeamID s) (Item_Channel item)
                       (Item_Timestamp item))
                    (mkEmojiID reaction) emoji extra, None))) as Hremove.
  { revert Hadd. unfold wrapReaction. run.
    destruct (GetEmoji s reaction) as [e [|]]; run; by intros [= <- <-]. }
  exists meta, err, emoji, extra.
  split_and!; try done.
  - unfold wrapEvent. run. rewrite bind_run, Hmeta. run. rewrite bind_run, Hadd. by run.
  - unfold wrapEvent. run. rewrite bind_run, Hmeta. run. rewrite bind_run, Hremove. by run.
Qed.
(** X4. The six membership events are all wrapped into a change of chat
    info with exactly one member change, for the sender of the meta: a join
    without previous membership for the joined events, a leave from a join
    for the left events. The portal may be created for a channel-joined and
    a group-joined event only; these two carry the descriptor of the channel,
    so that they need no lookup, cannot fail, and are always queued. *)
Theorem membership_events_translation (s : SlackClient) (rawEvt : SlackEvent)
    (newMembership prevMembership : string) (create : bool) :
  membershipOf rawEvt = Some (newMembership, prevMembership, create) →
  ∃ meta err,
    outcome (wrapEvent rawEvt s)
    = Returned
        (Some (SlackChatInfoChange meta
                 (mkChatInfoChange None
                    (Some [mkChatMember (Sender meta) newMembership prevMembership]))),
         err)
    ∧ Type_ meta = RemoteEventChatInfoChange
    ∧ CreatePortal meta = create
    ∧ (create = true →
       err = None
       ∧ trace (wrapEvent rawEvt s) = []
       ∧ events_queued (trace (HandleSlackEvent rawEvt s))
         = [Some (SlackChatInfoChange meta
                    (mkChatInfoChange None
                       (Some [mkChatMember (Sender meta) newMembership prevMembership])))]).
Proof.
  intros Hkind.
  destruct rawEvt as
    [ | | | | | evt | user item reaction ts | user item reaction ts | user channel
    | channel ts | channel ts | channel ts | channel | channel ts | channel | channel ts
    | user channel | user channel | channel ts | | | | | | | | | | | ];
    simplify_eq/=.
  1,3: exists (with_Type RemoteEventChatInfoChange
                 (with_CreatePortal true
                    (if negb (String.eqb (UserID s) "")
                     then with_Sender (makeEventSender s (UserID s))
                            (with_PortalKey (makePortalKey s channel) zeroMeta)
                     else with_PortalKey (makePortalKey s channel) zeroMeta))), None;
    (split; [unfold wrapEvent, wrapMemberChange; by run|]);
    split_and!; [done..|]; intros _; split_and!;
    [ done | unfold wrapEvent; by run
    | unfold HandleSlackEvent, wrapEvent, wrapMemberChange; by run_all ].
  all: first
    [ destruct (makeEventMeta_full s channel None (UserID s) ts)
        as (meta & err & Hmeta & Htype & Hcreate & _)
    | destruct (makeEventMeta_full s channel None user "")
        as (meta & err & Hmeta & Htype & Hcreate & _) ].
  all: exists (with_Type RemoteEventChatInfoChange meta), err.
  all: split_and!; try done.
  all: unfold wrapEvent; run; rewrite bind_run, Hmeta; by run.
Qed.

(** X5. A channel, a direct-message and a group marked event are wrapped
    into a read receipt that never creates the portal and names no single
    targets. When the meta resolves, the receipt is the session's own user's
    (when the session knows its user id), and with a timestamp it reads up to
    the parsed timestamp and its last target is the message id of that
    timestamp in the channel; without timestamp both are left empty. *)
Theorem read_receipt_translation (s : SlackClient) :
  Forall
    (λ marked : string → string → SlackEvent,
       ∀ channel timestamp,
         ∃ meta err,
           outcome (wrapEvent (marked channel timestamp) s)
           = Returned (Some (SlackReadReceipt meta), err)
           ∧ Type_ meta = RemoteEventReadReceipt
           ∧ CreatePortal meta = false
           ∧ GetReceiptTargets meta = []
           ∧ (err = None →
              Sender meta = (if String.eqb (UserID s) "" then mkEventSender false "" ""
                             else makeEventSender s (UserID s))
              ∧ GetLastReceiptTarget meta
                = (if String.eqb timestamp "" then ""
                   else slackid.MakeMessageID (TeamID s) channel timestamp)
              ∧ GetReadUpTo meta
                = (if String.eqb timestamp "" then zeroTime
                   else ParseSlackTimestamp timestamp)))
    [ChannelMarkedEvent; IMMarkedEvent; GroupMarkedEvent].
Proof.
  repeat apply Forall_cons_2; [..|apply Forall_nil_2]; intros channel timestamp.
  all: destruct (makeEventMeta_full s channel None (UserID s) timestamp)
         as (meta & err & Hmeta & Htype & Hcreate & _ & _ & Hfields).
  all: exists (with_Type RemoteEventReadReceipt meta), err.
  all: split; [unfold wrapEvent; run; rewrite bind_run, Hmeta; by run|].
  all: split_and!; try done.
Qed.

(** X6. The optional fields of the event meta: when [makeEventMeta]
    returns no error, the sender is left empty for an empty sender id and is
    the event sender of the id otherwise, and the message id and the
    timestamp are left empty for an empty timestamp and are the message id of
    (team, channel, timestamp) and the parsed timestamp otherwise. The type
    is left unknown and the portal is not to be created, whatever the
    outcome. *)
Theorem event_meta_optional_fields (s : SlackClient) (channelID : string)
    (channel : option Channel) (senderID timestamp : string) :
  ∃ meta err,
    outcome (makeEventMeta channelID channel senderID timestamp s) = Returned (meta, err)
    ∧ final (makeEventMeta channelID channel senderID timestamp s) = s
    ∧ Type_ meta = RemoteEventUnknown
    ∧ CreatePortal meta = false
    ∧ (err = None →
       Sender meta = (if String.eqb senderID "" then mkEventSender false "" ""
                      else makeEventSender s senderID)
       ∧ Meta_ID meta = (if String.eqb timestamp "" then ""
                         else slackid.MakeMessageID (TeamID s) channelID timestamp)
       ∧ Timestamp meta = (if String.eqb timestamp "" then zeroTime
                           else ParseSlackTimestamp timestamp)).
Proof.
  destruct (makeEventMeta_full s channelID channel senderID timestamp)
    as (meta & err & -> & Htype & Hcreate & _ & _ & Hfields).
  by exists meta, err.
Qed.

(** X7. The timestamp of a message event follows its type: an edit is
    stamped with the timestamp of the new version of the message (and the
    call panics when the event carries no new version), a removal with the
    deletion timestamp, and every other message event with the timestamp of
    its meta. *)
Theorem message_timestamp_follows_type (meta : SlackEventMeta) (Data : MessageEvent) :
  SlackMessage_GetTimestamp meta Data
  = match GetType (SlackMessage meta Data) with
    | RemoteEventEdit =>
        match SubMessage Data with
        | Some sub => Returned (ParseSlackTimestamp (Msg_Timestamp sub))
        | None => Panicked nil_dereference
        end
    | RemoteEventMessageRemove => Returned (ParseSlackTimestamp (DeletedTimestamp Data))
    | _ => Returned (Timestamp meta)
    end.
Proof.
  unfold SlackMessage_GetTimestamp, GetType.
  repeat case_bool_decide; done.
Qed.

(** *** The connection is closed *)

Lemma Disconnect_run (s : SlackClient) :
  ∃ tr,
    Disconnect s = mkRun (with_Client None (with_RTM None s)) tr (Returned tt)
    ∧ remote_calls tr = match RTM s with Some _ => [RTMDisconnect] | None => [] end
    ∧ disconnections tr = match RTM s with Some _ => 1%nat | None => 0%nat end
    ∧ states_sent tr = []
    ∧ events_queued tr = [].
Proof.
  unfold Disconnect. run.
  destruct s as [cfg login client [[[rtmErr|]]|] user team real]; run;
    unfold with_Client, with_RTM; simpl; by eexists.
Qed.

(** X8. [Disconnect] always returns. It leaves a session without client
    and without RTM client, which [IsLoggedIn] answers not to be logged in,
    and changes nothing else of the session. The RTM connection is closed
    when there is one, once, and a failure to close it is only logged; no
    status is sent. A second [Disconnect] does nothing at all. *)
Theorem Disconnect_drops_the_connection (s : SlackClient) :
  let r := Disconnect s in
  outcome r = Returned tt
  ∧ final r = with_Client None (with_RTM None s)
  ∧ IsLoggedIn (final r) = false
  ∧ remote_calls (trace r) = match RTM s with Some _ => [RTMDisconnect] | None => [] end
  ∧ states_sent (trace r) = []
  ∧ events_queued (trace r) = []
  ∧ Disconnect (final r) = mkRun (final r) [] (Returned tt).
Proof.
  destruct (Disconnect_run s) as (tr & Hrun & Hcalls & _ & Hstates & Hqueued).
  simpl. rewrite Hrun. simpl. by split_and!.
Qed.

(** *** The stream of events *)

Lemma invalidateSession_eq (s : SlackClient) (state : BridgeState) :
  ∃ tr,
    invalidateSession state s = mkRun (invalidated s) tr (Returned tt)
    ∧ disconnections tr = match RTM s with Some _ => 1%nat | None => 0%nat end.
Proof.
  unfold invalidateSession, Disconnect, invalidated. run.
  destruct (br_Save (UserLogin_Bridge (Login s))) as [saveErr|]; run;
    destruct s as [cfg login client [[[rtmErr|]]|] user team real]; run;
    unfold with_Client, with_RTM; simpl; by eexists.
Qed.

Lemma invalidated_logged_out (s : SlackClient) : logged_out (invalidated s).
Proof.
  unfold logged_out, invalidated. simpl. split_and!; try done.
  - by rewrite lookup_insert_ne, lookup_insert_eq.
  - by rewrite lookup_insert_eq.
Qed.

Lemma no_disconnection (tr : list Effect) :
  (∀ e, e ∈ remote_calls tr → ∃ channelID, e = FetchChatInfo channelID) →
  disconnections tr = 0%nat.
Proof.
  unfold disconnections, remote_calls.
  induction tr as [|e tr IH]; intros Hcalls; [done|].
  destruct e; simpl in *;
    try (apply IH; intros e He; apply Hcalls; (done || by apply elem_of_cons; right)).
  destruct (Hcalls RTMDisconnect) as [channelID [=]]. by apply elem_of_cons; left.
Qed.

(** One event: the session is invalidated by an identity failure and left
    as it is by any other event. *)
Lemma HandleSlackEvent_step (s : SlackClient) (rawEvt : SlackEvent) :
  ∃ tr,
    HandleSlackEvent rawEvt s
    = mkRun (if decide (identity_failure s rawEvt) then invalidated s else s) tr
        (Returned tt)
    ∧ disconnections tr
      = (if decide (identity_failure s rawEvt)
         then match RTM s with Some _ => 1%nat | None => 0%nat end
         else 0%nat)
    ∧ (identity_failure s rawEvt → states_sent tr = [failure_state rawEvt]).
Proof.
  destruct (wrappable rawEvt) eqn:Hkind.
  - destruct (wrapEvent_run s rawEvt) as (wrapped & err & tr & Hwrap & _ & _ & Hcalls & _).
    assert (¬ identity_failure s rawEvt) as Hfail
      by (destruct rawEvt; try discriminate Hkind; by intros []).
    rewrite !decide_False by done.
    unfold HandleSlackEvent.
    destruct rawEvt; try discriminate Hkind; run; rewrite bind_run, Hwrap; run.
    all: destruct err as [e|]; run_all; eexists; (split; [done|]).
    all: (split; [|by intros []]).
    all: unfold disconnections; rewrite omap_app, length_app; simpl.
    all: fold (disconnections tr); by rewrite no_disconnection.
  - unfold HandleSlackEvent.
    destruct rawEvt as [| teamID userID | | | | | | | | | | | | | | | | | | | | | | | | | | | |];
      try discriminate Hkind; run.
    all: try (unfold prefixed; simpl; eexists; split_and!; [done|done|by intros []]).
    + destruct (String.eqb_spec teamID (TeamID s)), (String.eqb_spec userID (UserID s)); run.
      all: case_decide as Hfail; try (by destruct Hfail); try (exfalso; apply Hfail; auto; fail).
      1: by eexists.
      all: pose proof (invalidateSession_run s
                         (mkBridgeState StateUnknownError "slack-id-mismatch" ""))
             as (_ & _ & _ & _ & _ & _ & _ & Hstates & _).
      all: destruct (invalidateSession_eq s
                       (mkBridgeState StateUnknownError "slack-id-mismatch" ""))
             as (tr & Hrun & Hdisc).
      all: simpl in Hstates; rewrite Hrun in Hstates |- *; simpl in Hstates.
      all: run_all; eexists; split_and!; [done|done|done].
    + pose proof (invalidateSession_run s
                    (mkBridgeState StateBadCredentials "slack-invalid-auth" ""))
        as (_ & _ & _ & _ & _ & _ & _ & Hstates & _).
      destruct (invalidateSession_eq s
                  (mkBridgeState StateBadCredentials "slack-invalid-auth" ""))
        as (tr & Hrun & Hdisc).
      simpl in Hstates. rewrite Hrun in Hstates |- *. simpl in Hstates.
      by exists tr.
Qed.

Lemma identity_failure_same (s s' : SlackClient) (rawEvt : SlackEvent) :
  TeamID s' = TeamID s → UserID s' = UserID s →
  identity_failure s' rawEvt ↔ identity_failure s rawEvt.
Proof. intros Hteam Huser. destruct rawEvt; simpl; by rewrite ?Hteam, ?Huser. Qed.

Lemma forM_HandleSlackEvent_run (incoming : list SlackEvent) :
  ∀ s : SlackClient,
    ∃ s' tr,
      forM_ HandleSlackEvent incoming s = mkRun s' tr (Returned tt)
      ∧ TeamID s' = TeamID s
      ∧ UserID s' = UserID s
      ∧ (logged_out s → logged_out s' ∧ disconnections tr = 0%nat)
      ∧ (Forall (λ e, ¬ identity_failure s e) incoming →
         s' = s ∧ tr = mjoin ((λ e, trace (HandleSlackEvent e s)) <$> incoming))
      ∧ (Exists (identity_failure s) incoming →
         logged_out s'
         ∧ disconnections tr = match RTM s with Some _ => 1%nat | None => 0%nat end)
      ∧ tr = handled s incoming
      ∧ Forall (λ e, identity_failure s e → failure_state e ∈ states_sent tr) incoming.
Proof.
  induction incoming as [|evt incoming IH]; intros s.
  { exists s, []. split_and!; try done. by intros ?%Exists_nil. }
  destruct (HandleSlackEvent_step s evt) as (tr0 & Hstep & Hdisc0 & Hstate0).
  change (forM_ HandleSlackEvent (evt :: incoming) s)
    with (bind (HandleSlackEvent evt) (λ _, forM_ HandleSlackEvent incoming) s).
  rewrite bind_run, Hstep. unfold prefixed. simpl.
  set (s1 := if decide (identity_failure s evt) then invalidated s else s) in *.
  assert (TeamID s1 = TeamID s ∧ UserID s1 = UserID s) as [Hteam Huser]
    by (subst s1; by case_decide).
  destruct (IH s1) as (s' & tr & Hloop & Hteam' & Huser' & Hout & Hnone & Hsome & Htrace
                       & Hstates).
  rewrite Hloop. clear Hloop.
  exists s', (tr0 ++ tr)%list. simpl.
  assert (disconnections (tr0 ++ tr) = (disconnections tr0 + disconnections tr)%nat) as ->
    by (unfold disconnections; by rewrite omap_app, length_app).
  split_and!; [done|congruence|congruence|..].
  4: { rewrite Hstep. simpl. by rewrite Htrace. }
  4: { unfold states_sent in *. rewrite omap_app. apply Forall_cons_2.
       - intros Hevt. apply elem_of_app. left. rewrite (Hstate0 Hevt).
         by apply elem_of_cons; left.
       - eapply Forall_impl; [exact Hstates|]. simpl. intros e He Hfail.
         apply elem_of_app. right. apply He. by apply (identity_failure_same s s1). }
  - intros Hs. destruct Hout as [Hs' ->].
    { subst s1. case_decide; [apply invalidated_logged_out|done]. }
    split; [done|]. rewrite Hdisc0. case_decide; [|done].
    destruct Hs as (_ & -> & _). done.
  - intros [Hevt Hrest]%Forall_cons. subst s1. rewrite decide_False in * by done.
    destruct (Hnone Hrest) as [-> ->]. by rewrite Hstep.
  - intros Hex. rewrite Hdisc0. subst s1. case_decide as Hevt.
    + destruct Hout as [Hs' ->]; [apply invalidated_logged_out|].
      split; [done|lia].
    + apply Exists_cons in Hex as [?|Hex]; [done|].
      destruct (Hsome Hex) as [Hs' ->]. done.
Qed.

Lemma handled_after_failure (before : list SlackEvent) (s : SlackClient)
    (rawEvt : SlackEvent) (after : list SlackEvent) :
  Forall (λ e, ¬ identity_failure s e) before →
  identity_failure s rawEvt →
  handled s (before ++ rawEvt :: after)
  = (handled s before ++ trace (HandleSlackEvent rawEvt s)
     ++ handled (invalidated s) after)%list.
Proof.
  intros Hbefore Hfailure.
  induction before as [|evt before IH]; simpl.
  - destruct (HandleSlackEvent_step s rawEvt) as (tr & -> & _).
    simpl. by rewrite decide_True.
  - apply Forall_cons in Hbefore as [Hevt Hbefore].
    destruct (HandleSlackEvent_step s evt) as (tr & -> & _).
    simpl. rewrite decide_False by done. by rewrite IH, <- app_assoc.
Qed.

(** X9. The loop over the stream of events. On a session without RTM
    client it panics before the first event. Otherwise it handles every
    event and returns when the stream ends, whatever the events are: what
    the loop does is what handling each event does in the session that the
    events before it have left, in the order of the stream. When no event is
    an identity failure, the session is left as it is. When one is, the
    loop is not left: the events after the first failure are handled as
    well, in the session that is invalidated, every identity failure of the
    stream has its status sent, and at the end the session has no client and
    no RTM client, its two tokens are blank, and the RTM connection has been
    closed exactly once, however many failures the stream reports. The
    methods of the session that are parameters of the development are taken
    to return, also on the invalidated session. *)
Theorem consumeEvents_stream (s : SlackClient) (incoming : list SlackEvent) :
  let r := consumeEvents incoming s in
  match RTM s with
  | None => r = mkRun s [] (Panicked nil_dereference)
  | Some _ =>
      outcome r = Returned tt
      ∧ (Forall (λ e, ¬ identity_failure s e) incoming →
         final r = s
         ∧ trace r = mjoin ((λ e, trace (HandleSlackEvent e s)) <$> incoming))
      ∧ (Exists (identity_failure s) incoming →
         logged_out (final r)
         ∧ IsLoggedIn (final r) = false
         ∧ disconnections (trace r) = 1%nat)
      ∧ trace r = handled s incoming
      ∧ (∀ before rawEvt after,
           incoming = (before ++ rawEvt :: after)%list →
           Forall (λ e, ¬ identity_failure s e) before →
           identity_failure s rawEvt →
           trace r
           = (handled s before ++ trace (HandleSlackEvent rawEvt s)
              ++ handled (invalidated s) after)%list)
      ∧ Forall (λ e, identity_failure s e → failure_state e ∈ states_sent (trace r))
          incoming
  end.
Proof.
  unfold consumeEvents. run.
  destruct (RTM s) as [rtm|] eqn:Hrtm; run; [|done].
  destruct (forM_HandleSlackEvent_run incoming s)
    as (s' & tr & -> & _ & _ & _ & Hnone & Hsome & Htrace & Hstates).
  simpl. split_and!; [done|done| |done| |done].
  - intros Hex. destruct (Hsome Hex) as [Hout Hdisc]. rewrite Hrtm in Hdisc.
    split_and!; [done| |done].
    unfold IsLoggedIn. by destruct Hout as (-> & _).
  - intros before rawEvt after -> Hbefore Hfailure. rewrite Htrace.
    by apply handled_after_failure.
Qed.

(** *** The pages of the conversation list *)

Lemma fetchConversations_pages (fuel : nat) :
  ∀ (totalLimit : Z) (cursor : string) (m : gmap string Channel) (s : SlackClient),
    let r := fetchConversations fuel totalLimit cursor m s in
    let requests := conversations_requested (trace r) in
    Forall (λ request, 1 ≤ request.1 ≤ 200 ∧ request.1 ≤ totalLimit) requests
    ∧ (length requests ≤ Z.to_nat totalLimit)%nat
    ∧ (Client s = None → requests = [])
    ∧ (∀ api, Client s = Some api →
         chained api cursor requests
         ∧ ∀ request, request ∈ requests →
             is_Some (api_GetConversationsForUser api request.1 request.2).2 →
             outcome r = Returned None).
Proof.
  induction fuel as [|fuel IH]; intros totalLimit cursor m s; simpl.
  - case_bool_decide; run; (split_and!; [done|simpl; lia|done|]);
      intros api _; (split; [done|]); by intros ? ?%elem_of_nil.
  - case_bool_decide; run.
    2: { split_and!; [done|simpl; lia|done|].
         intros api _. split; [done|]. by intros ? ?%elem_of_nil. }
    destruct (Client s) as [api|] eqn:Hclient; run.
    2: { split_and!; [done|simpl; lia|done|done]. }
    assert (1 ≤ (if bool_decide (totalLimit > 200) then 100 else totalLimit) ≤ 200
            ∧ (if bool_decide (totalLimit > 200) then 100 else totalLimit) ≤ totalLimit)
      as Hlimit by (case_bool_decide; lia).
    set (reqLimit := if bool_decide (totalLimit > 200) then 100 else totalLimit) in *.
    destruct (api_GetConversationsForUser api reqLimit cursor)
      as [[chunk nextCursor] [e|]] eqn:Hanswer; run_all.
    { split_and!; [by apply Forall_cons_2|lia|done|].
      intros ? [= <-]. split; [simpl; by rewrite ?Hanswer|]. done. }
    destruct (String.eqb nextCursor "") eqn:Hnext; run_all.
    { split_and!; [by apply Forall_cons_2|lia|done|].
      intros ? [= <-]. split; [simpl; by rewrite ?Hanswer|].
      intros request ->%list_elem_of_singleton. simpl. rewrite Hanswer. by intros [? [=]]. }
    case_bool_decide as Hlen; run_all.
    { split_and!; [by apply Forall_cons_2|lia|done|].
      intros ? [= <-]. split; [simpl; by rewrite ?Hanswer|].
      intros request ->%list_elem_of_singleton. simpl. rewrite Hanswer. by intros [? [=]]. }
    destruct (IH (totalLimit - Z.of_nat (length chunk)) nextCursor (addChunk m chunk) s)
      as (Hall & Hcount & _ & Hchain).
    destruct (Hchain api Hclient) as [Hcursors Hfailed].
    split_and!.
    + apply Forall_cons_2; [done|].
      eapply Forall_impl; [exact Hall|]. simpl. intros request. lia.
    + simpl. lia.
    + done.
    + intros ? [= <-]. split; [simpl; by rewrite ?Hanswer|].
      intros request [->|Hrequest]%elem_of_cons.
      * simpl. rewrite Hanswer. by intros [? [=]].
      * apply Hfailed, Hrequest.
Qed.

(** The page requests of [SyncChannels] are those of its first part. *)
Lemma SyncChannels_requests (s : SlackClient) :
  conversations_requested (trace (SyncChannels s))
  = conversations_requested (trace (fetchServerInfo s)).
Proof.
  destruct (fetchServerInfo_run s) as (Hfinal & _).
  unfold SyncChannels. run. rewrite bind_run.
  destruct (outcome (fetchServerInfo s)) as [[m1|]|reason]; run;
    rewrite ?app_nil_r; try done.
  destruct (syncPortals_run m1 (final (fetchServerInfo s))) as (_ & _ & Hrequests & _).
  unfold conversations_requested in *. by rewrite omap_app, Hrequests, app_nil_r.
Qed.

Lemma fetchServerInfo_requests (s : SlackClient) :
  let totalLimit := Backfill_ConversationCount (Main_Config s) in
  fetchServerInfo s
  = if String.prefix "xoxs" (string_at (Metadata_Extra (Login s)) "token")
    then mkRun s [] (Returned (Some ∅))
    else prefixed [Log DebugLevel "Fetching conversation list for sync"]
           (fetchConversations (Z.to_nat totalLimit) totalLimit "" ∅ s).
Proof. unfold fetchServerInfo. run. by destruct (String.prefix "xoxs" _); run. Qed.

(** X10. The pages of the conversation list that [SyncChannels] asks
    for: every request asks for at least one and at most 200 conversations
    and for no more than the configured count, there are at most as many
    requests as the count (none when it is not positive), the first request
    has the empty cursor, and every later one has the cursor that the remote
    service answered to the request before it. *)
Theorem conversation_pages (s : SlackClient) :
  let requests := conversations_requested (trace (SyncChannels s)) in
  let count := Backfill_ConversationCount (Main_Config s) in
  Forall (λ request, 1 ≤ request.1 ≤ 200 ∧ request.1 ≤ count) requests
  ∧ (length requests ≤ Z.to_nat count)%nat
  ∧ (∀ api, Client s = Some api → chained api "" requests).
Proof.
  simpl. rewrite SyncChannels_requests, fetchServerInfo_requests.
  destruct (String.prefix "xoxs" _).
  { simpl. split_and!; [done|lia|done]. }
  set (count := Backfill_ConversationCount (Main_Config s)).
  destruct (fetchConversations_pages (Z.to_nat count) count "" ∅ s)
    as (Hall & Hcount & _ & Hchain).
  rewrite trace_prefixed. simpl. split_and!; [done|done|].
  intros api Hclient. by apply Hchain.
Qed.

(** X11. A listing that fails stops the synchronisation. When the remote
    service answers a page request with an error, [SyncChannels] returns
    without asking for the local portals, and when the directory fails to
    list the portals of the login, it stops there; in both cases no metadata
    is fetched again, no portal is asked for and no room is created, and the
    session is left as it is. *)
Theorem failed_listing_stops_the_synchronisation (s : SlackClient) :
  let r := SyncChannels s in
  let stopped :=
    final r = s
    ∧ refreshed (trace r) = []
    ∧ portals_requested (trace r) = []
    ∧ rooms_created (trace r) = [] in
  (∀ api request,
     Client s = Some api →
     request ∈ conversations_requested (trace r) →
     is_Some (api_GetConversationsForUser api request.1 request.2).2 →
     stopped ∧ outcome r = Returned tt ∧ GetAllForLogin ∉ trace r)
  ∧ (is_Some (br_GetAllForLogin (UserLogin_Bridge (Login s))).2 → stopped).
Proof.
  simpl.
  destruct (fetchServerInfo_run s)
    as (Hfinal & Hportals & Hrooms & Hrefreshed & Hlist & _).
  split.
  - intros api request Hclient Hrequest Herror.
    rewrite SyncChannels_requests in Hrequest.
    assert (outcome (fetchServerInfo s) = Returned None) as Hout.
    { rewrite fetchServerInfo_requests in Hrequest |- *.
      destruct (String.prefix "xoxs" _); [by apply elem_of_nil in Hrequest|].
      set (count := Backfill_ConversationCount (Main_Config s)) in *.
      destruct (fetchConversations_pages (Z.to_nat count) count "" ∅ s)
        as (_ & _ & _ & Hchain).
      destruct (Hchain api Hclient) as [_ Hfailed].
      rewrite outcome_prefixed. by apply (Hfailed request). }
    unfold SyncChannels. run. rewrite bind_run, Hout. run.
    rewrite app_nil_r. by split_and!.
  - intros [e Herror].
    unfold SyncChannels. run. rewrite bind_run.
    destruct (outcome (fetchServerInfo s)) as [[m1|]|reason]; run;
      rewrite ?app_nil_r; try done.
    rewrite Hfinal. unfold syncPortals. run.
    destruct (br_GetAllForLogin (UserLogin_Bridge (Login s))) as [userPortals err].
    simpl in Herror. subst err. run.
    unfold refreshed, portals_requested, rooms_created in *.
    rewrite !omap_app, Hportals, Hrooms, Hrefreshed. done.
Qed.

(** X12. The synchronisation needs a client: on a session without
    client whose token is not a legacy token and whose configured count is
    positive, [SyncChannels] panics at the first page request, which is not
    made; it has done nothing but log that it fetches the list. *)
Theorem synchronisation_needs_a_client (s : SlackClient) :
  Client s = None →
  String.prefix "xoxs" (string_at (Metadata_Extra (Login s)) "token") = false →
  Backfill_ConversationCount (Main_Config s) > 0 →
  SyncChannels s
  = mkRun s [Log DebugLevel "Fetching conversation list for sync"]
      (Panicked nil_dereference).
Proof.
  intros Hclient Htoken Hcount.
  unfold SyncChannels. run. rewrite bind_run, fetchServerInfo_requests, Htoken.
  destruct (Z.to_nat (Backfill_ConversationCount (Main_Config s))) as [|fuel] eqn:Hfuel;
    [lia|].
  simpl. rewrite bool_decide_true by done. run. rewrite Hclient. by run.
Qed.

(** *** What the reconciliation does when it is answered *)

Lemma fetchConversations_requests (fuel : nat) :
  ∀ (totalLimit : Z) (cursor : string) (m : gmap string Channel) (s : SlackClient)
    (api : SlackAPI),
    Client s = Some api →
    let r := fetchConversations fuel totalLimit cursor m s in
    conversations_requested (trace r) = pageRequests api fuel totalLimit cursor
    ∧ (Forall (λ request, (api_GetConversationsForUser api request.1 request.2).2 = None)
         (pageRequests api fuel totalLimit cursor) →
       (Z.to_nat totalLimit ≤ fuel)%nat →
       ∃ m', outcome r = Returned (Some m')).
Proof.
  induction fuel as [|fuel IH]; intros totalLimit cursor m s api Hclient; simpl.
  - case_bool_decide; run; (split; [done|]); [lia|by eexists].
  - case_bool_decide; run; [|split; [done|by eexists]].
    rewrite Hclient. run.
    set (reqLimit := if bool_decide (totalLimit > 200) then 100 else totalLimit).
    destruct (api_GetConversationsForUser api reqLimit cursor)
      as [[chunk nextCursor] [e|]] eqn:Hanswer; run_all.
    { split; [done|]. intros [Hfirst _]%Forall_cons. simpl in Hfirst.
      by rewrite Hanswer in Hfirst. }
    destruct (String.eqb nextCursor "") eqn:Hnext; run_all.
    { split; [done|]. by eexists. }
    case_bool_decide as Hlen; run_all.
    { split; [done|]. by eexists. }
    destruct (IH (totalLimit - Z.of_nat (length chunk)) nextCursor (addChunk m chunk) s api
                Hclient) as [Hrequests Hreturned].
    split; [by rewrite Hrequests|].
    intros [_ Hrest]%Forall_cons Hfuel. apply Hreturned; [done|lia].
Qed.

Lemma fetchServerInfo_listing (s : SlackClient) :
  conversations_requested (trace (fetchServerInfo s)) = listing s
  ∧ (answered s → ∃ m', outcome (fetchServerInfo s) = Returned (Some m')).
Proof.
  rewrite fetchServerInfo_requests. unfold answered, listing.
  destruct (String.prefix "xoxs" _); [split; [done|by eexists]|].
  rewrite trace_prefixed, outcome_prefixed. simpl.
  set (count := Backfill_ConversationCount (Main_Config s)).
  destruct (Client s) as [api|] eqn:Hclient.
  - destruct (fetchConversations_requests (Z.to_nat count) count "" ∅ s api Hclient)
      as [Hrequests Hreturned].
    split; [done|]. intros (Hpages & _). by apply Hreturned.
  - split.
    + destruct (fetchConversations_pages (Z.to_nat count) count "" ∅ s)
        as (_ & _ & Hnone & _). by apply Hnone.
    + intros ([[=]|Hcount] & _).
      destruct (Z.to_nat count) as [|fuel] eqn:Hfuel; simpl;
        rewrite bool_decide_false by lia; run; by eexists.
Qed.

Lemma refreshAll_answered (userPortals : list UserPortal) :
  ∀ (m : gmap string Channel) (s : SlackClient),
    let br := UserLogin_Bridge (Login s) in
    Forall (λ userPortal,
              (slackid.ParsePortalID (PortalKey_ID (UserPortal_Portal userPortal))).2 ≠ "" →
              br_GetExistingPortalByID br (UserPortal_Portal userPortal) ≠ (None, None))
           userPortals →
    ∃ tr,
      foldlM refreshExisting m userPortals s
      = mkRun s tr (Returned (foldl (removeExisting br) m userPortals))
      ∧ refreshed tr = (omap (existingRoom br) userPortals).*2
      ∧ infos_updated tr = omap (updated s) (refreshed tr).
Proof.
  induction userPortals as [|userPortal userPortals IH]; intros m s.
  { simpl. intros _. run. by eexists. }
  intros br [Hhere Hrest]%Forall_cons. subst br.
  assert (∃ tr0,
            refreshExisting m userPortal s
            = mkRun s tr0 (Returned (removeExisting (UserLogin_Bridge (Login s)) m userPortal))
            ∧ refreshed tr0
              = (from_option (λ room, [room.2]) []
                   (existingRoom (UserLogin_Bridge (Login s)) userPortal))
            ∧ infos_updated tr0 = omap (updated s) (refreshed tr0)) as (tr0 & Hrun & Hrefreshed & Hupdated).
  { unfold refreshExisting, removeExisting, existingRoom, updated in *.
    destruct (slackid.ParsePortalID (PortalKey_ID (UserPortal_Portal userPortal)))
      as [teamID channelID]; simpl in *.
    destruct (String.eqb_spec channelID ""); run; [by eexists|].
    destruct (br_GetExistingPortalByID _ _) as [[portal|] [e|]]; run_all;
      [by eexists| |by eexists|by destruct Hhere].
    destruct (String.eqb (MXID portal) ""); run_all; [by eexists|].
    destruct (getChatInfo s portal) as [info [e|]] eqn:Hinfo; run_all;
      eexists; (split; [done|]); simpl; by rewrite Hinfo. }
  destruct (IH (removeExisting (UserLogin_Bridge (Login s)) m userPortal) s Hrest)
    as (tr & Hrest_run & Hrest_refreshed & Hrest_updated).
  change (foldlM refreshExisting m (userPortal :: userPortals) s)
    with (bind (refreshExisting m userPortal)
            (λ m', foldlM refreshExisting m' userPortals) s).
  rewrite bind_run, Hrun. simpl. rewrite Hrest_run. unfold prefixed. simpl.
  eexists. split; [done|].
  unfold refreshed, infos_updated in *. rewrite !omap_app, Hrefreshed, Hrest_refreshed.
  rewrite Hupdated, Hrest_updated, Hrefreshed, Hrest_refreshed.
  destruct (existingRoom (UserLogin_Bridge (Login s)) userPortal) as [[channelID portal]|];
    simpl; split; try done.
Qed.

Lemma createRooms_answered (channels : list Channel) (s : SlackClient) :
  ∃ tr,
    forM_ createRoom channels s = mkRun s tr (Returned tt)
    ∧ portals_requested tr = makePortalKey s <$> channels
    ∧ rooms_created tr = omap (created s) channels
    ∧ refreshed tr = []
    ∧ infos_updated tr = [].
Proof.
  induction channels as [|ch channels (tr & Hrun & Hportals & Hrooms & Hrefreshed & Hupdated)].
  { simpl. run. by eexists. }
  change (forM_ createRoom (ch :: channels) s)
    with (bind (createRoom ch) (λ _, forM_ createRoom channels) s).
  assert (∃ tr0,
            createRoom ch s = mkRun s tr0 (Returned tt)
            ∧ portals_requested tr0 = [makePortalKey s ch]
            ∧ rooms_created tr0 = from_option (λ portal, [portal]) [] (created s ch)
            ∧ refreshed tr0 = []
            ∧ infos_updated tr0 = []) as (tr0 & Hrun0 & Hportals0 & Hrooms0 & Hrefreshed0 & Hupdated0).
  { unfold createRoom, created. run.
    destruct (br_GetPortalByID _ _) as [portal [e|]]; run_all; [by eexists|].
    destruct (br_CreateMatrixRoom _ portal) as [e|]; run_all; by eexists. }
  rewrite bind_run, Hrun0. simpl. rewrite Hrun. unfold prefixed. simpl.
  eexists. split; [done|].
  unfold portals_requested, rooms_created, refreshed, infos_updated in *.
  rewrite !omap_app, Hportals0, Hportals, Hrooms0, Hrooms, Hrefreshed0, Hrefreshed,
    Hupdated0, Hupdated.
  by destruct (created s ch).
Qed.

Lemma fetchServerInfo_quiet (s : SlackClient) :
  infos_updated (trace (fetchServerInfo s)) = []
  ∧ (GetAllForLogin ∉ trace (fetchServerInfo s)).
Proof.
  destruct (fetchServerInfo_run s) as (_ & _ & _ & _ & Hlist & _). split; [|done].
  rewrite fetchServerInfo_requests.
  destruct (String.prefix "xoxs" _); [done|].
  rewrite trace_prefixed. simpl.
  generalize (Z.to_nat (Backfill_ConversationCount (Main_Config s))) as fuel.
  generalize (Backfill_ConversationCount (Main_Config s)) as totalLimit.
  generalize (@empty (gmap string Channel) _) as m. generalize "" as cursor.
  intros cursor m totalLimit fuel. revert cursor m totalLimit.
  induction fuel as [|fuel IH]; intros cursor m totalLimit; simpl.
  - by case_bool_decide; run.
  - case_bool_decide; run; [|done].
    destruct (Client s) as [api|]; run; [|done].
    destruct (api_GetConversationsForUser api _ cursor) as [[chunk nextCursor] [e|]];
      run_all; [done|].
    destruct (String.eqb nextCursor "" || bool_decide (length chunk = 0%nat)); run_all;
      [done|].
    apply IH.
Qed.

(** What [SyncChannels] does when it is answered. *)
Lemma SyncChannels_answered (s : SlackClient) :
  let r := SyncChannels s in
  let br := UserLogin_Bridge (Login s) in
  let userPortals := (br_GetAllForLogin br).1 in
  let unmatched :=
    foldl (removeExisting br) (addChunk ∅ (fetched s (trace r))) userPortals in
  answered s →
  reconciled s r
  ∧ refreshed (trace r) = (omap (existingRoom br) userPortals).*2
  ∧ infos_updated (trace r) = omap (updated s) (refreshed (trace r))
  ∧ portals_requested (trace r) = makePortalKey s <$> remainingChannels unmatched
  ∧ rooms_created (trace r) = omap (created s) (remainingChannels unmatched).
Proof.
  simpl. intros Hanswered.
  destruct (fetchServerInfo_listing s) as [_ Hreturned].
  destruct (Hreturned Hanswered) as [m1 Hout].
  destruct Hanswered as (_ & Hlisted & Hportals).
  destruct (fetchServerInfo_run s)
    as (Hfinal & Hportals1 & Hrooms1 & Hrefreshed1 & Hlist1 & _ & Hmap & _).
  destruct (fetchServerInfo_quiet s) as [Hupdated1 _].
  specialize (Hmap m1 Hout). subst m1.
  set (candidates := addChunk ∅ (fetched s (trace (fetchServerInfo s)))) in *.
  assert (∃ tr,
            syncPortals candidates s = mkRun s tr (Returned tt)
            ∧ GetAllForLogin ∈ tr
            ∧ conversations_requested tr = []
            ∧ refreshed tr
              = (omap (existingRoom (UserLogin_Bridge (Login s)))
                   (br_GetAllForLogin (UserLogin_Bridge (Login s))).1).*2
            ∧ infos_updated tr = omap (updated s) (refreshed tr)
            ∧ portals_requested tr
              = makePortalKey s
                <$> remainingChannels
                      (foldl (removeExisting (UserLogin_Bridge (Login s))) candidates
                         (br_GetAllForLogin (UserLogin_Bridge (Login s))).1)
            ∧ rooms_created tr
              = omap (created s)
                  (remainingChannels
                     (foldl (removeExisting (UserLogin_Bridge (Login s))) candidates
                        (br_GetAllForLogin (UserLogin_Bridge (Login s))).1)))
    as (tr & Hsync & Hlisting & Hconv & Hrefreshed & Hupdated & Hrequested & Hcreated).
  { destruct (syncPortals_run candidates s) as (_ & _ & Hconv & _).
    unfold syncPortals in *. revert Hconv. run.
    destruct (br_GetAllForLogin (UserLogin_Bridge (Login s))) as [userPortals err].
    simpl in Hlisted, Hportals |- *. subst err. run.
    destruct (refreshAll_answered userPortals candidates s Hportals)
      as (tr1 & Hrun1 & Hrefreshed & Hupdated).
    destruct (refreshAll_run userPortals candidates s)
      as (_ & _ & _ & Hportals' & Hrooms' & _).
    rewrite Hrun1 in Hportals', Hrooms'. simpl in Hportals', Hrooms'.
    destruct (createRooms_answered
                (remainingChannels
                   (foldl (removeExisting (UserLogin_Bridge (Login s))) candidates
                      userPortals)) s)
      as (tr2 & Hrun2 & Hrequested & Hcreated & Hrefreshed2 & Hupdated2).
    rewrite bind_run, Hrun1. simpl. rewrite Hrun2. unfold prefixed. simpl.
    intros Hconv. eexists. split; [done|].
    unfold refreshed, infos_updated, portals_requested, rooms_created in *.
    simpl. rewrite !omap_app.
    rewrite Hrefreshed2, Hupdated2, Hportals', Hrooms', Hrequested, Hcreated, !app_nil_r.
    split_and!; try done. by apply elem_of_cons; left. }
  assert (fetched s (trace (fetchServerInfo s) ++ tr) = fetched s (trace (fetchServerInfo s)))
    as Hfetched.
  { unfold fetched, conversations_requested in *. by rewrite omap_app, Hconv, app_nil_r. }
  unfold SyncChannels. run. rewrite bind_run, Hout. run. rewrite Hfinal, Hsync.
  unfold prefixed. simpl. rewrite Hfetched.
  unfold reconciled, refreshed, infos_updated, portals_requested, rooms_created in *.
  simpl. rewrite !omap_app.
  rewrite Hportals1, Hrooms1, Hrefreshed1, Hupdated1. simpl.
  split_and!; try done.
  apply elem_of_app. by right.
Qed.

Lemma SyncChannels_listing (s : SlackClient) :
  conversations_requested (trace (SyncChannels s)) = listing s
  ∧ fetched s (trace (SyncChannels s)) = listed s.
Proof.
  destruct (fetchServerInfo_listing s) as [Hlisting _].
  assert (conversations_requested (trace (SyncChannels s)) = listing s) as Hrequests
    by (by rewrite SyncChannels_requests).
  split; [done|]. unfold fetched, listed. by rewrite Hrequests.
Qed.

(** C4. The reconciliation of the channels. The pages [SyncChannels]
    asks for are the pages of the conversation list of the remote service,
    so that the conversations fetched are the ones the remote service lists.
    The channels [remaining] that it asks the portals of, one after the
    other, are in ascending order of [LastRead], each channel id once; every
    one of them was listed, is not a direct-message conversation without a
    visible latest message, and is not the channel of a room that is already
    materialized; a room is created only on a portal answered for one of
    them, and metadata is fetched again only for materialized rooms of the
    login. When the collaborators answer what they are asked, the run gets
    through and does all of it: the metadata of exactly the materialized
    rooms of the login is fetched again, in the order of the portals, and
    written for each room whose fetch succeeds; [remaining] is exactly what
    is left of the listed conversations once the skipped direct messages and
    the channels of the materialized rooms are taken out, sorted; and a room
    is created for each of them whose portal is answered, in this order.
    The loop over the pages always ends within its bound. *)
Theorem channels_reconciled (s : SlackClient) :
  let r := SyncChannels s in
  let br := UserLogin_Bridge (Login s) in
  let userPortals := (br_GetAllForLogin br).1 in
  let unmatched := foldl (removeExisting br) (addChunk ∅ (listed s)) userPortals in
  outcome r ≠ Panicked out_of_fuel
  ∧ conversations_requested (trace r) = listing s
  ∧ fetched s (trace r) = listed s
  ∧ (∃ remaining : list Channel,
       portals_requested (trace r) = makePortalKey s <$> remaining
       ∧ StronglySorted byLastRead remaining
       ∧ NoDup (Channel_ID <$> remaining)
       ∧ (∀ portal, portal ∈ rooms_created (trace r) →
            ∃ ch, ch ∈ remaining ∧ br_GetPortalByID br (makePortalKey s ch) = (portal, None))
       ∧ (∀ ch, ch ∈ remaining →
            ch ∈ listed s
            ∧ notOpenDM ch = false
            ∧ ∀ userPortal portal,
                userPortal ∈ userPortals →
                existingRoom br userPortal ≠ Some (Channel_ID ch, portal))
       ∧ (∀ portal, portal ∈ refreshed (trace r) →
            ∃ userPortal channelID,
              userPortal ∈ userPortals
              ∧ existingRoom br userPortal = Some (channelID, portal))
       ∧ (reconciled s r →
          (∀ userPortal channelID portal,
             userPortal ∈ userPortals →
             existingRoom br userPortal = Some (channelID, portal) →
             portal ∈ refreshed (trace r))
          ∧ (∀ ch, ch ∈ listed s → notOpenDM ch = false →
               (∀ userPortal portal,
                  userPortal ∈ userPortals →
                  existingRoom br userPortal ≠ Some (Channel_ID ch, portal)) →
               ∃ ch', ch' ∈ remaining ∧ Channel_ID ch' = Channel_ID ch))
       ∧ (answered s → remaining = remainingChannels unmatched))
  ∧ (answered s →
     reconciled s r
     ∧ refreshed (trace r) = (omap (existingRoom br) userPortals).*2
     ∧ infos_updated (trace r) = omap (updated s) (refreshed (trace r))
     ∧ portals_requested (trace r) = makePortalKey s <$> remainingChannels unmatched
     ∧ rooms_created (trace r) = omap (created s) (remainingChannels unmatched)).
Proof.
  simpl.
  destruct (SyncChannels_listing s) as [Hlisting Hlisted].
  destruct (SyncChannels_bounds s)
    as (Hfuel & remaining & Hrequested & Hsorted & Hnodup & Hcreated & Hleft & Hrefreshed
        & Hthrough).
  pose proof (SyncChannels_answered s) as Hanswered. simpl in Hanswered.
  rewrite Hlisted in Hleft, Hthrough, Hanswered.
  split_and!; [done|done|done| |done].
  exists remaining. split_and!; [done|done|done|done|done|done| |].
  - intros Hreconciled. by destruct (Hthrough Hreconciled) as (_ & ? & ?).
  - intros Hall. destruct (Hanswered Hall) as (Hreconciled & _).
    by destruct (Hthrough Hreconciled) as (? & _).
Qed.

(** *** Requests of the bridge on a session with a client *)

Lemma sendToSlack_run (s : SlackClient) (api : SlackAPI) (channelID : string)
    (conv : ConvertedSlackMessage) (msg : option MatrixMessage) :
  Client s = Some api →
  ∃ timestamp err tr,
    sendToSlack channelID conv msg s = mkRun s tr (Returned (timestamp, err))
    ∧ (length (remote_calls tr) ≤ 1)%nat
    ∧ (msg = None → ∀ txnID, AddPendingToSave txnID ∉ tr)
    ∧ (is_Some err → ∀ txnID, AddPendingToSave txnID ∉ tr).
Proof.
  intros Hclient. unfold sendToSlack.
  destruct (SendReq conv) as [sendReq|], (FileUpload conv) as [fileUpload|],
    (FileShare conv) as [fileShare|]; run; rewrite ?Hclient; run.
  1-4: destruct (api_PostMessage api channelID sendReq) as [[? timestamp] err]; run_all;
       eexists _, _, _; (split; [done|]); (split_and!; [simpl; lia|..]);
       intros _ txnID; not_in_trace.
  1-2: destruct (api_UploadFileV2 api fileUpload) as [file [e|]]; run_all;
       [ eexists _, _, _; (split; [done|]); (split_and!; [simpl; lia|..]);
         intros _ txnID; not_in_trace | ];
       destruct (negb _); run_all;
       [ eexists _, _, _; (split; [done|]); (split_and!; [simpl; lia|..]);
         intros _ txnID; not_in_trace | ];
       destruct msg as [msg|]; run_all;
       eexists _, _, _; (split; [done|]); (split_and!; [simpl; lia|..]);
       first [by intros [=]|by intros [? [=]]|intros _ txnID; not_in_trace].
  - destruct (api_ShareFile api fileShare) as [resp [e|]]; run_all;
      eexists _, _, _; (split; [done|]); (split_and!; [simpl; lia|..]);
      intros _ txnID; not_in_trace.
  - eexists _, _, _. split; [done|]. (split_and!; [simpl; lia|..]); intros _ txnID; not_in_trace.
Qed.

(** X13. [HandleMatrixMessage] always returns, with the session as it
    was and after at most one request to the remote service, and it answers
    either a response or an error, never both and never neither. A response
    is pending exactly when it has no message for the database; a message for
    the database is the message of a timestamp that is not empty in the
    channel of the portal, sent by the session's own user. *)
Theorem message_response_or_error (s : SlackClient) (msg : MatrixMessage) :
  let r := HandleMatrixMessage msg s in
  ∃ resp err,
    outcome r = Returned (resp, err)
    ∧ final r = s
    ∧ (length (remote_calls (trace r)) ≤ 1)%nat
    ∧ (is_Some resp ↔ err = None)
    ∧ ∀ response, resp = Some response →
        (Pending response = true ↔ DB response = None)
        ∧ ∀ db, DB response = Some db →
            ∃ timestamp,
              timestamp ≠ ""
              ∧ db = mkDBMessage
                       (slackid.MakeMessageID (TeamID s) (channelOf (Message_Portal msg))
                          timestamp)
                       (slackid.MakeUserID (TeamID s) (UserID s))
                       (ParseSlackTimestamp timestamp).
Proof.
  assert (∀ e : error, is_Some (@None MatrixMessageResponse) ↔ Some e = None) as Herror
    by (intros e; split; [by intros [? [=]]|done]).
  simpl. unfold HandleMatrixMessage. run.
  destruct (Client s) as [api|] eqn:Hclient; run.
  2: { eexists _, _. split_and!; [done|done|simpl; lia|apply Herror|done]. }
  destruct (String.eqb (channelOf (Message_Portal msg)) ""); run.
  { eexists _, _. split_and!; [done|done|simpl; lia|apply Herror|done]. }
  destruct (ToSlack _ _ _ _ _ _ _) as [conv [e|]]; run.
  { eexists _, _. split_and!; [done|done|simpl; lia|apply Herror|done]. }
  destruct (sendToSlack_run s api (channelOf (Message_Portal msg)) conv (Some msg) Hclient)
    as (timestamp & err & tr & Hsend & Hcalls & _).
  rewrite bind_run, Hsend. run_all.
  destruct err as [e|]; run_all.
  { rewrite app_nil_r. eexists _, _. split_and!; [done|done|done|apply Herror|done]. }
  destruct (String.eqb_spec timestamp ""); run_all; rewrite app_nil_r.
  - eexists _, _. split_and!; [done|done|done|done|]. by intros ? [= <-].
  - eexists _, _. split_and!; [done|done|done|done|].
    intros ? [= <-]. simpl. split; [done|]. intros db [= <-]. by exists timestamp.
Qed.

(** X14. An edit is not a message: [HandleMatrixEdit] always returns an
    answer, after at most one request to the remote service and with the
    session as it was, and it never notes an upload as pending, whatever the
    remote service answers. A portal without channel gives the error
    "invalid channel ID", and an error of the converter is returned as it
    is; in both cases, and on a session without client, nothing is asked of
    the remote service. *)
Theorem edit_never_pending (s : SlackClient) (msg : MatrixEdit) :
  let r := HandleMatrixEdit msg s in
  let converted :=
    ToSlack s (Edit_Portal msg) (Edit_Content msg) None (Some (EditTarget msg))
      (Edit_OrigSender msg) (IsRealUser s) in
  ∃ err,
    outcome r = Returned err
    ∧ final r = s
    ∧ (length (remote_calls (trace r)) ≤ 1)%nat
    ∧ (∀ txnID, AddPendingToSave txnID ∉ trace r)
    ∧ (Client s = None → err = Some ErrNotLoggedIn ∧ trace r = [])
    ∧ (Client s ≠ None → channelOf (Edit_Portal msg) = "" →
       err = Some (errors_New "invalid channel ID") ∧ trace r = [])
    ∧ (Client s ≠ None → channelOf (Edit_Portal msg) ≠ "" → is_Some converted.2 →
       err = converted.2 ∧ trace r = []).
Proof.
  simpl. unfold HandleMatrixEdit. run.
  destruct (Client s) as [api|] eqn:Hclient; run.
  2: { eexists. split_and!; [done|done|simpl; lia|intros txnID; not_in_trace|done..]. }
  destruct (String.eqb_spec (channelOf (Edit_Portal msg)) "") as [Hchannel|Hchannel]; run.
  { eexists. split_and!; [done|done|simpl; lia|intros txnID; not_in_trace|done..]. }
  destruct (ToSlack _ _ _ _ _ _ _) as [conv [e|]]; run.
  { eexists. split_and!; [done|done|simpl; lia|intros txnID; not_in_trace|done..]. }
  destruct (sendToSlack_run s api (channelOf (Edit_Portal msg)) conv None Hclient)
    as (timestamp & err & tr & Hsend & Hcalls & Hpending & _).
  rewrite bind_run, Hsend. run_all. rewrite app_nil_r.
  eexists. split_and!; [done|done|done|by apply Hpending|done|done|].
  by intros _ _ [? [=]].
Qed.

(** X15. Removing a message and adding a reaction, on a session with a
    client: when the id of the target message cannot be taken apart, the
    error is "invalid message ID" and nothing is asked of the remote
    service; otherwise exactly one request is made, for the channel and the
    timestamp of the id (and, for a reaction, under the emoji id the
    pre-handler chose), and the error the remote service answers, or its
    success, is what the handler returns. No reaction is returned for the
    database. *)
Theorem target_message_requests (s : SlackClient) (api : SlackAPI) :
  Client s = Some api →
  (∀ msg,
     let '(_, channelID, messageID, ok) :=
       slackid.ParseMessageID (DBMessage_ID (Remove_TargetMessage msg)) in
     HandleMatrixMessageRemove msg s
     = if ok
       then mkRun s [DeleteMessage channelID messageID]
              (Returned (api_DeleteMessage api channelID messageID).2)
       else mkRun s [] (Returned (Some (errors_New "invalid message ID"))))
  ∧ (∀ msg,
       let '(_, channelID, messageID, ok) :=
         slackid.ParseMessageID (DBMessage_ID (Reaction_TargetMessage msg)) in
       let name := emoji_string (PreHandleResp_EmojiID msg) in
       HandleMatrixReaction msg s
       = if ok
         then mkRun s [AddReaction name channelID messageID]
                (Returned (None, api_AddReaction api name channelID messageID))
         else mkRun s [] (Returned (None, Some (errors_New "invalid message ID")))).
Proof.
  intros Hclient. split; intros msg.
  - unfold HandleMatrixMessageRemove.
    destruct (slackid.ParseMessageID _) as [[[? channelID] messageID] [|]];
      run; rewrite Hclient; run; [|done].
    rewrite Hclient. run.
    by destruct (api_DeleteMessage api channelID messageID) as [[? ?] ?].
  - unfold HandleMatrixReaction.
    destruct (slackid.ParseMessageID _) as [[[? channelID] messageID] [|]];
      run; rewrite Hclient; run; [|done].
    rewrite Hclient. by run.
Qed.

(** X16. Removing a reaction, on a session with a client: the handler
    makes exactly one request when the id of the message of the reaction can
    be taken apart, and none otherwise. It then returns success exactly when
    the remote service answers success or an error whose text is
    "reaction", and in every other case the error the remote service
    answered, unchanged. *)
Theorem reaction_removal_answer (s : SlackClient) (api : SlackAPI)
    (msg : MatrixReactionRemove) (teamID channelID messageID : string) :
  Client s = Some api →
  slackid.ParseMessageID (Reaction_MessageID (TargetReaction msg))
  = (teamID, channelID, messageID, true) →
  let name := emoji_string (Reaction_EmojiID (TargetReaction msg)) in
  let answer := api_RemoveReaction api name channelID messageID in
  let r := HandleMatrixReactionRemove msg s in
  trace r = [RemoveReaction name channelID messageID]
  ∧ final r = s
  ∧ (outcome r = Returned None
     ↔ answer = None ∨ ∃ e, answer = Some e ∧ Error_text e = "reaction")
  ∧ (outcome r ≠ Returned None → outcome r = Returned answer).
Proof.
  intros Hclient Hparse. simpl. unfold HandleMatrixReactionRemove.
  rewrite Hparse. run. rewrite Hclient. run. rewrite Hclient. run.
  destruct (api_RemoveReaction api _ channelID messageID) as [e|]; run.
  2: { split_and!; [done|done| |done]. split; [by left|done]. }
  destruct (String.eqb_spec (Error_text e) "reaction") as [Htext|Htext]; run.
  - split_and!; [done|done| |done]. split; [|done]. intros _. right. by exists e.
  - split_and!; [done|done| |done]. split; [done|].
    intros [[=]|(e' & [= <-] & He')]. done.
Qed.

(** X17. The target of a read receipt, on a session of a real user with
    a client. An exact message is taken as it is: the message store is not
    asked, also when the id of the exact message cannot be taken apart.
    Without exact message the store is asked once, for the last message of
    the portal at or before the time read up to: its error is returned as it
    is, no stored message is a success, and in both cases nothing is asked
    of the remote service; a stored message is marked as an exact message
    would be. *)
Theorem read_receipt_target (s : SlackClient) (api : SlackAPI) (msg : MatrixReadReceipt) :
  Client s = Some api →
  IsRealUser s = true →
  let lookup := GetLastPartAtOrBeforeTime (Portal_Key (Receipt_Portal msg)) (ReadUpTo msg) in
  let stored :=
    br_GetLastPartAtOrBeforeTime (UserLogin_Bridge (Login s))
      (Portal_Key (Receipt_Portal msg)) (ReadUpTo msg) in
  let r := HandleMatrixReadReceipt msg s in
  match ExactMessage msg with
  | Some exact => r = markConversation (DBMessage_ID exact) s ∧ lookup ∉ trace r
  | None =>
      match stored with
      | (_, Some e) => r = mkRun s [lookup] (Returned (Some e))
      | (None, None) => r = mkRun s [lookup] (Returned None)
      | (Some last, None) =>
          r = prefixed [lookup]
                (HandleMatrixReadReceipt
                   (mkMatrixReadReceipt (Receipt_Portal msg) (Some last) (ReadUpTo msg)) s)
      end
  end.
Proof.
  intros Hclient Hreal. simpl. unfold HandleMatrixReadReceipt.
  run. rewrite Hclient, Hreal. run.
  destruct (ExactMessage msg) as [exact|].
  - split; [done|]. unfold markConversation.
    destruct (slackid.ParseMessageID _) as [[[? channelID] messageTS] [|]];
      run; rewrite ?Hclient; run; not_in_trace.
  - run. destruct (br_GetLastPartAtOrBeforeTime _ _ _) as [[last|] [e|]]; run;
      rewrite ?Hclient, ?Hreal; by run.
Qed.

(** *** The emoji of a reaction *)

(** X18. The pre-handler of a reaction. For a key with a colon the emoji
    table is asked, and the row it answers is read before its error is
    looked at: when the table answers no row, with or without an error, the
    call panics, and the error "failed to get emoji from db" is returned only
    when the table answers a row together with the error. For a key without
    colon the emoji id is the shortcode of the key, and an empty shortcode
    is the error "unknown emoji" with the key quoted. Whenever an error is
    returned the response is empty; without error the sender is the
    session's own user in its team. *)
Theorem reaction_emoji_resolution (s : SlackClient) (key : string) :
  let r := PreHandleMatrixReaction key s in
  (if ContainsRune key ":" then
     match GetByMXC s key with
     | (None, _) => r = Panicked nil_dereference
     | (Some row, Some e) =>
         r = Returned (mkMatrixReactionPreResponse "" (mkEmojiID ""),
                       Some (Errorf_w "failed to get emoji from db" e))
     | (Some row, None) =>
         ∃ resp, r = Returned (resp, None) ∧ Pre_EmojiID resp = mkEmojiID (Emoji_EmojiID row)
     end
   else
     if String.eqb (GetShortcode key) ""
     then r = Returned (mkMatrixReactionPreResponse "" (mkEmojiID ""),
                        Some (Errorf_s "unknown emoji" (strconv_Quote key)))
     else ∃ resp, r = Returned (resp, None) ∧ Pre_EmojiID resp = mkEmojiID (GetShortcode key))
  ∧ (∀ resp err, r = Returned (resp, Some err) →
       resp = mkMatrixReactionPreResponse "" (mkEmojiID ""))
  ∧ (∀ resp, r = Returned (resp, None) →
       Pre_SenderID resp = slackid.MakeUserID (TeamID s) (UserID s)).
Proof.
  simpl. unfold PreHandleMatrixReaction.
  destruct (ContainsRune key ":").
  - destruct (GetByMXC s key) as [[row|] [e|]]; simpl;
      (split_and!; [done || by eexists|by intros ? ? [= <- <-] || done|by intros ? [= <-] || done]).
  - destruct (String.eqb (GetShortcode key) ""); simpl;
      (split_and!; [done || by eexists|by intros ? ? [= <- <-] || done|by intros ? [= <-] || done]).
Qed.

(** X19. The reaction that is added remotely is the one the pre-handler
    chose: when the pre-handler returns a response for a key and the id of
    the target message can be taken apart, [HandleMatrixReaction] with that
    response makes exactly one request, which adds, to the message of that
    channel and timestamp, the reaction named by the row of the emoji table
    for a key with a colon and by the shortcode of the key otherwise. *)
Theorem reaction_is_added_under_the_chosen_emoji (s : SlackClient) (api : SlackAPI)
    (key : string) (target : DBMessage) (resp : MatrixReactionPreResponse)
    (teamID channelID messageID : string) :
  Client s = Some api →
  PreHandleMatrixReaction key s = Returned (resp, None) →
  slackid.ParseMessageID (DBMessage_ID target) = (teamID, channelID, messageID, true) →
  let name :=
    if ContainsRune key ":"
    then default "" (Emoji_EmojiID <$> (GetByMXC s key).1)
    else GetShortcode key in
  trace (HandleMatrixReaction (mkMatrixReaction target (Pre_EmojiID resp)) s)
  = [AddReaction name channelID messageID]
  ∧ name = emoji_string (Pre_EmojiID resp).
Proof.
  intros Hclient Hpre Hparse. simpl.
  assert ((if ContainsRune key ":"
           then default "" (Emoji_EmojiID <$> (GetByMXC s key).1)
           else GetShortcode key) = emoji_string (Pre_EmojiID resp)) as ->.
  { unfold PreHandleMatrixReaction in Hpre.
    destruct (ContainsRune key ":").
    - destruct (GetByMXC s key) as [[row|] [e|]]; simpl in *; by simplify_eq.
    - destruct (String.eqb (GetShortcode key) ""); simpl in *; by simplify_eq. }
  split; [|done].
  unfold HandleMatrixReaction. simpl. rewrite Hparse. run. rewrite Hclient. run.
  rewrite Hclient. by run.
Qed.

(** *** Logging in *)

Lemma invalidateSession_states (s : SlackClient) (state : BridgeState) :
  states_sent (trace (invalidateSession state s)) = [state]
  ∧ events_queued (trace (invalidateSession state s)) = [].
Proof. by destruct (invalidateSession_run s state) as (_ & _ & _ & _ & _ & _ & _ & ? & ?). Qed.

(** X20. A login that the remote service refuses. [Connect] returns the
    error of the boot request as it is, after one status. When the text of
    the error is "invalid_auth" or "user_removed_from_team", the session is
    invalidated with the state of bad credentials, and the error code of the
    status is one that [init] has registered a message for. Every other
    error leaves the session as it is, client and tokens included, and the
    status is an unknown error with the code "slack-unknown-fetch-error" and
    the text of the error in its message. *)
Theorem refused_login (s : SlackClient) (err : error) :
  let r := Connect_failed err s in
  let credentials :=
    Error_text err = "invalid_auth" ∨ Error_text err = "user_removed_from_team" in
  outcome r = Returned (Some err)
  ∧ events_queued (trace r) = []
  ∧ (credentials →
     final r = invalidated s
     ∧ ∃ code,
         states_sent (trace r) = [mkBridgeState StateBadCredentials code ""]
         ∧ code = "slack-" +:+ ReplaceAll (Error_text err) "_" "-"
         ∧ is_Some (BridgeStateHumanErrors !! code))
  ∧ (¬ credentials →
     final r = s
     ∧ trace r = [BridgeStateSend
                    (mkBridgeState StateUnknownError "slack-unknown-fetch-error"
                       ("Unknown error from Slack: " +:+ Error_text err))]).
Proof.
  simpl. unfold Connect_failed. run.
  destruct (String.eqb_spec (Error_text err) "user_removed_from_team") as [Hremoved|Hremoved];
    [|destruct (String.eqb_spec (Error_text err) "invalid_auth") as [Hauth|Hauth]];
    simpl; rewrite ?bind_run.
  1,2: destruct (invalidateSession_eq s
                   (mkBridgeState StateBadCredentials
                      ("slack-" +:+ ReplaceAll (Error_text err) "_" "-") ""))
         as (tr & Hrun & _);
       destruct (invalidateSession_states s
                   (mkBridgeState StateBadCredentials
                      ("slack-" +:+ ReplaceAll (Error_text err) "_" "-") ""))
         as [Hstates Hqueued];
       rewrite Hrun in Hstates, Hqueued |- *; simpl in Hstates, Hqueued; run_all;
       rewrite !app_nil_r;
       (split_and!; [done|done| |by intros []; auto]);
       intros _; (split; [done|]); eexists; (split; [done|]); (split; [done|]).
  - rewrite Hremoved. by eexists.
  - rewrite Hauth. by eexists.
  - run. split_and!; [done|done| |done]. by intros [|].
Qed.

(** X21. Loading a login. When the team portal cannot be fetched no
    session is stored and the error is "failed to get team portal".
    Otherwise a session of the team and user of the login id is stored, and
    it has a client, and an RTM client of that client, exactly when the
    login has a token that is a string, whatever the string: the client is
    made for that token, with the cookie "d" when the cookie token is a
    string that is not empty and without cookie otherwise. *)
Theorem loaded_session (main : Config) (traceLevel : bool) (login : UserLogin) :
  let r := LoadUserLogin main traceLevel login in
  match UnlockedGetPortalByID
          (mkPortalKey (slackid.MakeTeamPortalID (ParseUserLoginID (UserLogin_ID login)).1) "")
  with
  | (_, Some e) => r = (None, Some (Errorf_w "failed to get team portal" e))
  | (teamPortal, None) =>
      ∃ sc,
        r = (Some (sc, teamPortal), None)
        ∧ Login sc = login
        ∧ (TeamID sc, UserID sc) = ParseUserLoginID (UserLogin_ID login)
        ∧ match Metadata_Extra login !! "token" with
          | Some (AnyString token) =>
              IsLoggedIn sc = true
              ∧ ∃ client,
                  Client sc = Some client
                  ∧ RTM sc = Some (NewRTM client)
                  ∧ client
                    = slack_New token
                        ([OptionLog "slackgo"; OptionDebug traceLevel]
                         ++ match Metadata_Extra login !! "cookie_token" with
                            | Some (AnyString cookieToken) =>
                                if String.eqb cookieToken "" then []
                                else [OptionCookie "d" cookieToken]
                            | _ => []
                            end)
          | _ => IsLoggedIn sc = false ∧ RTM sc = None
          end
  end.
Proof.
  simpl. unfold LoadUserLogin.
  destruct (ParseUserLoginID (UserLogin_ID login)) as [teamID userID]. simpl.
  destruct (UnlockedGetPortalByID _) as [teamPortal [e|]]; [done|].
  destruct (Metadata_Extra login !! "token") as [[token|]|];
    eexists; (split; [done|]); (split; [done|]); (split; [done|]); [|done..].
  split; [done|]. eexists. split; [done|]. split; [done|].
  unfold makeSlackClient, string_at.
  destruct (Metadata_Extra login !! "cookie_token") as [[cookieToken|]|]; simpl;
    rewrite ?app_nil_r; try done.
  by destruct (String.eqb cookieToken "").
Qed.

(** X22. Invalidation does not outlast a reload. The login of a session
    that has been invalidated carries the empty string as its token, and
    the empty string is a string: when this login is loaded again and the
    team portal is found, the session that is stored has a client, made for
    the empty token and without cookie, and [IsLoggedIn] answers that it is
    logged in. *)
Theorem invalidated_login_is_loaded_with_a_client (s : SlackClient) (state : BridgeState)
    (main : Config) (traceLevel : bool) (teamPortal : option Portal) :
  let login := Login (final (invalidateSession state s)) in
  UnlockedGetPortalByID
    (mkPortalKey (slackid.MakeTeamPortalID (ParseUserLoginID (UserLogin_ID login)).1) "")
  = (teamPortal, None) →
  IsLoggedIn (final (invalidateSession state s)) = false
  ∧ ∃ sc,
      LoadUserLogin main traceLevel login = (Some (sc, teamPortal), None)
      ∧ IsLoggedIn sc = true
      ∧ Client sc = Some (slack_New "" [OptionLog "slackgo"; OptionDebug traceLevel]).
Proof.
  destruct (invalidateSession_eq s state) as (tr & -> & _). simpl.
  intros Hportal. split; [done|].
  unfold LoadUserLogin. simpl.
  destruct (ParseUserLoginID (UserLogin_ID (Login s))) as [teamID userID]. simpl in *.
  rewrite Hportal. rewrite lookup_insert_ne, lookup_insert_eq by done.
  eexists. split; [done|]. split; [done|]. simpl.
  unfold makeSlackClient, string_at. by rewrite lookup_insert_eq.
Qed.

(** *** Resolving identifiers and searching users *)

(** X23. [ResolveIdentifier]. The calls it makes are an initial part of
    the user-info request, the ghost lookup, the opening of a conversation
    and the wrapping of its metadata, in this order, and a conversation is
    opened only when a chat is to be created. Nothing is asked on a session
    without client, where the error is one made on the spot and not the
    [ErrNotLoggedIn] that the handlers of handlematrix.go return, nor for an
    identifier with a delimiter of another team than the session's.
    An identifier without delimiter is looked up in upper case. When it
    returns, it answers a response or an error and never both; the user id of
    the response is made of the session's team and the id the remote service
    answered, and the response has a chat exactly when one was to be
    created. *)
Theorem identifier_resolution (s : SlackClient) (identifier : string) (createChat : bool) :
  let r := ResolveIdentifier identifier createChat s in
  (∃ user userID users channel,
     r.1 `prefix_of` [GetUserInfo user; LookupGhost userID; OpenConversation users true;
                      WrapChatInfo channel]
     ∧ (createChat = false → (length r.1 ≤ 2)%nat)
     ∧ (ContainsRune identifier "-" = false → r.1 ≠ [] → user = strings_ToUpper identifier))
  ∧ (Client s = None →
     r = ([], Returned (None, Some not_logged_in))
     ∧ not_logged_in ≠ ErrNotLoggedIn)
  ∧ (ContainsRune identifier "-" = true →
     (slackid.ParseUserID identifier).1 ≠ TeamID s →
     r.1 = [] ∧ ∃ err, r.2 = Returned (None, Some err))
  ∧ (∀ resp err, r.2 = Returned (resp, err) →
       (is_Some resp ↔ err = None)
       ∧ ∀ response, resp = Some response →
           (is_Some (Chat response) ↔ createChat = true)
           ∧ ∃ api user userInfo,
               Client s = Some api
               ∧ GetUserInfo user ∈ r.1
               ∧ (api_GetUserInfo api user).1 = Some userInfo
               ∧ Resp_UserID response = slackid.MakeUserID (TeamID s) (User_ID userInfo)
               ∧ Resp_Ghost response = (GetGhostByID s (Resp_UserID response)).1).
Proof.
  assert (∀ e : error, is_Some (@None ResolveIdentifierResponse) ↔ Some e = None) as Herror
    by (intros e; split; [by intros [? [=]]|done]).
  simpl. unfold ResolveIdentifier.
  destruct (Client s) as [api|] eqn:Hclient.
  2: { split_and!; [|done|by intros _ _; split; [|eexists]|].
       - exists "", "", [], (mkChannel "" false None ""). split_and!; [|simpl; lia|done].
         apply prefix_nil.
       - intros ? ? [= <- <-]. split; [apply Herror|done]. }
  set (resolved := if ContainsRune identifier "-" then _ else _).
  assert (ContainsRune identifier "-" = false → resolved = Some (strings_ToUpper identifier))
    as Hupper by (intros Hplain; subst resolved; by rewrite Hplain).
  assert (ContainsRune identifier "-" = true →
          (slackid.ParseUserID identifier).1 ≠ TeamID s → resolved = None) as Hteam.
  { intros Hdelimited Hother. subst resolved. rewrite Hdelimited.
    destruct (slackid.ParseUserID identifier) as [teamID userID]. simpl in *.
    by destruct (String.eqb_spec teamID (TeamID s)). }
  clearbody resolved.
  destruct resolved as [user|].
  2: { split_and!; [|done| |].
       - exists "", "", [], (mkChannel "" false None ""). split_and!; [|simpl; lia|done].
         apply prefix_nil.
       - intros _ _. split; [done|by eexists].
       - intros ? ? [= <- <-]. split; [apply Herror|done]. }
  assert (ContainsRune identifier "-" = false → user = strings_ToUpper identifier) as Huser
    by (intros Hplain; specialize (Hupper Hplain); by simplify_eq).
  assert (ContainsRune identifier "-" = true →
          (slackid.ParseUserID identifier).1 ≠ TeamID s → False) as Hsame
    by (intros Hdelimited Hother; by specialize (Hteam Hdelimited Hother)).
  clear Hupper Hteam.
  destruct (api_GetUserInfo api user) as [[userInfo|] [e|]] eqn:Hinfo; simpl.
  1,3: split_and!; [|done|by intros ? ?%Hsame|];
    [ exists user, "", [], (mkChannel "" false None ""); split_and!; [|simpl; lia|auto];
      by apply prefix_cons, prefix_nil
    | intros ? ? [= <- <-]; split; [apply Herror|done] ].
  2: { split_and!; [|done|by intros ? ?%Hsame|done].
       exists user, "", [], (mkChannel "" false None ""). split_and!; [|simpl; lia|auto].
       by apply prefix_cons, prefix_nil. }
  set (userID := slackid.MakeUserID (TeamID s) (User_ID userInfo)).
  destruct (GetGhostByID s userID) as [ghost [e|]] eqn:Hghost; simpl.
  { split_and!; [|done|by intros ? ?%Hsame|].
    - exists user, userID, [], (mkChannel "" false None ""). split_and!; [|simpl; lia|auto].
      do 2 apply prefix_cons. apply prefix_nil.
    - intros ? ? [= <- <-]. split; [apply Herror|done]. }
  destruct createChat.
  2: { split_and!; [|done|by intros ? ?%Hsame|].
       - exists user, userID, [], (mkChannel "" false None ""). split_and!; [|simpl; lia|auto].
         do 2 apply prefix_cons. apply prefix_nil.
       - intros ? ? [= <- <-]. split; [done|]. intros ? [= <-]. simpl.
         split; [split; [by intros [? [=]]|done]|].
         exists api, user, userInfo. rewrite Hinfo. fold userID. rewrite Hghost.
         split_and!; try done. by apply elem_of_cons; left. }
  destruct (api_OpenConversation api [User_ID userInfo] true) as [resp [e|]]; simpl.
  { split_and!; [|done|by intros ? ?%Hsame|].
    - exists user, userID, [User_ID userInfo], (mkChannel "" false None "").
      split_and!; [|done|auto]. do 3 apply prefix_cons. apply prefix_nil.
    - intros ? ? [= <- <-]. split; [apply Herror|done]. }
  destruct (wrapChatInfo s resp true) as [chatInfo [e|]]; simpl.
  { split_and!; [|done|by intros ? ?%Hsame|].
    - exists user, userID, [User_ID userInfo], resp. split_and!; [done|done|auto].
    - intros ? ? [= <- <-]. split; [apply Herror|done]. }
  split_and!; [|done|by intros ? ?%Hsame|].
  - exists user, userID, [User_ID userInfo], resp. split_and!; [done|done|auto].
  - intros ? ? [= <- <-]. split; [done|]. intros ? [= <-]. simpl.
    split; [done|].
    exists api, user, userInfo. rewrite Hinfo. fold userID. rewrite Hghost.
    split_and!; try done. by apply elem_of_cons; left.
Qed.

Lemma searchResults_run (s : SlackClient) (users : list User) :
  let userIDs := (λ user, slackid.MakeUserID (TeamID s) (User_ID user)) <$> users in
  (searchResults s users).1 `prefix_of` (LookupGhost <$> userIDs)
  ∧ (∀ results, (searchResults s users).2 = inl results →
       (searchResults s users).1 = LookupGhost <$> userIDs
       ∧ Resp_UserID <$> results = userIDs
       ∧ Forall (λ user, (GetGhostByID s (slackid.MakeUserID (TeamID s) (User_ID user))).2
                         = None) users
       ∧ Forall (λ result, Chat result = None
                           ∧ Resp_Ghost result = (GetGhostByID s (Resp_UserID result)).1)
           results)
  ∧ (∀ err, (searchResults s users).2 = inr err →
       ∃ user cause,
         user ∈ users
         ∧ GetGhostByID s (slackid.MakeUserID (TeamID s) (User_ID user)) = cause
         ∧ cause.2 ≠ None
         ∧ Some err = Errorf_w "failed to get ghost" <$> cause.2
         ∧ last (searchResults s users).1
           = Some (LookupGhost (slackid.MakeUserID (TeamID s) (User_ID user)))).
Proof.
  induction users as [|user users IH]; simpl.
  { split_and!; [done|by intros ? [= <-]|done]. }
  destruct (GetGhostByID s (slackid.MakeUserID (TeamID s) (User_ID user)))
    as [ghost [e|]] eqn:Hghost; simpl.
  { split_and!; [by apply prefix_cons, prefix_nil|done|].
    intros ? [= <-]. eexists user, _. split_and!; [by apply elem_of_cons; left|done|..].
    all: done. }
  destruct (searchResults s users) as [lookups [results|err]]; simpl in *.
  - destruct IH as (Hprefix & Hall & _).
    destruct (Hall results eq_refl) as (-> & Hids & Hfound & Hresults).
    split_and!; [done| |done].
    intros ? [= <-]. csimpl. rewrite Hids. split_and!; [done|done|..].
    + apply Forall_cons_2; [by rewrite Hghost|done].
    + apply Forall_cons_2; [|done]. simpl. by rewrite Hghost.
  - destruct IH as (Hprefix & _ & Hfailed).
    split_and!; [by apply prefix_cons|done|].
    intros ? [= <-]. destruct (Hfailed err eq_refl) as (user' & cause & Hin & Hcause & Herr & Hwrap & Hlast).
    exists user', cause. split_and!; [by apply elem_of_cons; right|done|done|done|].
    destruct lookups; [done|]. by rewrite last_cons, Hlast.
Qed.

(** X24. [SearchUsers]. On a session without client nothing is asked;
    an error of the search is returned as it is, without results and
    without any ghost lookup. Otherwise the ghosts of the users found are
    looked up in the order of the results, under the user ids made of the
    session's team and the ids found. When all lookups succeed there is one
    result for each user found, in the same order, with these user ids and
    ghosts and without chat. The first lookup that fails is the last one
    made: the results gathered so far are dropped and the error is "failed
    to get ghost". *)
Theorem user_search (s : SlackClient) (query : string) :
  let r := SearchUsers query s in
  match Client s with
  | None => r = ([], (None, Some not_logged_in))
  | Some api =>
      let found := api_SearchUsersCache api (TeamID s) query in
      let userIDs := (λ user, slackid.MakeUserID (TeamID s) (User_ID user)) <$> found.1 in
      (is_Some r.2.1 ↔ r.2.2 = None)
      ∧ r.1 `prefix_of` (SearchUsersCache (TeamID s) query :: (LookupGhost <$> userIDs))
      ∧ (∀ e, found.2 = Some e →
           r = ([SearchUsersCache (TeamID s) query], (None, Some e)))
      ∧ (∀ results, r.2.1 = Some results →
           r.1 = SearchUsersCache (TeamID s) query :: (LookupGhost <$> userIDs)
           ∧ Resp_UserID <$> results = userIDs
           ∧ Forall (λ result, Chat result = None
                               ∧ Resp_Ghost result = (GetGhostByID s (Resp_UserID result)).1)
               results)
      ∧ (found.2 = None → ∀ err, r.2.2 = Some err →
           ∃ user cause,
             user ∈ found.1
             ∧ (GetGhostByID s (slackid.MakeUserID (TeamID s) (User_ID user))).2 = Some cause
             ∧ err = Errorf_w "failed to get ghost" cause
             ∧ last r.1 = Some (LookupGhost (slackid.MakeUserID (TeamID s) (User_ID user))))
  end.
Proof.
  simpl. unfold SearchUsers.
  destruct (Client s) as [api|]; [|done].
  destruct (api_SearchUsersCache api (TeamID s) query) as [users [e|]]; simpl.
  { split_and!; [split; [by intros [? [=]]|done]| |by intros ? [= <-]|done|done].
    by apply prefix_cons, prefix_nil. }
  destruct (searchResults_run s users) as (Hprefix & Hall & Hfailed).
  destruct (searchResults s users) as [lookups [results|err]]; simpl in *.
  - destruct (Hall results eq_refl) as (-> & Hids & _ & Hresults).
    split_and!; [done|done|done| |done].
    by intros ? [= <-].
  - split_and!; [split; [by intros [? [=]]|done]|by apply prefix_cons|done|done|].
    intros _ ? [= <-].
    destruct (Hfailed err eq_refl) as (user & cause & Hin & Hcause & Herr & Hwrap & Hlast).
    destruct cause as [ghost [e|]]; [|done]. simpl in *.
    exists user, e. rewrite Hcause. split_and!; [done|done|by simplify_eq|].
    destruct lookups; [done|]. by rewrite last_cons, Hlast.
Qed.

(** *** What a queued event answers *)

Lemma makeEventMeta_resolved (s : SlackClient) (channelID : string)
    (channel : option Channel) (senderID timestamp : string) :
  ∃ meta err,
    makeEventMeta channelID channel senderID timestamp s
    = mkRun s
        match channel with
        | Some _ => []
        | None => [FindPortalReceiver (slackid.MakePortalID (TeamID s) channelID)
                     (UserLogin_ID (Login s))]
        end
        (Returned (meta, err))
    ∧ CreatePortal meta = false
    ∧ (err = None →
       Meta_PortalKey meta
       = match channel with
         | Some ch => makePortalKey s ch
         | None =>
             (br_FindPortalReceiver (UserLogin_Bridge (Login s))
                (slackid.MakePortalID (TeamID s) channelID) (UserLogin_ID (Login s))).1
         end
       ∧ (channel = None → IsEmpty (Meta_PortalKey meta) = false)
       ∧ Sender meta = (if String.eqb senderID "" then mkEventSender false "" ""
                        else makeEventSender s senderID)
       ∧ Meta_ID meta = (if String.eqb timestamp "" then ""
                         else slackid.MakeMessageID (TeamID s) channelID timestamp)).
Proof.
  unfold makeEventMeta. run. destruct channel as [ch|]; run.
  - eexists _, _. split; [done|].
    by destruct (String.eqb senderID ""), (String.eqb timestamp "").
  - destruct (br_FindPortalReceiver _ _ _) as [key [e|]]; run.
    { by eexists _, _. }
    destruct (IsEmpty key) eqn:Hempty; run.
    { by eexists _, _. }
    eexists _, _. split; [done|].
    by destruct (String.eqb senderID ""), (String.eqb timestamp "").
Qed.

(** X25. What an event that is queued answers the bridge. When
    [wrapEvent] returns an event without error, which is when
    [HandleSlackEvent] queues it, the event is of one of the fourteen kinds
    that are wrapped, and its meta has the type of its kind. Its portal key
    is the key of the descriptor for a channel-joined and a group-joined
    event, and otherwise the key that the directory answered for the channel
    of the event, which is not empty. The portal may be created for a
    message, a channel-joined, a group-joined and a channel-update event and
    for no other. The sender is the event sender of the user of the event,
    the session's own user for the marked, joined and left events, and
    empty when the event names none; the message id is the one of the
    timestamp of the event in its channel, and empty without timestamp. *)
Theorem queued_event_answers (s : SlackClient) (rawEvt : SlackEvent) (wrapped : RemoteEvent) :
  outcome (wrapEvent rawEvt s) = Returned (Some wrapped, None) →
  wrappable rawEvt = true
  ∧ Type_ (metaOf wrapped) = typeOfEvent rawEvt
  ∧ ShouldCreatePortal wrapped = createsPortal rawEvt
  ∧ GetPortalKey wrapped
    = match descriptorOf rawEvt with
      | Some channel => makePortalKey s channel
      | None =>
          (br_FindPortalReceiver (UserLogin_Bridge (Login s))
             (slackid.MakePortalID (TeamID s) (channelOfEvent rawEvt))
             (UserLogin_ID (Login s))).1
      end
  ∧ (descriptorOf rawEvt = None → IsEmpty (GetPortalKey wrapped) = false)
  ∧ GetSender wrapped
    = (if String.eqb (senderOfEvent s rawEvt) "" then mkEventSender false "" ""
       else makeEventSender s (senderOfEvent s rawEvt))
  ∧ GetID wrapped
    = (if String.eqb (timestampOfEvent rawEvt) "" then ""
       else slackid.MakeMessageID (TeamID s) (channelOfEvent rawEvt)
              (timestampOfEvent rawEvt)).
Proof.
  unfold GetPortalKey, GetSender, ShouldCreatePortal, GetID.
  unfold wrapEvent.
  destruct rawEvt as
    [ | | | | | evt | user item reaction ts | user item reaction ts | user channel
    | channel ts | channel ts | channel ts | channel | channel ts | channel | channel ts
    | user channel | user channel | channel ts | | | | | | | | | | | ];
    unfold mbind, M_bind; rewrite bind_get; cbv beta iota;
    try (run; by intros [=]).
  all: rewrite bind_run.
  all: match goal with
       | |- context [makeEventMeta ?c ?d ?u ?t ?s0] =>
           destruct (makeEventMeta_resolved s0 c d u t)
             as (meta & err & -> & Hcreate & Hresolved)
       end.
  all: run.
  all: try match goal with
           | |- context [bind (wrapReaction ?m ?r ?a ?t) _ ?s0] =>
               rewrite bind_run;
               destruct (wrapReaction_full s0 m r a t) as (emoji & extra & -> & _); run
           end.
  all: try match goal with
           | |- context [fetchChatInfo ?a ?b ?c] =>
               destruct (fetchChatInfo a b c) as [info [e|]]; run; [by intros [=]|]
           end.
  all: intros [= <- ->]; simpl.
  all: destruct (Hresolved eq_refl) as (Hkey & Hfound & Hsender & Hid).
  all: split_and!; try done.
Qed.

End connector.

(** ** Properties of the identifier codec *)

Module slackid_facts.
Import slackid.

Lemma Split_nonempty (s : string) : Split s ≠ [].
Proof.
  induction s as [|c rest IH]; simpl; [done|].
  destruct (Ascii.eqb c sep); [done|]. by destruct (Split rest).
Qed.

Lemma Split_WellFormed (s : string) : WellFormed s → Split s = [s].
Proof.
  unfold WellFormed. induction s as [|c rest IH]; simpl; [done|].
  intros [Hc Hrest]%orb_false_iff. rewrite Hc, (IH Hrest). done.
Qed.

Lemma Split_app (s rest : string) :
  WellFormed s → Split (s +:+ String sep rest) = s :: Split rest.
Proof.
  unfold WellFormed. induction s as [|c s IH]; intros Hs.
  - change (Split (String sep rest) = EmptyString :: Split rest).
    reflexivity.
  - simpl in Hs. apply orb_false_iff in Hs as [Hc Hs].
    change (Split (String c (s +:+ String sep rest)) = String c s :: Split rest).
    simpl. by rewrite Hc, (IH Hs).
Qed.

Lemma ParsePortalID_MakePortalID (teamID channelID : string) :
  WellFormed teamID → WellFormed channelID →
  ParsePortalID (MakePortalID teamID channelID) = (teamID, channelID).
Proof.
  intros Ht Hc. unfold ParsePortalID, MakePortalID.
  change ("-" +:+ channelID) with (String sep channelID).
  by rewrite (Split_app _ _ Ht), (Split_WellFormed _ Hc).
Qed.

Lemma ParseMessageID_MakeMessageID (teamID channelID timestamp : string) :
  WellFormed teamID → WellFormed channelID → WellFormed timestamp →
  ParseMessageID (MakeMessageID teamID channelID timestamp)
  = (teamID, channelID, timestamp, true).
Proof.
  intros Ht Hc Hts. unfold ParseMessageID, MakeMessageID.
  change ("-" +:+ channelID +:+ "-" +:+ timestamp)
    with (String sep (channelID +:+ String sep timestamp)).
  by rewrite (Split_app _ _ Ht), (Split_app _ _ Hc), (Split_WellFormed _ Hts).
Qed.

(** C1. Decoding an encoded identifier recovers the tuple it was made
    from: for well-formed components (none contains the delimiter),
    [ParsePortalID (MakePortalID team channel) = (team, channel)], and the
    same for user identifiers, for message identifiers (team, channel,
    timestamp; the decoder also answers [ok]), and for emoji identifiers,
    which are the emoji name under another type. *)
Theorem identifier_roundtrip (teamID channelID userID timestamp emoji : string) :
  WellFormed teamID → WellFormed channelID →
  WellFormed userID → WellFormed timestamp →
  ParsePortalID (MakePortalID teamID channelID) = (teamID, channelID)
  ∧ ParseUserID (MakeUserID teamID userID) = (teamID, userID)
  ∧ ParseMessageID (MakeMessageID teamID channelID timestamp)
    = (teamID, channelID, timestamp, true)
  ∧ emoji_string (mkEmojiID emoji) = emoji.
Proof.
  intros Ht Hc Hu Hts. split_and!.
  - by apply ParsePortalID_MakePortalID.
  - by apply (ParsePortalID_MakePortalID teamID userID).
  - by apply ParseMessageID_MakeMessageID.
  - done.
Qed.

Lemma identifier_roundtrip_witness :
  ParsePortalID (MakePortalID "T024BE7LD" "C061EG9SL") = ("T024BE7LD", "C061EG9SL")
  ∧ ParseUserID (MakeUserID "T024BE7LD" "U2147483697") = ("T024BE7LD", "U2147483697")
  ∧ ParseMessageID (MakeMessageID "T024BE7LD" "C061EG9SL" "1355517523.000005")
    = ("T024BE7LD", "C061EG9SL", "1355517523.000005", true)
  ∧ emoji_string (mkEmojiID "thumbsup") = "thumbsup".
Proof.
  apply (identifier_roundtrip "T024BE7LD" "C061EG9SL" "U2147483697"
           "1355517523.000005" "thumbsup"); reflexivity.
Defined.

End slackid_facts.

(** ** The development on the concrete world *)

Module on_example.
Import example.

(** The reconciliation of the example session: [general] has its room
    and is only refreshed, the closed direct message is skipped, and rooms
    are created for the open direct message, [random] and [announcements],
    the one read longest ago first. *)
Example SyncChannels_session :
  let r := SyncChannels makePortalKey getChatInfo session in
  outcome r = Returned tt
  ∧ conversations_requested (trace r) = [(100, ""); (100, "page2")]
  ∧ refreshed (trace r) = [generalRoom]
  ∧ portals_requested (trace r)
    = [makePortalKey session openDM; makePortalKey session random;
       makePortalKey session announcements]
  ∧ length (rooms_created (trace r)) = 3%nat.
Proof. vm_compute. done. Qed.

(** The example session is answered: its conversation list comes in two
    pages without error, its portals are listed, and the directory knows
    them. *)
Example session_is_answered : answered session.
Proof.
  split_and!.
  - vm_compute. by repeat constructor.
  - reflexivity.
  - vm_compute. by repeat constructor.
Qed.

Example SyncChannels_session_reconciled :
  reconciled session (SyncChannels makePortalKey getChatInfo session).
Proof.
  split; [by vm_compute|]. split; [|reflexivity].
  vm_compute. repeat constructor.
Qed.

Example HandleMatrixMessage_text :
  outcome (HandleMatrixMessage ParseSlackTimestamp ToSlack
             (mkMatrixMessage generalRoom "hello" None None) session)
  = Returned (Some (mkMatrixMessageResponse
                      (Some (mkDBMessage "T024BE7LD-C061EG9SL-1355517523.000005"
                               "T024BE7LD-U2147483697" 17))
                      false),
              None).
Proof. vm_compute. done. Qed.

Example wrapEvent_unknown_channel :
  outcome (HandleSlackEvent makePortalKey makeEventSender GetEmoji fetchChatInfo
             ParseSlackTimestamp (UserTypingEvent "U1" "C0UNKNOWN") session)
  = Returned tt
  ∧ events_queued
      (trace (HandleSlackEvent makePortalKey makeEventSender GetEmoji fetchChatInfo
                ParseSlackTimestamp (UserTypingEvent "U1" "C0UNKNOWN") session))
    = [].
Proof. vm_compute. done. Qed.

Lemma session_invalidated_witness :
  identity_failure session (ConnectedEvent "T024BE7LD" "U0000000000")
  ∧ let r := HandleSlackEvent makePortalKey makeEventSender GetEmoji fetchChatInfo
               ParseSlackTimestamp (ConnectedEvent "T024BE7LD" "U0000000000") session in
    outcome r = Returned tt
    ∧ Metadata_Extra (Login (final r)) !! "token" = Some (AnyString "")
    ∧ Metadata_Extra (Login (final r)) !! "cookie_token" = Some (AnyString "")
    ∧ Save (Metadata_Extra (Login (final r))) ∈ trace r
    ∧ Client (final r) = None
    ∧ RTM (final r) = None
    ∧ (is_Some (RTM session) → RTMDisconnect ∈ trace r)
    ∧ states_sent (trace r) = [failure_state (ConnectedEvent "T024BE7LD" "U0000000000")]
    ∧ events_queued (trace r) = [].
Proof.
  assert (identity_failure session (ConnectedEvent "T024BE7LD" "U0000000000")) as Hfail
    by (right; discriminate).
  split; [exact Hfail|].
  exact (session_invalidated makePortalKey makeEventSender GetEmoji fetchChatInfo
           ParseSlackTimestamp session (ConnectedEvent "T024BE7LD" "U0000000000") Hfail).
Defined.

Lemma outbound_dispatch_witness :
  Client session = Some api
  ∧ remote_calls
      (trace (sendToSlack "C061EG9SL"
                (mkConverted (Some (mkMsgOption "hello")) (Some (mkUpload "file:a")) None)
                None session))
    = [PostMessage "C061EG9SL" (mkMsgOption "hello")].
Proof.
  split; [reflexivity|].
  exact (outbound_dispatch session api "C061EG9SL"
           (mkConverted (Some (mkMsgOption "hello")) (Some (mkUpload "file:a")) None)
           None eq_refl).
Defined.

Lemma upload_timestamp_witness :
  Client session = Some api
  ∧ api_UploadFileV2 api (mkUpload "file:pending") = (mkFile "F0PENDING" ∅ ∅, None)
  ∧ outcome (sendToSlack "C061EG9SL"
               (mkConverted None (Some (mkUpload "file:pending")) None)
               (Some pendingUpload) session)
    = Returned ("", None)
  ∧ outcome (HandleMatrixMessage ParseSlackTimestamp ToSlack pendingUpload session)
    = Returned (Some (mkMatrixMessageResponse None true), None).
Proof.
  split; [reflexivity|]. split; [reflexivity|].
  destruct (upload_timestamp ParseSlackTimestamp ToSlack session api "C061EG9SL"
              (mkUpload "file:pending") None pendingUpload (mkFile "F0PENDING" ∅ ∅)
              eq_refl eq_refl) as (_ & _ & Hneither).
  destruct (Hneither eq_refl eq_refl) as (Hsend & _ & Hhandle).
  split; [exact Hsend|].
  apply Hhandle; [reflexivity|discriminate|reflexivity].
Defined.

(** C7, the claim as it is stated fails both ways. On the room name: the
    session that is not a real user renames the conversation on the remote
    service. On the single call of a real user: the read receipt of the real
    user's session for a portal in which the store has no message returns
    success without any request. *)
Lemma room_name_not_gated :
  IsRealUser puppet = false
  ∧ outcome (HandleMatrixRoomName roomNameRequest puppet) = Returned (true, None)
  ∧ remote_calls (trace (HandleMatrixRoomName roomNameRequest puppet))
    = [RenameConversation "C061EG9SL" "general"]
  ∧ remote_calls (trace (HandleMatrixRoomName roomNameRequest puppet)) ≠ []
  ∧ IsRealUser session = true
  ∧ Client session = Some api
  ∧ outcome (HandleMatrixReadReceipt (mkMatrixReadReceipt generalRoom None 17) session)
    = Returned None
  ∧ remote_calls
      (trace (HandleMatrixReadReceipt (mkMatrixReadReceipt generalRoom None 17) session))
    = [].
Proof. vm_compute. split_and!; try reflexivity. discriminate. Qed.

Lemma presence_gated_by_real_user_witness :
  Client puppet = Some api
  ∧ (∀ msg, outcome (HandleMatrixTyping msg puppet) = Returned None
            ∧ trace (HandleMatrixTyping msg puppet) = [])
  ∧ remote_calls (trace (HandleMatrixRoomName roomNameRequest puppet))
    = [RenameConversation "C061EG9SL" "general"].
Proof.
  split; [reflexivity|].
  destruct (presence_gated_by_real_user puppet api eq_refl)
    as (Hgated & _ & Hname & _).
  split; [exact (proj2 (Hgated eq_refl))|].
  apply (Hname roomNameRequest). discriminate.
Defined.

(** C8, at the input on which the code departs from it: on the session
    that is logged out, the change of a room name and the change of a room
    topic do not answer [ErrNotLoggedIn]; they reach the request on the
    [nil] client and panic. *)
Lemma room_handlers_on_logged_out_session :
  Client loggedOut = None
  ∧ outcome (HandleMatrixRoomName roomNameRequest loggedOut) = Panicked nil_dereference
  ∧ outcome (HandleMatrixRoomTopic (mkMatrixRoomTopic generalRoom "news") loggedOut)
    = Panicked nil_dereference
  ∧ outcome (HandleMatrixTyping (mkMatrixTyping generalRoom) loggedOut)
    = Returned (Some ErrNotLoggedIn).
Proof. vm_compute. done. Qed.

Lemma message_changed_is_stub_edit_witness :
  SubType changedMessage = MsgSubTypeMessageChanged
  ∧ ∃ meta metaErr,
      outcome (wrapEvent makePortalKey makeEventSender GetEmoji fetchChatInfo
                 ParseSlackTimestamp (MessageEvent_ changedMessage) session)
      = Returned (Some (SlackMessage meta changedMessage), metaErr)
      ∧ GetType (SlackMessage meta changedMessage) = RemoteEventEdit
      ∧ ∀ portal existing s',
          outcome (ConvertEdit meta changedMessage portal existing s')
          = Panicked "implement me"
          ∧ trace (ConvertEdit meta changedMessage portal existing s') = []
          ∧ final (ConvertEdit meta changedMessage portal existing s') = s'.
Proof.
  split; [reflexivity|].
  exact (message_changed_is_stub_edit makePortalKey makeEventSender GetEmoji fetchChatInfo
           ParseSlackTimestamp session changedMessage eq_refl).
Defined.

Lemma legacy_token_creates_no_room_witness :
  String.prefix "xoxs" (string_at (Metadata_Extra (Login legacySession)) "token") = true
  ∧ let r := SyncChannels makePortalKey getChatInfo legacySession in
    conversations_requested (trace r) = []
    ∧ portals_requested (trace r) = []
    ∧ rooms_created (trace r) = []
    ∧ (∀ e, e ∈ remote_calls (trace r) → ∃ portal, e = GetChatInfo portal).
Proof.
  assert (String.prefix "xoxs" (string_at (Metadata_Extra (Login legacySession)) "token")
          = true) as Hlegacy by (vm_compute; reflexivity).
  split; [exact Hlegacy|].
  exact (legacy_token_creates_no_room makePortalKey getChatInfo legacySession Hlegacy).
Defined.

(** The extras that have hypotheses, on the example. *)

Lemma lifecycle_events_are_no_chat_events_witness :
  wrappable (ConnectingEvent 1 1) = false
  ∧ ¬ identity_failure session (ConnectingEvent 1 1)
  ∧ states_sent
      (trace (HandleSlackEvent makePortalKey makeEventSender GetEmoji fetchChatInfo
                ParseSlackTimestamp (ConnectingEvent 1 1) session))
    = [mkBridgeState StateConnecting "" ""].
Proof.
  assert (¬ identity_failure session (ConnectingEvent 1 1)) as Hfail by (intros []).
  split; [reflexivity|]. split; [exact Hfail|].
  destruct (lifecycle_events_are_no_chat_events makePortalKey makeEventSender GetEmoji
              fetchChatInfo ParseSlackTimestamp session (ConnectingEvent 1 1) eq_refl Hfail)
    as (_ & _ & _ & _ & Hstates).
  exact Hstates.
Defined.

Lemma wrapped_event_is_queued_once_witness :
  wrappable (UserTypingEvent "U1" "C061EG9SL") = true
  ∧ final (HandleSlackEvent makePortalKey makeEventSender GetEmoji fetchChatInfo
             ParseSlackTimestamp (UserTypingEvent "U1" "C061EG9SL") session)
    = session.
Proof.
  split; [reflexivity|].
  destruct (wrapped_event_is_queued_once makePortalKey makeEventSender GetEmoji
              fetchChatInfo ParseSlackTimestamp session (UserTypingEvent "U1" "C061EG9SL")
              eq_refl)
    as (wrapped & err & _ & _ & Hfinal & _).
  exact Hfinal.
Defined.

Lemma membership_events_translation_witness :
  membershipOf (ChannelJoinedEvent general) = Some (MembershipJoin, "", true)
  ∧ ∃ meta err,
      outcome (wrapEvent makePortalKey makeEventSender GetEmoji fetchChatInfo
                 ParseSlackTimestamp (ChannelJoinedEvent general) session)
      = Returned
          (Some (SlackChatInfoChange meta
                   (mkChatInfoChange None
                      (Some [mkChatMember (Sender meta) MembershipJoin ""]))),
           err)
      ∧ Type_ meta = RemoteEventChatInfoChange
      ∧ CreatePortal meta = true.
Proof.
  split; [reflexivity|].
  destruct (membership_events_translation makePortalKey makeEventSender GetEmoji
              fetchChatInfo ParseSlackTimestamp session (ChannelJoinedEvent general)
              MembershipJoin "" true eq_refl)
    as (meta & err & Hwrapped & Htype & Hcreate & _).
  exists meta, err. split; [exact Hwrapped|]. split; [exact Htype|exact Hcreate].
Defined.

Lemma synchronisation_needs_a_client_witness :
  Client loggedOut = None
  ∧ Backfill_ConversationCount (Main_Config loggedOut) > 0
  ∧ SyncChannels makePortalKey getChatInfo loggedOut
    = mkRun loggedOut [Log DebugLevel "Fetching conversation list for sync"]
        (Panicked nil_dereference).
Proof.
  split; [reflexivity|]. split; [reflexivity|].
  exact (synchronisation_needs_a_client makePortalKey getChatInfo loggedOut
           eq_refl eq_refl eq_refl).
Defined.

Lemma target_message_requests_witness :
  Client session = Some api
  ∧ HandleMatrixMessageRemove (mkMatrixMessageRemove sentMessage) session
    = mkRun session [DeleteMessage "C061EG9SL" "1355517523.000005"] (Returned None).
Proof.
  split; [reflexivity|].
  destruct (target_message_requests session api eq_refl) as [Hremove _].
  exact (Hremove (mkMatrixMessageRemove sentMessage)).
Defined.

Lemma reaction_removal_answer_witness :
  slackid.ParseMessageID (Reaction_MessageID (TargetReaction reactionRemoval))
  = ("T024BE7LD", "C061EG9SL", "1355517523.000005", true)
  ∧ trace (HandleMatrixReactionRemove reactionRemoval session)
    = [RemoveReaction "heart" "C061EG9SL" "1355517523.000005"].
Proof.
  split; [reflexivity|].
  destruct (reaction_removal_answer session api reactionRemoval
              "T024BE7LD" "C061EG9SL" "1355517523.000005" eq_refl eq_refl)
    as (Htrace & _).
  exact Htrace.
Defined.

Lemma read_receipt_target_witness :
  IsRealUser session = true
  ∧ HandleMatrixReadReceipt (mkMatrixReadReceipt generalRoom (Some sentMessage) 17) session
    = markConversation (DBMessage_ID sentMessage) session.
Proof.
  split; [reflexivity|].
  destruct (read_receipt_target session api
              (mkMatrixReadReceipt generalRoom (Some sentMessage) 17) eq_refl eq_refl)
    as [Hexact _].
  exact Hexact.
Defined.

Lemma reaction_is_added_under_the_chosen_emoji_witness :
  PreHandleMatrixReaction GetByMXC GetShortcode strconv_Quote "<3" session
  = Returned (mkMatrixReactionPreResponse "T024BE7LD-U2147483697" (mkEmojiID "heart"), None)
  ∧ trace (HandleMatrixReaction (mkMatrixReaction sentMessage (mkEmojiID "heart")) session)
    = [AddReaction "heart" "C061EG9SL" "1355517523.000005"].
Proof.
  split; [reflexivity|].
  destruct (reaction_is_added_under_the_chosen_emoji GetByMXC GetShortcode strconv_Quote
              session api "<3" sentMessage
              (mkMatrixReactionPreResponse "T024BE7LD-U2147483697" (mkEmojiID "heart"))
              "T024BE7LD" "C061EG9SL" "1355517523.000005" eq_refl eq_refl eq_refl)
    as [Htrace _].
  exact Htrace.
Defined.

Lemma invalidated_login_is_loaded_with_a_client_witness :
  let state := mkBridgeState StateBadCredentials "slack-invalid-auth" "" in
  let teamPortal := Some (mkPortal (mkPortalKey "T024BE7LD" "") "!team:example.org") in
  IsLoggedIn (final (invalidateSession state session)) = false
  ∧ ∃ sc,
      LoadUserLogin ParseUserLoginID slack_New NewRTM UnlockedGetPortalByID
        (mkConfig false 250) false (Login (final (invalidateSession state session)))
      = (Some (sc, teamPortal), None)
      ∧ IsLoggedIn sc = true.
Proof.
  simpl.
  destruct (invalidated_login_is_loaded_with_a_client ParseUserLoginID slack_New NewRTM
              UnlockedGetPortalByID session
              (mkBridgeState StateBadCredentials "slack-invalid-auth" "")
              (mkConfig false 250) false
              (Some (mkPortal (mkPortalKey "T024BE7LD" "") "!team:example.org")) eq_refl)
    as (Hout & sc & Hloaded & Hin & _).
  split; [exact Hout|]. exists sc. split; [exact Hloaded|exact Hin].
Defined.

Lemma queued_event_answers_witness :
  let wrapped :=
    SlackTyping
      (mkSlackEventMeta RemoteEventTyping generalPortal (makeEventSender session "U1")
         zeroTime "" false) in
  outcome (wrapEvent makePortalKey makeEventSender GetEmoji fetchChatInfo
             ParseSlackTimestamp (UserTypingEvent "U1" "C061EG9SL") session)
  = Returned (Some wrapped, None)
  ∧ ShouldCreatePortal wrapped = false
  ∧ IsEmpty (GetPortalKey wrapped) = false.
Proof.
  simpl.
  assert (outcome (wrapEvent makePortalKey makeEventSender GetEmoji fetchChatInfo
                     ParseSlackTimestamp (UserTypingEvent "U1" "C061EG9SL") session)
          = Returned
              (Some (SlackTyping
                       (mkSlackEventMeta RemoteEventTyping generalPortal
                          (makeEventSender session "U1") zeroTime "" false)),
               None)) as Hwrapped by reflexivity.
  split; [exact Hwrapped|].
  destruct (queued_event_answers makePortalKey makeEventSender GetEmoji fetchChatInfo
              ParseSlackTimestamp session (UserTypingEvent "U1" "C061EG9SL") _ Hwrapped)
    as (_ & _ & Hcreate & _ & Hfound & _).
  split; [exact Hcreate|exact (Hfound eq_refl)].
Defined.

End on_example.
